(** * Verification of the weewx-rtldavis driver (bin/user/rtldavis.py)

    A shallow embedding of the driver's calibration functions, frame
    parser, payload dispatch, link-quality tracker and construction-time
    checks, followed by the properties established about them.

    Conventions of the embedding:
    - Python [int] is [Z]; a Python [float] obtained from integers with
      [+ - * /] is its exact rational value in [Q]; the one place that
      uses [math.log] is embedded over [R];
    - a Python exception is the [Raise] branch of [result]; code that
      mutates [self.stats] before it raises returns the mutated state
      together with the exception;
    - text lines are [string]s of 8-bit characters. *)

From Stdlib Require Import ZArith QArith Qround Reals Psatz Lia Bool List Ascii String.
From stdpp Require Import base option list strings gmap pretty.

Local Open Scope Z_scope.

(** ** Python exceptions and results *)

Inductive exn : Type :=
  | ValueError (msg : string)
  | NameError (name : string)
  | IndexError
  | KeyError (key : string)
  | ZeroDivisionError
  | WeeWxIOError (msg : string).

Inductive result (A : Type) : Type :=
  | Ok (a : A)
  | Raise (e : exn).
Arguments Ok {A} a.
Arguments Raise {A} e.

#[global] Instance result_ret : MRet result := @Ok.
#[global] Instance result_bind : MBind result := fun A B k r =>
  match r with
  | Ok a => k a
  | Raise e => Raise e
  end.

(** [try: body except ValueError: handler] *)
Definition try_except_ValueError {A : Type}
    (body : result A) (handler : string -> result A) : result A :=
  match body with
  | Raise (ValueError msg) => handler msg
  | r => r
  end.

Definition is_ok {A : Type} (r : result A) : bool :=
  match r with Ok _ => true | Raise _ => false end.

(** [l[i]] on a Python list: [IndexError] past the end. *)
Definition index {A : Type} (l : list A) (i : nat) : result A :=
  match l !! i with
  | Some a => Ok a
  | None => Raise IndexError
  end.

(** ** Wind speed error correction: [calc_wind_speed_ec], [interpolate] *)

Definition windtab : list (list Z) := [
    [0; 1; 4; 8; 12; 16; 20; 24; 28; 32; 36; 40; 44; 48; 52; 56; 60; 64; 68; 72; 76; 80; 84; 88; 92; 96; 100; 104; 108; 112; 116; 120; 124; 127; 128];
    [1; 0; 0; 0; 0; 0; 0; 0; 0; 0; 0; 0; 0; 0; 0; 0; 0; 0; 0; 0; 0; 0; 0; 0; 0; 0; 0; 0; 0; 0; 0; 0; 0; 0; 0];
    [2; 0; 0; 0; 0; 0; 0; 0; 0; 0; 0; 0; 0; 0; 0; 0; 0; 0; 0; 0; 0; 0; 0; 0; 0; 0; 0; 0; 0; 0; 0; 0; 0; 0; 0];
    [3; 0; 0; 0; 0; 0; 0; 0; 0; 0; 0; 0; 0; 0; 0; 0; 0; 0; 0; 0; 0; 0; 0; 0; 0; 0; 0; 0; 0; 1; 1; 1; 0; 0; 0];
    [4; 0; 0; 0; 0; 0; 0; 0; 0; 0; 0; 0; 0; 0; 0; 0; 0; 0; 0; 0; 0; 0; 0; 0; 0; 0; 0; 0; 0; 1; 1; 1; 0; 0; 0];
    [5; 0; 0; 0; 0; 0; 0; 0; 0; 0; 0; 0; 0; 0; 0; 0; 0; 1; 1; 1; 1; 1; 0; 0; 0; 0; 0; 0; 0; 1; 1; 1; 1; 0; 0];
    [6; 1; 1; 1; 0; 0; 0; 0; 0; 0; 0; 0; 0; 0; 1; 1; 1; 1; 1; 1; 1; 1; 1; 1; 1; 1; 0; 0; 1; 1; 1; 1; 1; 0; 0];
    [7; 1; 1; 1; 1; 1; 1; 0; 0; 0; 0; 1; 1; 1; 1; 1; 1; 1; 1; 1; 1; 1; 1; 1; 1; 1; 1; 1; 1; 1; 2; 2; 1; 0; 0];
    [8; 1; 1; 1; 1; 1; 1; 1; 1; 1; 1; 1; 1; 1; 1; 1; 1; 1; 1; 1; 1; 1; 1; 1; 1; 1; 1; 1; 1; 1; 2; 2; 1; 0; 0];
    [9; 1; 1; 1; 1; 1; 1; 1; 1; 1; 1; 1; 1; 1; 1; 1; 1; 1; 1; 1; 1; 1; 1; 1; 1; 1; 1; 1; 1; 1; 2; 2; 1; 0; 0];
    [10; 1; 1; 1; 1; 1; 1; 1; 1; 1; 1; 1; 1; 1; 1; 1; 1; 1; 1; 1; 1; 1; 1; 1; 1; 1; 1; 1; 1; 2; 2; 2; 1; 0; 0];
    [11; 1; 1; 1; 1; 1; 1; 1; 1; 1; 1; 1; 1; 1; 1; 1; 1; 1; 1; 1; 1; 1; 1; 1; 1; 1; 1; 1; 1; 2; 2; 2; 1; 0; 0];
    [12; 1; 1; 1; 1; 1; 1; 1; 1; 1; 1; 1; 1; 1; 1; 1; 1; 1; 1; 1; 1; 1; 1; 1; 1; 1; 1; 1; 1; 2; 2; 2; 1; 0; 0];
    [13; 1; 1; 1; 1; 1; 1; 1; 1; 1; 1; 1; 1; 1; 1; 1; 1; 1; 1; 1; 1; 1; 1; 1; 1; 1; 1; 1; 1; 2; 3; 3; 1; 0; 0];
    [14; 1; 1; 1; 1; 1; 1; 1; 1; 1; 1; 1; 1; 1; 1; 1; 1; 1; 1; 1; 1; 1; 1; 1; 1; 1; 1; 1; 1; 2; 3; 3; 1; 0; 0];
    [15; 1; 1; 1; 1; 1; 1; 1; 1; 1; 1; 1; 1; 1; 1; 1; 1; 1; 1; 1; 1; 1; 1; 1; 1; 1; 1; 1; 1; 2; 3; 3; 1; 0; 0];
    [16; 1; 1; 1; 1; 1; 1; 1; 1; 1; 1; 1; 1; 1; 1; 1; 1; 1; 1; 1; 1; 1; 1; 1; 1; 1; 1; 1; 1; 2; 3; 3; 1; 0; 0];
    [17; 1; 1; 1; 1; 1; 1; 1; 1; 1; 1; 1; 1; 1; 1; 1; 1; 1; 1; 1; 1; 1; 1; 1; 1; 1; 1; 1; 1; 2; 3; 3; 1; 0; 0];
    [18; 1; 1; 1; 1; 1; 1; 1; 1; 1; 1; 1; 1; 1; 1; 1; 1; 1; 1; 1; 1; 1; 1; 1; 1; 1; 1; 1; 1; 2; 3; 3; 1; 0; 0];
    [19; 1; 1; 1; 1; 1; 1; 1; 1; 1; 1; 1; 1; 1; 1; 1; 1; 1; 1; 1; 1; 1; 1; 1; 1; 1; 1; 1; 1; 3; 4; 4; 1; 0; 0];
    [20; 1; 1; 1; 1; 1; 1; 1; 1; 1; 1; 1; 1; 1; 1; 1; 1; 1; 1; 1; 2; 1; 1; 1; 1; 1; 1; 1; 1; 3; 4; 4; 2; 0; 0];
    [21; 1; 1; 1; 1; 1; 1; 1; 1; 1; 1; 1; 1; 1; 1; 1; 1; 1; 2; 2; 2; 1; 1; 1; 1; 1; 1; 1; 1; 3; 4; 4; 2; 0; 0];
    [22; 1; 1; 1; 1; 1; 1; 1; 1; 1; 1; 1; 1; 1; 1; 1; 1; 2; 2; 2; 2; 2; 1; 1; 1; 1; 1; 1; 1; 3; 4; 4; 2; 0; 0];
    [23; 1; 1; 1; 1; 1; 1; 1; 1; 1; 1; 1; 1; 1; 1; 1; 1; 2; 2; 2; 2; 2; 1; 1; 1; 1; 1; 1; 1; 3; 4; 4; 2; 0; 0];
    [24; 1; 1; 1; 1; 1; 1; 1; 1; 1; 1; 1; 1; 1; 1; 1; 2; 2; 2; 2; 2; 2; 1; 1; 1; 1; 1; 1; 2; 3; 4; 4; 2; 0; 0];
    [25; 1; 1; 1; 1; 1; 1; 1; 1; 1; 1; 1; 1; 1; 1; 1; 2; 2; 2; 2; 2; 2; 2; 1; 1; 1; 1; 1; 2; 3; 4; 4; 2; 0; 0];
    [26; 1; 1; 1; 1; 1; 1; 1; 1; 1; 1; 1; 1; 1; 1; 1; 2; 2; 2; 2; 2; 2; 2; 1; 1; 1; 1; 1; 2; 3; 5; 4; 2; 0; 0];
    [27; 1; 1; 1; 1; 1; 1; 1; 1; 1; 1; 1; 1; 1; 1; 1; 2; 2; 2; 2; 2; 2; 2; 1; 1; 1; 1; 1; 2; 3; 5; 5; 2; 0; 0];
    [28; 1; 1; 1; 1; 1; 1; 1; 1; 1; 1; 1; 1; 1; 1; 1; 2; 2; 2; 2; 2; 2; 2; 1; 1; 1; 1; 1; 2; 3; 5; 5; 2; 0; 0];
    [29; 1; 1; 1; 1; 1; 1; 1; 1; 1; 1; 1; 1; 1; 1; 1; 2; 2; 2; 2; 2; 2; 2; 2; 1; 1; 1; 1; 2; 3; 5; 5; 2; 0; 0];
    [30; 1; 1; 1; 1; 1; 1; 1; 1; 1; 1; 1; 1; 1; 1; 1; 2; 2; 2; 2; 2; 2; 2; 2; 1; 1; 1; 1; 2; 3; 5; 5; 2; 0; 0];
    [35; 1; 1; 1; 1; 1; 1; 1; 1; 1; 1; 1; 1; 1; 1; 2; 2; 2; 2; 2; 2; 2; 2; 2; 1; 1; 1; 1; 2; 4; 6; 5; 2; 0; -1];
    [40; 1; 1; 1; 1; 1; 1; 1; 1; 1; 1; 1; 1; 1; 1; 2; 2; 2; 2; 2; 2; 2; 2; 2; 1; 1; 1; 1; 2; 4; 6; 6; 2; 0; -1];
    [45; 1; 1; 1; 1; 1; 1; 1; 1; 1; 1; 1; 1; 1; 1; 1; 2; 2; 2; 2; 2; 2; 2; 2; 1; 1; 1; 1; 2; 4; 7; 6; 2; -1; -1];
    [50; 1; 1; 1; 1; 1; 1; 0; 0; 0; 0; 1; 1; 1; 1; 1; 2; 2; 2; 2; 2; 2; 2; 1; 1; 1; 1; 1; 2; 5; 7; 7; 2; -1; -2];
    [55; 1; 1; 1; 1; 1; 0; 0; 0; 0; 0; 0; 1; 1; 1; 1; 2; 2; 2; 2; 2; 2; 2; 1; 1; 1; 1; 1; 2; 5; 8; 7; 2; -1; -2];
    [60; 1; 1; 1; 1; 1; 0; 0; 0; 0; 0; 0; 1; 1; 1; 1; 2; 2; 2; 2; 2; 2; 2; 1; 1; 1; 1; 1; 2; 5; 8; 8; 2; -1; -2];
    [65; 1; 1; 1; 1; 0; 0; 0; 0; 0; 0; 0; 1; 1; 1; 1; 2; 2; 2; 2; 2; 2; 2; 1; 1; 1; 1; 1; 2; 5; 9; 8; 2; -2; -3];
    [70; 1; 1; 1; 1; 0; 0; 0; 0; 0; 0; 0; 0; 1; 1; 1; 2; 2; 2; 2; 2; 2; 2; 1; 1; 1; 1; 0; 2; 5; 9; 9; 2; -2; -3];
    [75; 1; 1; 1; 1; 0; 0; 0; 0; 0; 0; 0; 0; 1; 1; 1; 2; 2; 2; 2; 2; 2; 2; 1; 1; 1; 1; 0; 2; 6; 10; 9; 2; -2; -3];
    [80; 1; 1; 1; 1; 0; 0; 0; 0; 0; 0; 0; 0; 1; 1; 1; 2; 2; 2; 2; 2; 2; 2; 1; 1; 1; 1; 0; 2; 6; 10; 10; 2; -2; -3];
    [85; 1; 1; 1; 1; 0; 0; 0; 0; 0; 0; 0; 0; 1; 1; 1; 2; 2; 2; 2; 2; 2; 2; 2; 1; 1; 1; 0; 2; 7; 11; 11; 2; -3; -4];
    [90; 1; 1; 1; 1; 0; 0; 0; 0; 0; 0; 0; 0; 1; 1; 2; 2; 2; 2; 2; 2; 2; 2; 2; 1; 1; 1; 1; 2; 7; 12; 11; 2; -3; -4];
    [95; 1; 1; 1; 1; 0; 0; 0; 0; 0; 0; 0; 1; 1; 1; 2; 2; 2; 2; 2; 3; 2; 2; 2; 1; 1; 1; 1; 2; 7; 12; 12; 3; -3; -4];
    [100; 1; 1; 1; 1; 0; 0; 0; 0; 0; 0; 0; 1; 1; 1; 2; 2; 2; 2; 3; 3; 2; 2; 2; 1; 1; 1; 1; 2; 8; 13; 12; 3; -3; -4];
    [105; 1; 1; 1; 1; 0; 0; 0; 0; 0; 0; 0; 1; 1; 1; 2; 2; 3; 3; 3; 3; 3; 2; 2; 2; 1; 1; 1; 2; 8; 13; 13; 3; -3; -4];
    [110; 1; 1; 1; 1; 0; 0; 0; 0; 0; 0; 0; 1; 1; 1; 2; 2; 3; 3; 3; 3; 3; 2; 2; 2; 1; 1; 1; 2; 8; 14; 14; 3; -3; -5];
    [115; 1; 1; 1; 1; 1; 0; 0; 0; 0; 0; 0; 1; 1; 2; 2; 2; 3; 3; 3; 3; 3; 2; 2; 2; 1; 1; 1; 2; 9; 15; 14; 3; -3; -5];
    [120; 1; 1; 1; 1; 1; 0; 0; 0; 0; 0; 0; 1; 1; 2; 2; 2; 3; 3; 3; 3; 3; 2; 2; 2; 1; 1; 1; 3; 9; 15; 15; 3; -4; -5];
    [125; 1; 1; 2; 1; 1; 0; 0; 0; 0; 0; 0; 1; 1; 2; 2; 3; 3; 3; 3; 3; 3; 3; 2; 2; 1; 1; 1; 3; 10; 16; 16; 3; -4; -5];
    [130; 1; 1; 2; 1; 1; 0; 0; 0; 0; 0; 0; 1; 1; 2; 2; 3; 3; 3; 3; 3; 3; 3; 2; 2; 2; 1; 1; 3; 10; 17; 16; 3; -4; -6];
    [135; 1; 2; 2; 1; 1; 0; 0; 0; -1; 0; 0; 1; 1; 2; 2; 3; 3; 3; 3; 4; 3; 3; 2; 2; 2; 1; 1; 3; 10; 17; 17; 4; -4; -6];
    [140; 1; 2; 2; 1; 1; 0; 0; 0; -1; 0; 0; 1; 1; 2; 2; 3; 3; 3; 4; 4; 3; 3; 2; 2; 2; 1; 1; 3; 11; 18; 17; 4; -4; -6];
    [145; 2; 2; 2; 1; 1; 0; 0; 0; -1; 0; 0; 1; 1; 2; 2; 3; 3; 4; 4; 4; 3; 3; 3; 2; 2; 1; 1; 3; 11; 19; 18; 4; -4; -6];
    [150; 2; 2; 2; 1; 1; 0; 0; -1; -1; 0; 0; 1; 1; 2; 3; 3; 4; 4; 4; 4; 4; 3; 3; 2; 2; 1; 1; 3; 12; 19; 19; 4; -4; -6]
  ].

(** [windtab[i][j]] *)
Definition tab (i j : nat) : result Z :=
  row ← index windtab i; index row j.

(** [while windtab[s0][0] < raw_mph: s0 += 1].  The index grows by one
    per iteration and indexing raises at the end of the table, so as many
    iterations as the table has rows are always enough. *)
Fixpoint scan_speed (fuel s0 : nat) (raw_mph : Z) : result nat :=
  match fuel with
  | O => Raise IndexError
  | S fuel' =>
      v ← tab s0 0;
      if v <? raw_mph then scan_speed fuel' (S s0) raw_mph else Ok s0
  end.

(** [while windtab[0][a0] < raw_angle: a0 += 1] *)
Fixpoint scan_angle (fuel a0 : nat) (raw_angle : Z) : result nat :=
  match fuel with
  | O => Raise IndexError
  | S fuel' =>
      v ← tab 0 a0;
      if v <? raw_angle then scan_angle fuel' (S a0) raw_angle else Ok a0
  end.

(** Float division: [ZeroDivisionError] on a zero divisor. *)
Definition fdiv (a b : Q) : result Q :=
  if Qeq_bool b 0 then Raise ZeroDivisionError else Ok (a / b)%Q.

Definition interpolate (rx0 rx1 ry0 ry1 x0 x1 y0 y1 x y : Z) : result Q :=
  if rx0 =? rx1 then
    t ← fdiv (inject_Z (y - ry0)) (inject_Z (ry1 - ry0));
    Ok (inject_Z y + inject_Z x0 + t * inject_Z (y1 - y0))%Q
  else if ry0 =? ry1 then
    t ← fdiv (inject_Z (x - rx0)) (inject_Z (rx1 - rx0));
    Ok (inject_Z y + inject_Z y0 + t * inject_Z (x1 - x0))%Q
  else
    t0 ← fdiv (inject_Z (y - ry0)) (inject_Z (ry1 - ry0));
    let dy0 := (inject_Z x0 + t0 * inject_Z (y0 - x0))%Q in
    t1 ← fdiv (inject_Z (y - ry0)) (inject_Z (ry1 - ry0));
    let dy1 := (inject_Z x1 + t1 * inject_Z (y1 - x1))%Q in
    tx ← fdiv (inject_Z (x - rx0)) (inject_Z (rx1 - rx0));
    Ok (inject_Z y + dy0 + tx * (dy1 - dy0))%Q.

Definition calc_wind_speed_ec (raw_mph raw_angle : Z) : result Q :=
  if (raw_mph <? 3) || (150 <? raw_mph) then Ok (inject_Z raw_mph)
  else
    let raw_angle := if 128 <? raw_angle then 256 - raw_angle else raw_angle in
    row0 ← index windtab 0;
    s0 ← scan_speed (length windtab) 1 raw_mph;
    a0 ← scan_angle (length row0) 1 raw_angle;
    vs ← tab s0 0;
    let '(s0, s1) :=
      if vs =? raw_mph then (s0, s0)
      else
        let s0 := if (1 <? s0)%nat then (s0 - 1)%nat else s0 in
        (s0, if (s0 =? length windtab - 1)%nat
             then (length windtab - 1)%nat else (s0 + 1)%nat) in
    va ← tab 0 a0;
    let '(a0, a1) :=
      if va =? raw_angle then (a0, a0)
      else
        let a0 := if (1 <? a0)%nat then (a0 - 1)%nat else a0 in
        (a0, if (a0 =? length windtab - 1)%nat
             then (length row0 - 2)%nat else (a0 + 1)%nat) in
    if (s0 =? s1)%nat && (a0 =? a1)%nat then
      c ← tab s0 a0; Ok (inject_Z (raw_mph + c))
    else
      rx0 ← tab 0 a0; rx1 ← tab 0 a1;
      ry0 ← tab s0 0; ry1 ← tab s1 0;
      x0 ← tab s0 a0; x1 ← tab s0 a1;
      y0 ← tab s1 a0; y1 ← tab s1 a1;
      interpolate rx0 rx1 ry0 ry1 x0 x1 y0 y1 raw_angle raw_mph.

(** ** Thermistor calibration: [calculate_thermistor_temp] *)

Definition DEFAULT_SOIL_TEMP : Z := 24.

(** Float division over the reals. *)
Definition rdiv (a b : R) : result R :=
  if Req_dec_T b 0 then Raise ZeroDivisionError else Ok (a / b)%R.

(** [math.log]: a domain error outside the positive reals. *)
Definition math_log (r : R) : result R :=
  if Rle_dec r 0 then Raise (ValueError "math domain error") else Ok (ln r).

Definition calculate_thermistor_temp (temp_raw : Z) : result R :=
  let a := 18.81099%R in
  let b := 0.0009988027%R in
  q ← rdiv 1 (IZR temp_raw);
  q1 ← rdiv a (q - b);
  r ← rdiv q1 1000;
  let s1 := 0.002783573%R in
  let s2 := 0.0002509406%R in
  try_except_ValueError
    (l ← math_log r;
     t ← rdiv 1 (s1 + s2 * l);
     Ok (t - 273)%R)
    (fun _ => Ok (IZR DEFAULT_SOIL_TEMP)).

(** The resistance (k ohm) the function derives from the raw value. *)
Definition resistance (temp_raw : Z) : R :=
  (18.81099 / (1 / IZR temp_raw - 0.0009988027) / 1000)%R.

(** ** Regular expressions (the fragment of Python's [re] the driver uses) *)

Inductive regex : Type :=
  | Lit (c : ascii)              (* a literal character *)
  | Class (p : ascii -> bool)    (* a character class, [\d], [[0-9A-F]] *)
  | Dot                          (* [.]: any character but a newline *)
  | Bol                          (* [^] *)
  | Cat (r1 r2 : regex)
  | Rep (n : nat) (r : regex)    (* [r{n}] *)
  | Plus (r : regex)             (* [r+], greedy *)
  | Grp (r : regex).             (* [(r)], capturing; groups are not nested *)

(** Backtracking matcher in continuation-passing style.  [pos] is the
    offset of [s] in the subject, [caps] the groups closed so far. *)
Definition cont : Type := nat -> list ascii -> list string -> option (list string).

Fixpoint rmatch (r : regex) (pos : nat) (s : list ascii) (caps : list string)
    (k : cont) {struct r} : option (list string) :=
  match r with
  | Lit c =>
      match s with
      | c' :: s' => if Ascii.eqb c c' then k (S pos) s' caps else None
      | [] => None
      end
  | Class p =>
      match s with
      | c' :: s' => if p c' then k (S pos) s' caps else None
      | [] => None
      end
  | Dot =>
      match s with
      | c' :: s' => if Ascii.eqb c' "010" then None else k (S pos) s' caps
      | [] => None
      end
  | Bol => if (pos =? 0)%nat then k pos s caps else None
  | Cat r1 r2 =>
      rmatch r1 pos s caps (fun pos' s' caps' => rmatch r2 pos' s' caps' k)
  | Rep n r1 =>
      (fix rep (n : nat) (pos : nat) (s : list ascii) (caps : list string)
         : option (list string) :=
         match n with
         | O => k pos s caps
         | S n' => rmatch r1 pos s caps (fun pos' s' caps' => rep n' pos' s' caps')
         end) n pos s caps
  | Plus r1 =>
      (fix more (fuel : nat) (pos : nat) (s : list ascii) (caps : list string)
         : option (list string) :=
         rmatch r1 pos s caps (fun pos' s' caps' =>
           match fuel with
           | S fuel' =>
               match (if (pos <? pos')%nat then more fuel' pos' s' caps' else None) with
               | Some res => Some res
               | None => k pos' s' caps'
               end
           | O => k pos' s' caps'
           end)) (length s) pos s caps
  | Grp r1 =>
      rmatch r1 pos s caps (fun pos' s' caps' =>
        k pos' s' (caps' ++ [string_of_list_ascii (take (pos' - pos) s)]))
  end.

(** [pattern.search(subject)]: the leftmost match; [Some groups] or [None]. *)
Fixpoint search_from (r : regex) (pos : nat) (s : list ascii)
    : option (list string) :=
  match rmatch r pos s [] (fun _ _ caps => Some caps) with
  | Some caps => Some caps
  | None =>
      match s with
      | [] => None
      | _ :: s' => search_from r (S pos) s'
      end
  end.

Definition search (r : regex) (subject : string) : option (list string) :=
  search_from r 0 (list_ascii_of_string subject).

(** A literal string, and the concatenation of a list of patterns. *)
Fixpoint lits (s : string) : regex :=
  match s with
  | EmptyString => Rep 0 Dot
  | String c EmptyString => Lit c
  | String c s' => Cat (Lit c) (lits s')
  end.

Fixpoint cats (rs : list regex) : regex :=
  match rs with
  | [] => Rep 0 Dot
  | [r] => r
  | r :: rs' => Cat r (cats rs')
  end.

Definition is_digit (c : ascii) : bool :=
  let n := nat_of_ascii c in (48 <=? n)%nat && (n <=? 57)%nat.
Definition is_upper_hex (c : ascii) : bool :=
  let n := nat_of_ascii c in
  is_digit c || ((65 <=? n)%nat && (n <=? 70)%nat).
Definition is_octal (c : ascii) : bool :=
  let n := nat_of_ascii c in (48 <=? n)%nat && (n <=? 55)%nat.
Definition is_digit_or_minus (c : ascii) : bool :=
  is_digit c || Ascii.eqb c "-".

Definition d : regex := Class is_digit.
Definition hx : regex := Class is_upper_hex.

(** [DATAPacket.IDENTIFIER] *)
Definition DATAPacket_IDENTIFIER : regex :=
  cats [Bol; d; d; Lit ":"; d; d; Lit ":"; d; d; Dot; Rep 6 d; Lit " ";
        hx; Class is_octal; Rep 14 hx].

(** [DATAPacket.PATTERN] *)
Definition DATAPacket_PATTERN : regex :=
  cats [Grp (Rep 2 hx); Grp (Rep 2 hx); Grp (Rep 2 hx); Grp (Rep 2 hx);
        Grp (Rep 2 hx); Grp (Rep 2 hx); Grp (Rep 2 hx); Grp (Rep 2 hx);
        Lit " "; Grp (Plus d); Lit " "; Grp (Plus d); Lit " "; Grp (Plus d);
        Lit " "; Grp (Plus d)].

Definition CHANNELPacket_IDENTIFIER : regex := lits "ChannelIdx:".

Definition CHANNELPacket_PATTERNv13 : regex :=
  cats [lits "ChannelIdx:"; Grp (Plus d); lits " ChannelFreq:"; Grp (Plus d);
        lits " FreqError:"; Grp (Plus (Class is_digit_or_minus));
        lits " Transmitter:"; Grp (Plus d)].

Definition CHANNELPacket_PATTERNv12 : regex :=
  cats [lits "ChannelIdx:"; Grp (Plus d); lits " ChannelFreq:"; Grp (Plus d);
        lits " FreqError:"; Grp (Plus (Class is_digit_or_minus))].

(** ** Python values, text and integer parsing *)

(** The numbers stored in the reading dictionaries. *)
Inductive pyval : Type :=
  | VInt (z : Z)
  | VFloat (q : Q).

Definition pv_Q (v : pyval) : Q :=
  match v with VInt z => inject_Z z | VFloat q => q end.

(** [a == b], [a - b] and [a < 0] on Python numbers. *)
Definition pv_eqb (a b : pyval) : bool := Qeq_bool (pv_Q a) (pv_Q b).

Definition pv_sub (a b : pyval) : pyval :=
  match a, b with
  | VInt x, VInt y => VInt (x - y)
  | _, _ => VFloat (pv_Q a - pv_Q b)%Q
  end.

Definition pv_add_int (a : pyval) (n : Z) : pyval :=
  match a with
  | VInt x => VInt (x + n)
  | VFloat q => VFloat (q + inject_Z n)%Q
  end.

Definition pv_neg (a : pyval) : bool := negb (Qle_bool 0 (pv_Q a)).

(** Equality of two reading dictionaries, as Python's [==] on dicts. *)
Definition data_eqb (a b : gmap string pyval) : bool :=
  bool_decide (dom a = dom b) &&
  forallb (fun kv => match b !! kv.1 with
                     | Some v' => pv_eqb kv.2 v'
                     | None => false
                     end) (map_to_list a).

(** [int(time)] of a non-negative clock reading. *)
Definition int_of_float (q : Q) : Z := Z.quot (Qnum q) (Zpos (Qden q)).

(** [str.strip()] on text of code points below 256: the blanks are the
    characters 9 to 13 and 28 to 32, the next-line character (133) and the
    no-break space (160). *)
Definition is_space (c : ascii) : bool :=
  let n := nat_of_ascii c in
  ((9 <=? n)%nat && (n <=? 13)%nat) || ((28 <=? n)%nat && (n <=? 32)%nat)
  || (n =? 133)%nat || (n =? 160)%nat.

Fixpoint lstrip (s : list ascii) : list ascii :=
  match s with
  | c :: s' => if is_space c then lstrip s' else s
  | [] => []
  end.

Definition strip (s : string) : string :=
  string_of_list_ascii
    (rev (lstrip (rev (lstrip (list_ascii_of_string s))))).

(** [int(s)] and [int(s, 16)] on text: surrounding blanks, an optional
    sign, digits, single underscores between digits.  A base prefix
    ([0x]) is not accepted; the hexadecimal fields the driver converts
    are two characters of [[0-9A-F]] and never carry one.  In a base that
    is not a power of two, CPython (3.11 and later, and the security
    releases of 3.7 to 3.10) raises [ValueError] for a text of more than
    4300 digits. *)
Definition digit_of (base : Z) (c : ascii) : option Z :=
  let n := Z.of_nat (nat_of_ascii c) in
  let v := if (48 <=? n) && (n <=? 57) then Some (n - 48)
           else if (65 <=? n) && (n <=? 90) then Some (n - 55)
           else if (97 <=? n) && (n <=? 122) then Some (n - 87)
           else None in
  match v with
  | Some v => if v <? base then Some v else None
  | None => None
  end.

Fixpoint digits (base acc : Z) (s : list ascii) : option Z :=
  match s with
  | [] => Some acc
  | c :: s' =>
      if Ascii.eqb c "_" then
        match s' with
        | c' :: s'' =>
            match digit_of base c' with
            | Some v => digits base (acc * base + v) s''
            | None => None
            end
        | [] => None
        end
      else
        match digit_of base c with
        | Some v => digits base (acc * base + v) s'
        | None => None
        end
  end.

(** [sys.get_int_max_str_digits()], the default. *)
Definition int_max_str_digits : Z := 4300.

(** The number of digits in the leading run of digits and underscores,
    as the conversion counts them before it converts; [None] when the
    run starts with an underscore, holds two in a row or ends in one
    (an invalid literal, whatever its length). *)
Fixpoint count_digits (base : Z) (prev_underscore : bool) (n : Z)
    (s : list ascii) : option Z :=
  match s with
  | c :: s' =>
      if Ascii.eqb c "_" then
        if prev_underscore then None else count_digits base true n s'
      else
        match digit_of base c with
        | Some _ => count_digits base false (n + 1) s'
        | None => if prev_underscore then None else Some n
        end
  | [] => if prev_underscore then None else Some n
  end.

(** The exception of a text of [n] digits, more than the limit. *)
Definition digit_limit_error (n : Z) : exn :=
  ValueError
    ("Exceeds the limit (4300 digits) for integer string conversion: value has "
     +:+ pretty n
     +:+ " digits; use sys.set_int_max_str_digits() to increase the limit").

Definition py_int_base (base : Z) (s : string) : result Z :=
  let t := list_ascii_of_string (strip s) in
  let '(neg, t) :=
    match t with
    | c :: t' =>
        if Ascii.eqb c "-" then (true, t')
        else if Ascii.eqb c "+" then (false, t')
        else (false, t)
    | [] => (false, t)
    end in
  let too_many :=
    if Z.land base (base - 1) =? 0 then None
    else
      match count_digits base true 0 t with
      | Some n => if int_max_str_digits <? n then Some n else None
      | None => None
      end in
  match too_many with
  | Some n => Raise (digit_limit_error n)
  | None =>
      let parsed :=
        match t with
        | c :: t' =>
            match digit_of base c with
            | Some v => digits base v t'
            | None => None
            end
        | [] => None
        end in
      match parsed with
      | Some n => Ok (if neg then - n else n)
      | None => Raise (ValueError ("invalid literal for int(): " +:+ s))
      end
  end.

Definition py_int (s : string) : result Z := py_int_base 10 s.

(** The CRC of [weewx.crc16] (CRC-CCITT, polynomial 0x1021, start value
    0), which the driver imports.  The frame parser below takes the CRC
    function as a parameter; this one instantiates it in the examples. *)
Fixpoint crc_bits (n : nat) (crc : Z) : Z :=
  match n with
  | O => crc
  | S n' =>
      crc_bits n'
        (if Z.testbit crc 15
         then Z.land (Z.lxor (Z.shiftl crc 1) 0x1021) 0xFFFF
         else Z.land (Z.shiftl crc 1) 0xFFFF)
  end.

Definition crc16_table (i : Z) : Z := crc_bits 8 (Z.shiftl i 8).

Definition crc16_ccitt (msg : list Z) : Z :=
  fold_left
    (fun crc ch =>
       Z.land (Z.lxor (crc16_table (Z.lxor (Z.shiftr crc 8) ch))
                      (Z.shiftl crc 8)) 0xFFFF)
    msg 0.

(** ** Link quality tracker: [self.stats] and its methods *)

Record stats : Type := {
  loop_times : list Q;
  activeTrIds : list nat;
  activeTrIdPtrs : list nat;
  curr_ts : Z;
  last_ts : Z;
  curr_cnt : list Z;
  last_cnt : list Z;
  max_count : list Q;
  count : list Z;
  missed : list Q;
  pct_good : list (option Q);
  pct_good_all : option Q
}.

Definition set_activeTrIds (v : list nat) (s : stats) : stats :=
  {| loop_times := loop_times s; activeTrIds := v;
     activeTrIdPtrs := activeTrIdPtrs s; curr_ts := curr_ts s;
     last_ts := last_ts s; curr_cnt := curr_cnt s; last_cnt := last_cnt s;
     max_count := max_count s; count := count s; missed := missed s;
     pct_good := pct_good s; pct_good_all := pct_good_all s |}.
Definition set_activeTrIdPtrs (v : list nat) (s : stats) : stats :=
  {| loop_times := loop_times s; activeTrIds := activeTrIds s;
     activeTrIdPtrs := v; curr_ts := curr_ts s;
     last_ts := last_ts s; curr_cnt := curr_cnt s; last_cnt := last_cnt s;
     max_count := max_count s; count := count s; missed := missed s;
     pct_good := pct_good s; pct_good_all := pct_good_all s |}.
Definition set_curr_ts (v : Z) (s : stats) : stats :=
  {| loop_times := loop_times s; activeTrIds := activeTrIds s;
     activeTrIdPtrs := activeTrIdPtrs s; curr_ts := v;
     last_ts := last_ts s; curr_cnt := curr_cnt s; last_cnt := last_cnt s;
     max_count := max_count s; count := count s; missed := missed s;
     pct_good := pct_good s; pct_good_all := pct_good_all s |}.
Definition set_last_ts (v : Z) (s : stats) : stats :=
  {| loop_times := loop_times s; activeTrIds := activeTrIds s;
     activeTrIdPtrs := activeTrIdPtrs s; curr_ts := curr_ts s;
     last_ts := v; curr_cnt := curr_cnt s; last_cnt := last_cnt s;
     max_count := max_count s; count := count s; missed := missed s;
     pct_good := pct_good s; pct_good_all := pct_good_all s |}.
Definition set_curr_cnt (v : list Z) (s : stats) : stats :=
  {| loop_times := loop_times s; activeTrIds := activeTrIds s;
     activeTrIdPtrs := activeTrIdPtrs s; curr_ts := curr_ts s;
     last_ts := last_ts s; curr_cnt := v; last_cnt := last_cnt s;
     max_count := max_count s; count := count s; missed := missed s;
     pct_good := pct_good s; pct_good_all := pct_good_all s |}.
Definition set_last_cnt (v : list Z) (s : stats) : stats :=
  {| loop_times := loop_times s; activeTrIds := activeTrIds s;
     activeTrIdPtrs := activeTrIdPtrs s; curr_ts := curr_ts s;
     last_ts := last_ts s; curr_cnt := curr_cnt s; last_cnt := v;
     max_count := max_count s; count := count s; missed := missed s;
     pct_good := pct_good s; pct_good_all := pct_good_all s |}.
Definition set_max_count (v : list Q) (s : stats) : stats :=
  {| loop_times := loop_times s; activeTrIds := activeTrIds s;
     activeTrIdPtrs := activeTrIdPtrs s; curr_ts := curr_ts s;
     last_ts := last_ts s; curr_cnt := curr_cnt s; last_cnt := last_cnt s;
     max_count := v; count := count s; missed := missed s;
     pct_good := pct_good s; pct_good_all := pct_good_all s |}.
Definition set_count (v : list Z) (s : stats) : stats :=
  {| loop_times := loop_times s; activeTrIds := activeTrIds s;
     activeTrIdPtrs := activeTrIdPtrs s; curr_ts := curr_ts s;
     last_ts := last_ts s; curr_cnt := curr_cnt s; last_cnt := last_cnt s;
     max_count := max_count s; count := v; missed := missed s;
     pct_good := pct_good s; pct_good_all := pct_good_all s |}.
Definition set_missed (v : list Q) (s : stats) : stats :=
  {| loop_times := loop_times s; activeTrIds := activeTrIds s;
     activeTrIdPtrs := activeTrIdPtrs s; curr_ts := curr_ts s;
     last_ts := last_ts s; curr_cnt := curr_cnt s; last_cnt := last_cnt s;
     max_count := max_count s; count := count s; missed := v;
     pct_good := pct_good s; pct_good_all := pct_good_all s |}.
Definition set_pct_good (v : list (option Q)) (s : stats) : stats :=
  {| loop_times := loop_times s; activeTrIds := activeTrIds s;
     activeTrIdPtrs := activeTrIdPtrs s; curr_ts := curr_ts s;
     last_ts := last_ts s; curr_cnt := curr_cnt s; last_cnt := last_cnt s;
     max_count := max_count s; count := count s; missed := missed s;
     pct_good := v; pct_good_all := pct_good_all s |}.
Definition set_pct_good_all (v : option Q) (s : stats) : stats :=
  {| loop_times := loop_times s; activeTrIds := activeTrIds s;
     activeTrIdPtrs := activeTrIdPtrs s; curr_ts := curr_ts s;
     last_ts := last_ts s; curr_cnt := curr_cnt s; last_cnt := last_cnt s;
     max_count := max_count s; count := count s; missed := missed s;
     pct_good := pct_good s; pct_good_all := v |}.

(** Code that mutates [self.stats] and may raise: the state reached is
    returned next to the result, also when the result is an exception. *)
Definition SM (A : Type) : Type := stats -> stats * result A.

#[global] Instance SM_ret : MRet SM := fun A x st => (st, Ok x).
#[global] Instance SM_bind : MBind SM := fun A B k m st =>
  match m st with
  | (st', Ok x) => k x st'
  | (st', Raise e) => (st', Raise e)
  end.

Definition get : SM stats := fun st => (st, Ok st).
Definition modify (f : stats -> stats) : SM unit := fun st => (f st, Ok tt).
Definition lift {A : Type} (r : result A) : SM A := fun st => (st, r).

(** [l[i] = v]: [IndexError] past the end. *)
Definition store {A : Type} (l : list A) (i : nat) (v : A) : result (list A) :=
  if (i <? length l)%nat then Ok (<[i:=v]> l) else Raise IndexError.

(** [a // b] on floats. *)
Definition floordiv (a b : Q) : result Q :=
  if Qeq_bool b 0 then Raise ZeroDivisionError
  else Ok (inject_Z (Qfloor (a / b))).

Definition _init_stats : stats :=
  {| loop_times := [2.5625; 2.625; 2.6875; 2.75; 2.8125; 2.875; 2.9375; 3; 100.0]%Q;
     activeTrIds := replicate 8 9%nat;
     activeTrIdPtrs := replicate 8 0%nat;
     curr_ts := 0;
     last_ts := 0;
     curr_cnt := replicate 4 0;
     last_cnt := replicate 4 0;
     max_count := replicate 4 0%Q;
     count := replicate 4 0;
     missed := replicate 4 0%Q;
     pct_good := replicate 4 None;
     pct_good_all := None |}.

Definition _reset_stats_one (i : nat) : SM unit :=
  st ← get;
  c ← lift (index (curr_cnt st) i);
  l ← lift (store (last_cnt st) i c);
  _ ← modify (set_last_cnt l);
  st ← get;
  p ← lift (store (pct_good st) i None);
  modify (set_pct_good p).

Definition _reset_stats : SM unit :=
  st ← get;
  _ ← modify (set_last_ts (curr_ts st));
  _ ← _reset_stats_one 0;
  _ ← _reset_stats_one 1;
  _ ← _reset_stats_one 2;
  _ ← _reset_stats_one 3;
  modify (set_pct_good_all None).

Definition _update_stats_one (i : nat) (c : Z) : SM unit :=
  st ← get;
  l ← lift (store (curr_cnt st) i c);
  modify (set_curr_cnt l).

Definition _update_stats (curr_cnt0 curr_cnt1 curr_cnt2 curr_cnt3 : Z) : SM unit :=
  _ ← _update_stats_one 0 curr_cnt0;
  _ ← _update_stats_one 1 curr_cnt1;
  _ ← _update_stats_one 2 curr_cnt2;
  _update_stats_one 3 curr_cnt3.

Record totals : Type := {
  total_count : Z;
  total_missed : Q;
  total_max_count : Q
}.

(** The body of [for i in range(0, 4)] in [_update_summaries]. *)
Definition summarize_transmitter (period : Z) (i : nat) (t : totals) : SM totals :=
  st ← get;
  c ← lift (index (curr_cnt st) i);
  if 0 <? c then
    x ← lift (index (activeTrIds st) i);
    lt ← lift (index (loop_times st) x);
    mc ← lift (floordiv (inject_Z period) lt);
    l ← lift (store (max_count st) i mc);
    _ ← modify (set_max_count l);
    lc ← lift (index (last_cnt st) i);
    l ← lift (store (count st) i (c - lc));
    _ ← modify (set_count l);
    st ← get;
    cnt ← lift (index (count st) i);
    if 0 <? cnt then
      mc ← lift (index (max_count st) i);
      l ← lift (store (missed st) i (mc - inject_Z cnt)%Q);
      _ ← modify (set_missed l);
      p ← lift (fdiv (100 * inject_Z cnt) mc);
      l ← lift (store (pct_good st) i (Some p));
      _ ← modify (set_pct_good l);
      st ← get;
      ms ← lift (index (missed st) i);
      mret {| total_count := total_count t + cnt;
              total_missed := (total_missed t + ms)%Q;
              total_max_count := (total_max_count t + mc)%Q |}
    else mret t
  else mret t.

(** [_update_summaries], with [now] the value of [int(time.time())].
    The closing loop of the method only writes to the log. *)
Definition _update_summaries (now : Z) : SM unit :=
  _ ← modify (set_curr_ts now);
  st ← get;
  if 0 <? last_ts st then
    let t := {| total_count := 0; total_missed := 0; total_max_count := 0 |} in
    let period := curr_ts st - last_ts st in
    t ← summarize_transmitter period 0 t;
    t ← summarize_transmitter period 1 t;
    t ← summarize_transmitter period 2 t;
    t ← summarize_transmitter period 3 t;
    st ← get;
    if negb (Qle_bool (total_max_count t) 0) && bool_decide (is_Some (pct_good_all st)) then
      p ← lift (fdiv (100 * inject_Z (total_count t)) (total_max_count t));
      modify (set_pct_good_all (Some p))
    else mret tt
  else mret tt.

(** [new_archive_record]: the summaries, the aggregate stored in the
    archive record under [rxCheckPercent] when it is set, and the reset.
    The per-transmitter values are stored inside the same [if] and only
    with it.  Returns what was stored for [rxCheckPercent]. *)
Definition new_archive_record (now : Z) : SM (option Q) :=
  _ ← _update_summaries now;
  st ← get;
  let rxCheckPercent := pct_good_all st in
  _ ← _reset_stats;
  mret rxCheckPercent.

(** ** The driver object *)

(** [self.channels] *)
Record channels : Type := {
  iss : Z;
  anemometer : Z;
  leaf_soil : Z;
  temp_hum_1 : Z;
  temp_hum_2 : Z;
  wind_channel : Z
}.

Record driver : Type := {
  rain_per_tip : Q;
  sensor_map : gmap string string;
  self_stats : stats;
  last_rain_count : option pyval;
  _log_humidity_raw : bool;
  _save_pct_good_per_transmitter : bool;
  cmd : string;
  path : option string;
  ld_library_path : option string;
  frequency : string;
  self_channels : channels;
  transmitters : Z;
  tr_count : nat;
  _last_pkt : option (gmap string pyval);
  transm_to_store : nat
}.

Definition set_self_stats (v : stats) (d : driver) : driver :=
  {| rain_per_tip := rain_per_tip d; sensor_map := sensor_map d;
     self_stats := v; last_rain_count := last_rain_count d;
     _log_humidity_raw := _log_humidity_raw d;
     _save_pct_good_per_transmitter := _save_pct_good_per_transmitter d;
     cmd := cmd d; path := path d; ld_library_path := ld_library_path d;
     frequency := frequency d; self_channels := self_channels d;
     transmitters := transmitters d; tr_count := tr_count d;
     _last_pkt := _last_pkt d; transm_to_store := transm_to_store d |}.
Definition set_last_rain_count (v : option pyval) (d : driver) : driver :=
  {| rain_per_tip := rain_per_tip d; sensor_map := sensor_map d;
     self_stats := self_stats d; last_rain_count := v;
     _log_humidity_raw := _log_humidity_raw d;
     _save_pct_good_per_transmitter := _save_pct_good_per_transmitter d;
     cmd := cmd d; path := path d; ld_library_path := ld_library_path d;
     frequency := frequency d; self_channels := self_channels d;
     transmitters := transmitters d; tr_count := tr_count d;
     _last_pkt := _last_pkt d; transm_to_store := transm_to_store d |}.
Definition set_last_pkt (v : option (gmap string pyval)) (d : driver) : driver :=
  {| rain_per_tip := rain_per_tip d; sensor_map := sensor_map d;
     self_stats := self_stats d; last_rain_count := last_rain_count d;
     _log_humidity_raw := _log_humidity_raw d;
     _save_pct_good_per_transmitter := _save_pct_good_per_transmitter d;
     cmd := cmd d; path := path d; ld_library_path := ld_library_path d;
     frequency := frequency d; self_channels := self_channels d;
     transmitters := transmitters d; tr_count := tr_count d;
     _last_pkt := v; transm_to_store := transm_to_store d |}.
Definition set_transm_to_store (v : nat) (d : driver) : driver :=
  {| rain_per_tip := rain_per_tip d; sensor_map := sensor_map d;
     self_stats := self_stats d; last_rain_count := last_rain_count d;
     _log_humidity_raw := _log_humidity_raw d;
     _save_pct_good_per_transmitter := _save_pct_good_per_transmitter d;
     cmd := cmd d; path := path d; ld_library_path := ld_library_path d;
     frequency := frequency d; self_channels := self_channels d;
     transmitters := transmitters d; tr_count := tr_count d;
     _last_pkt := _last_pkt d; transm_to_store := v |}.

Definition DEFAULT_CMD : string := "/home/pi/work/bin/rtldavis -tf EU".
Definition DEFAULT_FREQUENCY : string := "EU".
Definition DEFAULT_RAIN_BUCKET_TYPE : Z := 1.
(** [weewx.METRICWX] *)
Definition METRICWX : Z := 0x11.

Definition DEFAULT_SENSOR_MAP : gmap string string := list_to_map [
    ("pressure", "pressure");
    ("inTemp", "temp_in");
    ("windSpeed", "wind_speed");
    ("windDir", "wind_dir");
    ("outTemp", "temperature");
    ("outHumidity", "humidity");
    ("inHumidity", "humidity_in");
    ("rainRate", "rain_rate");
    ("radiation", "solar_radiation");
    ("UV", "uv");
    ("soilTemp1", "soil_temp_1");
    ("soilTemp2", "soil_temp_2");
    ("soilTemp3", "soil_temp_3");
    ("soilTemp4", "soil_temp_4");
    ("leafTemp1", "leaf_temp_1");
    ("extraHumid1", "humid_1");
    ("extraHumid2", "humid_2");
    ("soilMoist1", "soil_moisture_1");
    ("soilMoist2", "soil_moisture_2");
    ("soilMoist3", "soil_moisture_3");
    ("soilMoist4", "soil_moisture_4");
    ("leafWet1", "leaf_wetness_1");
    ("leafWet2", "leaf_wetness_2");
    ("rxCheckPercent", "pct_good_all");
    ("txBatteryStatus", "bat_iss");
    ("supplyVoltage", "supercap_volt");
    ("referenceVoltage", "solar_power");
    ("windBatteryStatus", "bat_anemometer");
    ("rainBatteryStatus", "bat_leaf_soil");
    ("outTempBatteryStatus", "bat_th_1");
    ("inTempBatteryStatus", "bat_th_2");
    ("extraTemp1", "pct_good_0");
    ("extraTemp2", "pct_good_1");
    ("extraTemp3", "pct_good_2");
    ("leafTemp2", "pct_good_3");
    ("consBatteryVoltage", "freqError0");
    ("hail", "freqError1");
    ("hailRate", "freqError2");
    ("heatingTemp", "freqError3");
    ("heatingVoltage", "freqError4")
  ].

(** *** Construction: [RtldavisDriver.__init__] and [ch_to_xmit] *)

(** The [[Rtldavis]] stanza of the configuration: its scalar entries (text,
    as the configuration file holds them) and its optional [sensor_map]
    subsection. *)
Record config : Type := {
  stn_dict : gmap string string;
  stn_sensor_map : option (gmap string string)
}.

(** [int(stn_dict.get(key, default))] *)
Definition get_int (c : config) (key : string) (dflt : Z) : result Z :=
  match stn_dict c !! key with
  | Some s => py_int s
  | None => Ok dflt
  end.

Definition lower_char (c : ascii) : ascii :=
  let n := nat_of_ascii c in
  if (65 <=? n)%nat && (n <=? 90)%nat then ascii_of_nat (n + 32) else c.

Definition lower (s : string) : string :=
  string_of_list_ascii (map lower_char (list_ascii_of_string s)).

(** [weeutil.weeutil.tobool] applied to [stn_dict.get(key, False)] *)
Definition tobool (x : option string) : result bool :=
  match x with
  | None => Ok false
  | Some s =>
      if bool_decide (lower s ∈ ["true"; "yes"; "y"]) then Ok true
      else if bool_decide (lower s ∈ ["false"; "no"; "n"]) then Ok false
      else
        match py_int s with
        | Ok n => Ok (negb (n =? 0))
        | Raise _ => Raise (ValueError ("Unknown boolean specifier: " +:+ s))
        end
  end.

(** [1 << n] *)
Definition shl1 (n : Z) : result Z :=
  if n <? 0 then Raise (ValueError "negative shift count")
  else Ok (Z.shiftl 1 n).

(** The body of [for i in range(0, 8)] in [ch_to_xmit]. *)
Definition mark_active (transmitters : Z) (i : nat)
    (acc : Z * nat) : SM (Z * nat) :=
  let '(mask, trIdCount) := acc in
  if negb (Z.land transmitters mask =? 0) then
    st ← get;
    l ← lift (store (activeTrIds st) trIdCount i);
    _ ← modify (set_activeTrIds l);
    st ← get;
    l ← lift (store (activeTrIdPtrs st) i trIdCount);
    _ ← modify (set_activeTrIdPtrs l);
    mret (Z.shiftl mask 1, S trIdCount)
  else mret (Z.shiftl mask 1, trIdCount).

(** [transmitters += 1 << (channel - 1)] *)
Definition add_transmitter (transmitters channel : Z) : result Z :=
  t ← shl1 (channel - 1); Ok (transmitters + t).

(** The same under [if channel != 0]. *)
Definition add_optional (transmitters channel : Z) : result Z :=
  if negb (channel =? 0) then add_transmitter transmitters channel
  else Ok transmitters.

Definition ch_to_xmit (iss_channel anemometer_channel leaf_soil_channel
    temp_hum_1_channel temp_hum_2_channel : Z) : SM (Z * nat) :=
  transmitters ← lift (
    transmitters ← add_transmitter 0 iss_channel;
    transmitters ← add_optional transmitters anemometer_channel;
    transmitters ← add_optional transmitters leaf_soil_channel;
    transmitters ← add_optional transmitters temp_hum_1_channel;
    add_optional transmitters temp_hum_2_channel);
  acc ← mark_active transmitters 0 (1, 0%nat);
  acc ← mark_active transmitters 1 acc;
  acc ← mark_active transmitters 2 acc;
  acc ← mark_active transmitters 3 acc;
  acc ← mark_active transmitters 4 acc;
  acc ← mark_active transmitters 5 acc;
  acc ← mark_active transmitters 6 acc;
  acc ← mark_active transmitters 7 acc;
  mret (transmitters, acc.2).

(** What the constructor does to the world outside the object. *)
Inductive effect : Type :=
  | StartProcess (cmd : string) (path ld_library_path : option string).

(** Everything [__init__] does before [self._mgr.startup(...)].  The
    logging calls, the unit-schema set-up and the service registration do
    not bear on the object built and are left out. *)
Definition init_object (config_dict : config) : result driver :=
  _ ← get_int config_dict "debug_parse" 0;
  _ ← get_int config_dict "debug_rain" 0;
  _ ← get_int config_dict "debug_rtld" 0;
  bucket_type ← get_int config_dict "rain_bucket_type" DEFAULT_RAIN_BUCKET_TYPE;
  if negb (bool_decide (bucket_type ∈ [0; 1])) then
    Raise (ValueError ("unsupported rain bucket type " +:+ pretty bucket_type))
  else
    let rain_per_tip := (if bucket_type =? 0 then 0.254 else 0.2)%Q in
    let sensor_map :=
      match stn_sensor_map config_dict with
      | Some m => m ∪ DEFAULT_SENSOR_MAP
      | None => DEFAULT_SENSOR_MAP
      end in
    let stats := _init_stats in
    log_humidity_raw ← tobool (stn_dict config_dict !! "log_humidity_raw");
    save_pct ← tobool (stn_dict config_dict !! "save_pct_good_per_transmitter");
    let cmd := default DEFAULT_CMD (stn_dict config_dict !! "cmd") in
    let freq := default DEFAULT_FREQUENCY
                  (stn_dict config_dict !! "transceiver_frequency") in
    if negb (bool_decide (freq ∈ ["US"; "NZ"; "EU"])) then
      Raise (ValueError ("invalid frequency " +:+ freq))
    else
      ch_iss ← get_int config_dict "iss_channel" 1;
      ch_anemometer ← get_int config_dict "anemometer_channel" 0;
      ch_leaf_soil ← get_int config_dict "leaf_soil_channel" 0;
      ch_temp_hum_1 ← get_int config_dict "temp_hum_1_channel" 0;
      ch_temp_hum_2 ← get_int config_dict "temp_hum_2_channel" 0;
      let chans :=
        {| iss := ch_iss; anemometer := ch_anemometer;
           leaf_soil := ch_leaf_soil; temp_hum_1 := ch_temp_hum_1;
           temp_hum_2 := ch_temp_hum_2;
           wind_channel := if ch_anemometer =? 0 then ch_iss else ch_anemometer |} in
      match ch_to_xmit ch_iss ch_anemometer ch_leaf_soil
                       ch_temp_hum_1 ch_temp_hum_2 stats with
      | (_, Raise e) => Raise e
      | (stats, Ok (transmitters, tr_count)) =>
          Ok {| rain_per_tip := rain_per_tip;
                sensor_map := sensor_map;
                self_stats := stats;
                last_rain_count := None;
                _log_humidity_raw := log_humidity_raw;
                _save_pct_good_per_transmitter := save_pct;
                cmd := cmd +:+ " -tf " +:+ freq +:+ " -tr " +:+ pretty transmitters;
                path := stn_dict config_dict !! "path";
                ld_library_path := stn_dict config_dict !! "ld_library_path";
                frequency := freq;
                self_channels := chans;
                transmitters := transmitters;
                tr_count := tr_count;
                _last_pkt := None;
                transm_to_store := 0%nat |}
      end.

(** [RtldavisDriver.__init__]: the process is started last, with the
    object's command line, and only when nothing before it raised. *)
Definition __init__ (config_dict : config) : list effect * result driver :=
  match init_object config_dict with
  | Ok self =>
      ([StartProcess (cmd self) (path self) (ld_library_path self)], Ok self)
  | Raise e => ([], Raise e)
  end.

(** *** Rain and observation mapping: [_data_to_packet] *)

(** [now] is the clock reading [time.time()]. *)
Definition _data_to_packet (now : Q) (self : driver)
    (data : gmap string pyval) : driver * gmap string pyval :=
  let packet : gmap string pyval := omap (fun obs => data !! obs) (sensor_map self) in
  let '(self, packet) :=
    match data !! "rain_count" with
    | Some rc =>
        let rain_count :=
          match last_rain_count self with
          | Some last => pv_sub rc last
          | None => VInt 0
          end in
        let rain_count :=
          if pv_neg rain_count then pv_add_int rain_count 128 else rain_count in
        (set_last_rain_count (Some rc) self,
         <["rain" := VFloat (pv_Q rain_count * rain_per_tip self)%Q]> packet)
    | None => (self, packet)
    end in
  (self,
   <["usUnits" := VInt METRICWX]>
     (<["dateTime" := VInt (int_of_float (now + 0.5)%Q)]> packet)).

(** *** Name resolution in [parse_raw] *)

(** The names bound at module level, and the names [parse_raw] binds
    (its parameters and every name it assigns).  A name in neither list,
    and not a builtin, raises [NameError] when it is read. *)
Definition module_globals : list string :=
  ["print_function"; "with_statement"; "check_output"; "signal"; "timegm";
   "fnmatch"; "os"; "re"; "subprocess"; "math"; "string"; "threading";
   "time"; "queue"; "weewx"; "crc16"; "obs_group_dict"; "tobool"; "weeutil";
   "logging"; "log"; "logdbg"; "loginf"; "logerr"; "DRIVER_NAME";
   "DRIVER_VERSION"; "DEFAULT_CMD"; "DEBUG_RAIN"; "DEBUG_PARSE"; "DEBUG_RTLD";
   "MPH_TO_MPS"; "loader"; "confeditor_loader"; "dbg_parse"; "dbg_rtld";
   "_fmt"; "DEFAULT_SOIL_TEMP"; "RAW"; "POT"; "SM_MAP"; "LW_MAP";
   "calculate_thermistor_temp"; "lookup_potential"; "calc_wind_speed_ec";
   "interpolate"; "AsyncReader"; "ProcManager"; "Packet"; "DATAPacket";
   "CHANNELPacket"; "PacketFactory"; "RtldavisConfigurationEditor";
   "RtldavisDriver"; "optparse"; "usage"; "parser"; "options"; "args";
   "mgr"; "lines"; "payload"; "err"].

Definition parse_raw_locals : list string :=
  ["self"; "pkt"; "data"; "battery_low"; "wind_speed_raw"; "wind_dir_raw";
   "wind_dir_pro"; "wind_dir_vue"; "wind_speed_ec"; "message_type";
   "supercap_volt_raw"; "uv_raw"; "time_between_tips_raw"; "rain_rate";
   "time_between_tips"; "sr_raw"; "solar_power_raw"; "temp_raw"; "temp_f";
   "temp_c"; "gust_raw"; "gust_index_raw"; "humidity_raw"; "humidity";
   "humidity_raw_full"; "rain_count_raw"; "rain_count"; "data_type";
   "data_subtype"; "sensor_num"; "potential_raw"; "norm_fact";
   "soil_moisture"; "leaf_wetness"].

Definition load_name (locals : list string) (name : string) : result unit :=
  if bool_decide (name ∈ locals ++ module_globals) then Ok tt
  else Raise (NameError name).

(** ** Frame parser, payload dispatch and read loop *)

Section Frames.

(** [weewx.crc16.crc16], a library function. *)
Variable crc16 : list Z -> Z.

(** The two value decoders of [parse_raw]: the wind and message-type
    decoding of a station packet (the body of the first branch after the
    battery flag) and the leaf/soil decoding (the body of the second
    branch after the battery flag).  They receive the object, the packet
    and the reading built so far, and may raise. *)
Variable decode_station :
  driver -> list Z -> gmap string pyval -> result (gmap string pyval).
Variable decode_leaf_soil :
  driver -> list Z -> gmap string pyval -> result (gmap string pyval).

Definition parse_raw (self : driver) (pkt : list Z) : result (gmap string pyval) :=
  b0 ← index pkt 0;
  let channel := Z.land b0 0x7 + 1 in
  let data : gmap string pyval := {[ "channel" := VInt channel ]} in
  let battery_low := Z.land (Z.shiftr b0 3) 0x1 in
  let ch := self_channels self in
  if (channel =? iss ch) || (channel =? anemometer ch)
     || (channel =? temp_hum_1 ch) || (channel =? temp_hum_2 ch) then
    let data :=
      if channel =? iss ch then <["bat_iss" := VInt battery_low]> data
      else if channel =? anemometer ch then <["bat_anemometer" := VInt battery_low]> data
      else if channel =? temp_hum_1 ch then <["bat_th_1" := VInt battery_low]> data
      else <["bat_th_2" := VInt battery_low]> data in
    decode_station self pkt data
  else if channel =? leaf_soil ch then
    decode_leaf_soil self pkt (<["bat_leaf_soil" := VInt battery_low]> data)
  else
    (* logerr("unknown station with channel: %s, raw message: %s" %
              (data['channel'], raw)) *)
    _ ← load_name parse_raw_locals "raw";
    Ok data.

(** [PacketFactory._check_crc] *)
Definition _check_crc (msg : list Z) : result unit :=
  if negb (crc16 msg =? 0) then Raise (ValueError "CRC error") else Ok tt.

(** [m.group(i)] *)
Definition group (m : list string) (i : nat) : result string :=
  index m (i - 1).

(** The parsers pop the line they handled from [lines]; they return the
    list as they leave it, also when they raise. *)
Definition DATAPacket_parse_text (self : driver) (lines : list string)
    : list string * result (option (gmap string pyval)) :=
  match lines with
  | [] => (lines, Raise IndexError)
  | line :: rest =>
      match search DATAPacket_PATTERN line with
      | Some m =>
          let r :=
            raw_msg ← mapM (fun i => g ← group m (i + 1); py_int_base 16 g) (seq 0 8);
            _ ← _check_crc raw_msg;
            pkt ← parse_raw self raw_msg;
            c0 ← (g ← group m 9; py_int g);
            c1 ← (g ← group m 10; py_int g);
            c2 ← (g ← group m 11; py_int g);
            c3 ← (g ← group m 12; py_int g);
            Ok (<["curr_cnt3" := VInt c3]> (<["curr_cnt2" := VInt c2]>
                 (<["curr_cnt1" := VInt c1]> (<["curr_cnt0" := VInt c0]> pkt)))) in
          match r with
          | Ok pkt => (rest, Ok (Some pkt))
          | Raise e => (lines, Raise e)
          end
      | None => (rest, Ok None)
      end
  end.

Definition freq_error_message (channel error : string) : string :=
  "RESTART RTLDAVIS PROGRAM: abs freqOffset channel " +:+ channel
  +:+ " too big (> 20000): " +:+ error.

(** The body of [for y in range(0, 5)] of [CHANNELPacket.parse_text]. *)
Definition store_freq_error (m : list string) (y : Z)
    (pkt : gmap string pyval) : result (gmap string pyval) :=
  idx ← (g ← group m 1; py_int g);
  if idx =? y then
    fe ← (g ← group m 3; py_int g);
    Ok (<["freqError" +:+ pretty y := VInt fe]> pkt)
  else Ok pkt.

Definition store_freq_errors (now : Q) (m : list string)
    : result (gmap string pyval) :=
  let pkt : gmap string pyval :=
    <["usUnits" := VInt METRICWX]>
      {[ "dateTime" := VInt (int_of_float (now + 0.5)%Q) ]} in
  pkt ← store_freq_error m 0 pkt;
  pkt ← store_freq_error m 1 pkt;
  pkt ← store_freq_error m 2 pkt;
  pkt ← store_freq_error m 3 pkt;
  store_freq_error m 4 pkt.

Definition CHANNELPacket_parse_text (now : Q) (self : driver) (lines : list string)
    : list string * result (option (gmap string pyval)) :=
  match lines with
  | [] => (lines, Raise IndexError)
  | line :: rest =>
      match search CHANNELPacket_PATTERNv13 line with
      | Some m =>
          let r :=
            fe ← (g ← group m 3; py_int g);
            if 20000 <? Z.abs fe then
              g1 ← group m 1; g3 ← group m 3;
              Raise (WeeWxIOError (freq_error_message g1 g3))
            else if bool_decide (frequency self = "EU") then
              tr ← (g ← group m 4; py_int g);
              if tr =? Z.of_nat (transm_to_store self) then store_freq_errors now m
              else Ok ∅
            else Ok ∅ in
          match r with
          | Ok pkt => (rest, Ok (Some pkt))
          | Raise e => (lines, Raise e)
          end
      | None =>
          match search CHANNELPacket_PATTERNv12 line with
          | Some m =>
              let r :=
                fe ← (g ← group m 3; py_int g);
                if 20000 <? Z.abs fe then
                  g1 ← group m 1; g3 ← group m 3;
                  Raise (WeeWxIOError (freq_error_message g1 g3))
                else if bool_decide (frequency self = "EU") then
                  store_freq_errors now m
                else Ok ∅ in
              match r with
              | Ok pkt => (rest, Ok (Some pkt))
              | Raise e => (lines, Raise e)
              end
          | None => (rest, Ok None)
          end
      end
  end.

(** [PacketFactory.parse_text]: the recognizers of [KNOWN_PACKETS] in
    order, on the stripped line. *)
Definition PacketFactory_parse_text (now : Q) (self : driver) (lines : list string)
    : list string * result (option (gmap string pyval)) :=
  match lines with
  | [] => (lines, Raise IndexError)
  | line :: rest =>
      let payload := strip line in
      if negb (bool_decide (payload = "")) then
        if bool_decide (is_Some (search DATAPacket_IDENTIFIER payload)) then
          DATAPacket_parse_text self lines
        else if bool_decide (is_Some (search CHANNELPacket_IDENTIFIER payload)) then
          CHANNELPacket_parse_text now self lines
        else (rest, Ok None)
      else (rest, Ok None)
  end.

Definition pv_int (v : pyval) : Z :=
  match v with VInt z => z | VFloat q => int_of_float q end.

Definition getitem (data : gmap string pyval) (key : string) : result pyval :=
  match data !! key with
  | Some v => Ok v
  | None => Raise (KeyError key)
  end.

(** The body of [for data in PacketFactory.create(self, lines)] in
    [genLoopPackets]: statistics, duplicate suppression and the packet
    yielded, if any. *)
Definition handle_data (now : Q) (self : driver) (data : gmap string pyval)
    : driver * result (option (gmap string pyval)) :=
  if negb (bool_decide (data = ∅)) then
    let updated :=
      if bool_decide (is_Some (data !! "curr_cnt0")) then
        c0 ← getitem data "curr_cnt0"; c1 ← getitem data "curr_cnt1";
        c2 ← getitem data "curr_cnt2"; c3 ← getitem data "curr_cnt3";
        match _update_stats (pv_int c0) (pv_int c1) (pv_int c2) (pv_int c3)
                (self_stats self) with
        | (st, Ok _) => Ok (set_self_stats st self)
        | (_, Raise e) => Raise e
        end
      else Ok self in
    match updated with
    | Raise e => (self, Raise e)
    | Ok self =>
        let duplicate :=
          match _last_pkt self with
          | Some last => data_eqb data last
          | None => false
          end in
        if negb duplicate then
          let '(self, packet) := _data_to_packet now (set_last_pkt (Some data) self) data in
          (self, Ok (Some packet))
        else (self, Ok None)
    end
  else (self, Ok None).

(** What one run of the read loop leaves behind: the object, the lines
    not consumed, the packets yielded so far, and the exception that
    ended the run, if one did. *)
Record run : Type := {
  run_self : driver;
  run_lines : list string;
  run_yielded : list (gmap string pyval);
  run_raised : option exn
}.

(** [for data in PacketFactory.create(self, lines): ...] for one list of
    lines.  Every step that does not raise pops a line, so as many steps
    as there are lines empty the list. *)
Fixpoint read_lines (fuel : nat) (now : Q) (self : driver) (lines : list string)
    (yielded : list (gmap string pyval)) : run :=
  match fuel, lines with
  | S fuel', _ :: _ =>
      match PacketFactory_parse_text now self lines with
      | (lines', Raise e) =>
          {| run_self := self; run_lines := lines';
             run_yielded := yielded; run_raised := Some e |}
      | (lines', Ok None) => read_lines fuel' now self lines' yielded
      | (lines', Ok (Some data)) =>
          match handle_data now self data with
          | (self', Raise e) =>
              {| run_self := self'; run_lines := lines';
                 run_yielded := yielded; run_raised := Some e |}
          | (self', Ok None) => read_lines fuel' now self' lines' yielded
          | (self', Ok (Some packet)) =>
              read_lines fuel' now self' lines' (yielded ++ [packet])
          end
      end
  | _, _ =>
      {| run_self := self; run_lines := lines;
         run_yielded := yielded; run_raised := None |}
  end.

(** [for lines in self._mgr.get_stderr(): ...] of [genLoopPackets]: the
    lists of lines handed over by the reader, each with the clock reading
    at which it is handled.  The loop ends with the first exception;
    nothing in [genLoopPackets] or in the parsers catches one. *)
Fixpoint genLoopPackets (self : driver) (batches : list (Q * list string))
    (yielded : list (gmap string pyval)) : run :=
  match batches with
  | [] =>
      {| run_self := self; run_lines := [];
         run_yielded := yielded; run_raised := None |}
  | (now, lines) :: batches' =>
      let r := read_lines (length lines) now self lines yielded in
      match run_raised r with
      | Some _ => r
      | None => genLoopPackets (run_self r) batches' (run_yielded r)
      end
  end.

End Frames.

(** ** States of the link quality tracker that the driver can reach *)

(** The tracker starts from [_init_stats] with the active transmitters
    entered by [ch_to_xmit]; every data line stores its four counters;
    every archive record runs [new_archive_record].  An exception ends the
    run. *)
Inductive reachable : stats -> Prop :=
  | reach_init (c1 c2 c3 c4 c5 : Z) (st : stats) (out : Z * nat) :
      ch_to_xmit c1 c2 c3 c4 c5 _init_stats = (st, Ok out) ->
      reachable st
  | reach_update_stats (st st' : stats) (n0 n1 n2 n3 : Z) :
      reachable st ->
      _update_stats n0 n1 n2 n3 st = (st', Ok tt) ->
      reachable st'
  | reach_archive (st st' : stats) (now : Z) (stored : option Q) :
      reachable st ->
      new_archive_record now st = (st', Ok stored) ->
      reachable st'.

(** The shape of [self.stats]: four slots per counter list, eight
    transmitter ids, the loop-time table. *)
Record wf (st : stats) : Prop := {
  wf_loop_times : loop_times st = loop_times _init_stats;
  wf_activeTrIds : length (activeTrIds st) = 8%nat;
  wf_curr_cnt : length (curr_cnt st) = 4%nat;
  wf_last_cnt : length (last_cnt st) = 4%nat;
  wf_max_count : length (max_count st) = 4%nat;
  wf_count : length (count st) = 4%nat;
  wf_missed : length (missed st) = 4%nat;
  wf_pct_good : length (pct_good st) = 4%nat
}.

(** Slot [i] can be summarized over [period] seconds without an
    exception: when its cumulative count is positive its transmitter id
    has a loop time, and when messages arrived since the last archive the
    period is at least that loop time. *)
Definition summarizable (period : Z) (st : stats) (i : nat) : Prop :=
  forall c, curr_cnt st !! i = Some c -> 0 < c ->
  exists x lt lc,
    activeTrIds st !! i = Some x /\ loop_times st !! x = Some lt /\
    last_cnt st !! i = Some lc /\
    (0 < c - lc -> (lt <= inject_Z period)%Q).

(** One ISS on channel 1; an archive record at time 1000; then 100
    messages until the archive record at time 1300. *)
Definition stats_one_iss : stats := (ch_to_xmit 1 0 0 0 0 _init_stats).1.

Definition stats_after_first_archive : stats :=
  ((_ ← _update_stats 5 0 0 0; new_archive_record 1000) stats_one_iss).1.

Definition stats_100_messages : stats :=
  (_update_stats 105 0 0 0 stats_after_first_archive).1.

(** The same with 117 messages in a period of 299 seconds. *)
Definition stats_117_messages : stats :=
  (_update_stats 122 0 0 0 stats_after_first_archive).1.

(** After the first archive record, a line that reports the counters
    5 3 2 1: the second to fourth slot count messages and have no
    transmitter. *)
Definition stats_four_counters : stats :=
  (_update_stats 5 3 2 1 stats_after_first_archive).1.

(** ** The wind correction as the specification words it *)

Definition fold_angle (a : Z) : Z := if 128 <? a then 256 - a else a.

(** The speed bins (first column) and the angle bins (first row). *)
Definition grid_speeds : list Z := drop 1 (map (fun row => default 0 (row !! 0%nat)) windtab).
Definition grid_angles : list Z := drop 1 (default [] (windtab !! 0%nat)).

(** The correction stored for speed bin [i] and angle bin [j]. *)
Definition entry (i j : nat) : Z :=
  default 0 (row ← windtab !! S i; row !! S j).

(** Index of the last bin at or below [x], of the first bin at or above
    [x]; the nearest edge bin when there is none. *)
Fixpoint last_le (g : list Z) (x : Z) (i : nat) (found : nat) : nat :=
  match g with
  | [] => found
  | v :: g' => last_le g' x (S i) (if v <=? x then i else found)
  end.

Fixpoint first_ge (g : list Z) (x : Z) (i : nat) : nat :=
  match g with
  | [] => (i - 1)%nat
  | v :: g' => if x <=? v then i else first_ge g' x (S i)
  end.

Definition bracket (g : list Z) (x : Z) : nat * nat :=
  (last_le g x 0 0, first_ge g x 0).

(** Position of [x] between the two bins, as a fraction; [x] is clamped
    to the bins, so the fraction stays within 0 and 1. *)
Definition fraction (g : list Z) (lo hi : nat) (x : Z) : Q :=
  let vlo := default 0 (g !! lo) in
  let vhi := default 0 (g !! hi) in
  if vlo =? vhi then 0%Q
  else (inject_Z (Z.max vlo (Z.min x vhi) - vlo) / inject_Z (vhi - vlo))%Q.

Definition bilinear (c00 c01 c10 c11 : Z) (ty tx : Q) : Q :=
  let top := (inject_Z c00 + tx * inject_Z (c01 - c00))%Q in
  let bottom := (inject_Z c10 + tx * inject_Z (c11 - c10))%Q in
  (top + ty * (bottom - top))%Q.

Definition spec_wind_correction (raw_mph raw_angle : Z) : Q :=
  let angle := fold_angle raw_angle in
  let '(s0, s1) := bracket grid_speeds raw_mph in
  let '(a0, a1) := bracket grid_angles angle in
  if bool_decide (raw_mph ∈ grid_speeds) && bool_decide (angle ∈ grid_angles) then
    inject_Z (raw_mph + entry s0 a0)
  else
    (inject_Z raw_mph +
     bilinear (entry s0 a0) (entry s0 a1) (entry s1 a0) (entry s1 a1)
       (fraction grid_speeds s0 s1 raw_mph) (fraction grid_angles a0 a1 angle))%Q.

(** Does the code return what the specification's wording gives? *)
Definition agrees (s a : Z) : bool :=
  match calc_wind_speed_ec s a with
  | Ok q => Qeq_bool q (spec_wind_correction s a)
  | Raise _ => false
  end.

(** The folded angle is an angle bin while the speed lies between two
    speed bins: the first branch of [interpolate]. *)
Definition angle_bin_only (s a : Z) : bool :=
  bool_decide (fold_angle a ∈ grid_angles) && negb (bool_decide (s ∈ grid_speeds)).

Definition at_bin (i j : nat) : bool :=
  match grid_speeds !! i, grid_angles !! j with
  | Some s, Some a =>
      match calc_wind_speed_ec s a with
      | Ok q => Qeq_bool q (inject_Z (s + entry i j))
      | Raise _ => false
      end
  | _, _ => true
  end.

Definition Zrange (lo : Z) (n : nat) : list Z :=
  map (fun i => lo + Z.of_nat i) (seq 0 n).

(** Configurations used in the examples: the defaults; a second
    temperature/humidity station on channel 9; a rain bucket of type 2. *)
Definition config_default : config :=
  {| stn_dict := ∅; stn_sensor_map := None |}.
Definition config_channel_9 : config :=
  {| stn_dict := {[ "temp_hum_2_channel" := "9" ]}; stn_sensor_map := None |}.
Definition config_bucket_2 : config :=
  {| stn_dict := {[ "rain_bucket_type" := "2" ]}; stn_sensor_map := None |}.

(** The object built from the default configuration (one ISS on channel
    1, band EU, 0.2 mm bucket), once [genLoopPackets] has chosen the
    transmitter whose frequency errors are stored. *)
Definition driver_default : driver :=
  {| rain_per_tip := 0.2;
     sensor_map := DEFAULT_SENSOR_MAP;
     self_stats := (ch_to_xmit 1 0 0 0 0 _init_stats).1;
     last_rain_count := None;
     _log_humidity_raw := false;
     _save_pct_good_per_transmitter := false;
     cmd := "/home/pi/work/bin/rtldavis -tf EU -tf EU -tr 1";
     path := None;
     ld_library_path := None;
     frequency := "EU";
     self_channels := {| iss := 1; anemometer := 0; leaf_soil := 0;
                         temp_hum_1 := 0; temp_hum_2 := 0; wind_channel := 1 |};
     transmitters := 1;
     tr_count := 1;
     _last_pkt := None;
     transm_to_store := 0 |}.

(** A decoder that adds nothing to the reading, for the examples that do
    not reach a decoder. *)
Definition decode_nothing (self : driver) (pkt : list Z)
    (data : gmap string pyval) : result (gmap string pyval) := Ok data.

(** The bytes of a matched data line. *)
Definition frame_bytes (m : list string) : result (list Z) :=
  mapM (fun i => g ← group m (i + 1); py_int_base 16 g) (seq 0 8).

Definition line_bad_crc : string := "13:44:13.116046 5106B2FF73007662 5 3 2 1".
Definition line_channel_2 : string := "13:44:13.116046 5106B2FF73007661 5 3 2 1".
Definition line_freq_error : string :=
  "13:44:14.000000 Hop: {ChannelIdx:3 ChannelFreq:868437250 FreqError:-20001 Transmitter:0}".
Definition line_freq_error_v12 : string :=
  "13:44:14.000000 Hop: {ChannelIdx:3 ChannelFreq:868437250 FreqError:20001}".
Definition line_freq_ok : string :=
  "13:44:14.000000 Hop: {ChannelIdx:3 ChannelFreq:868437250 FreqError:-20000 Transmitter:0}".

(** ** Auxiliary notions for the proofs about the tracker *)

(** The state a slot is left in when its cumulative count is positive
    and its loop time is [lt]. *)
Definition counted (period : Z) (i : nat) (c lc : Z) (lt : Q) (st : stats) : stats :=
  let mc := inject_Z (Qfloor (inject_Z period / lt)) in
  set_count (<[i:=c - lc]> (count st)) (set_max_count (<[i:=mc]> (max_count st)) st).

Definition rated (period : Z) (i : nat) (c lc : Z) (lt : Q) (st : stats) : stats :=
  let mc := inject_Z (Qfloor (inject_Z period / lt)) in
  set_pct_good (<[i:=Some (100 * inject_Z (c - lc) / mc)%Q]> (pct_good st))
    (set_missed (<[i:=(mc - inject_Z (c - lc))%Q]> (missed st))
       (counted period i c lc lt st)).

(** What a step may not touch, and the slots it leaves alone. *)
Definition frame (st st' : stats) : Prop :=
  loop_times st' = loop_times st /\ activeTrIds st' = activeTrIds st /\
  curr_cnt st' = curr_cnt st /\ last_cnt st' = last_cnt st /\
  last_ts st' = last_ts st /\ pct_good_all st' = pct_good_all st.

Definition same_slot (j : nat) (st st' : stats) : Prop :=
  max_count st' !! j = max_count st !! j /\ count st' !! j = count st !! j /\
  missed st' !! j = missed st !! j /\ pct_good st' !! j = pct_good st !! j.

(** The outcomes of one step. *)
Inductive step_outcome (period : Z) (i : nat) (t : totals) (st : stats)
    : stats * result totals -> Prop :=
  | step_idle c :
      curr_cnt st !! i = Some c -> c <= 0 ->
      step_outcome period i t st (st, Ok t)
  | step_no_loop_time c x :
      curr_cnt st !! i = Some c -> 0 < c ->
      activeTrIds st !! i = Some x -> loop_times st !! x = None ->
      step_outcome period i t st (st, Raise IndexError)
  | step_counted c x lt lc :
      curr_cnt st !! i = Some c -> 0 < c ->
      activeTrIds st !! i = Some x -> loop_times st !! x = Some lt ->
      last_cnt st !! i = Some lc -> c - lc <= 0 ->
      step_outcome period i t st (counted period i c lc lt st, Ok t)
  | step_zero_max c x lt lc :
      curr_cnt st !! i = Some c -> 0 < c ->
      activeTrIds st !! i = Some x -> loop_times st !! x = Some lt ->
      last_cnt st !! i = Some lc -> 0 < c - lc ->
      Qeq_bool (inject_Z (Qfloor (inject_Z period / lt))) 0 = true ->
      step_outcome period i t st
        (set_missed (<[i:=(inject_Z (Qfloor (inject_Z period / lt))
                           - inject_Z (c - lc))%Q]> (missed st))
           (counted period i c lc lt st), Raise ZeroDivisionError)
  | step_rated c x lt lc :
      curr_cnt st !! i = Some c -> 0 < c ->
      activeTrIds st !! i = Some x -> loop_times st !! x = Some lt ->
      last_cnt st !! i = Some lc -> 0 < c - lc ->
      Qeq_bool (inject_Z (Qfloor (inject_Z period / lt))) 0 = false ->
      step_outcome period i t st
        (rated period i c lc lt st,
         Ok {| total_count := total_count t + (c - lc);
               total_missed := (total_missed t
                                + (inject_Z (Qfloor (inject_Z period / lt))
                                   - inject_Z (c - lc)))%Q;
               total_max_count := (total_max_count t
                                   + inject_Z (Qfloor (inject_Z period / lt)))%Q |}).

(** The four steps of the loop, and the aggregate that follows them. *)
Definition four_steps (period : Z) (t : totals) : SM totals :=
  t ← summarize_transmitter period 0 t;
  t ← summarize_transmitter period 1 t;
  t ← summarize_transmitter period 2 t;
  summarize_transmitter period 3 t.

Definition aggregate (t : totals) : SM unit :=
  st ← get;
  if negb (Qle_bool (total_max_count t) 0) && bool_decide (is_Some (pct_good_all st)) then
    p ← lift (fdiv (100 * inject_Z (total_count t)) (total_max_count t));
    modify (set_pct_good_all (Some p))
  else mret tt.

Definition no_totals : totals :=
  {| total_count := 0; total_missed := 0; total_max_count := 0 |}.

(** Invariants of the slots. *)
Definition missed_consistent (st : stats) : Prop :=
  forall i c, count st !! i = Some c -> 0 < c ->
  exists mc, max_count st !! i = Some mc /\
             missed st !! i = Some (mc - inject_Z c)%Q.

Definition unrated_from (k : nat) (st : stats) : Prop :=
  forall i, (k <= i < 4)%nat -> pct_good st !! i = Some None.

Definition rated_ok (st : stats) : Prop :=
  forall i p, pct_good st !! i = Some (Some p) ->
  exists c mc, count st !! i = Some c /\ max_count st !! i = Some mc /\
               0 < c /\ (0 < mc)%Q /\ p = (100 * inject_Z c / mc)%Q.

Definition slots_inv (period : Z) (k : nat) (st : stats) : Prop :=
  missed_consistent st /\ unrated_from k st /\ (0 <= period -> rated_ok st).

(** A relation between the state before and after that a computation
    maintains however it ends. *)
Definition preserves {A : Type} (R : stats -> stats -> Prop) (m : SM A) : Prop :=
  forall st, R st (m st).1.

(** The summaries and the shape of the counters are left as they are. *)
Definition same_summary (st st' : stats) : Prop :=
  loop_times st' = loop_times st /\ max_count st' = max_count st /\
  count st' = count st /\ missed st' = missed st /\
  pct_good st' = pct_good st /\ pct_good_all st' = pct_good_all st /\
  length (activeTrIds st') = length (activeTrIds st) /\
  length (curr_cnt st') = length (curr_cnt st) /\
  length (last_cnt st') = length (last_cnt st).

Definition tracker_inv (st : stats) : Prop :=
  wf st /\ missed_consistent st /\ unrated_from 0 st /\ pct_good_all st = None.

(** What the summary of slot [i] over [period] seconds writes. *)
Definition summarized (period : Z) (st : stats) (i : nat) (st' : stats) : Prop :=
  forall c x lt lc,
    curr_cnt st !! i = Some c -> 0 < c ->
    activeTrIds st !! i = Some x -> loop_times st !! x = Some lt ->
    last_cnt st !! i = Some lc ->
    let mc := inject_Z (Qfloor (inject_Z period / lt)) in
    max_count st' !! i = Some mc /\ count st' !! i = Some (c - lc) /\
    (0 < c - lc ->
       missed st' !! i = Some (mc - inject_Z (c - lc))%Q /\
       pct_good st' !! i = Some (Some (100 * inject_Z (c - lc) / mc)%Q)) /\
    (c - lc <= 0 ->
       missed st' !! i = missed st !! i /\ pct_good st' !! i = pct_good st !! i).

(** * The rest of the payload decoding and of the read loop *)

(** ** Soil moisture and leaf wetness: [lookup_potential] *)

(** A lookup table: [lookup[RAW]] and [lookup[POT]]. *)
Record lookup_table : Type := {
  RAW : list Q;
  POT : list Q
}.

Definition SM_MAP : lookup_table :=
  {| RAW := [99.2; 140.1; 218.7; 226.9; 266.8; 391.7; 475.6; 538.2; 596.1; 673.7; 720.1];
     POT := [0.0; 1.0; 9.0; 10.0; 15.0; 35.0; 55.0; 75.0; 100.0; 150.0; 200.0] |}%Q.

Definition LW_MAP : lookup_table :=
  {| RAW := [857.0; 864.0; 895.0; 911.0; 940.0; 952.0; 991.0; 1013.0];
     POT := [15.0; 14.0; 5.0; 4.0; 3.0; 2.0; 1.0; 0.0] |}%Q.

Definition Qltb (a b : Q) : bool := negb (Qle_bool b a).

(** [for x in range(0, numcols)] of [lookup_potential], from index [x]
    with [fuel] indices left; [potential] is the preset value. *)
Fixpoint lookup_scan (lookup : lookup_table) (sensor_raw_norm : Q)
    (fuel x : nat) (potential : Q) : result Q :=
  match fuel with
  | O => Ok potential
  | S fuel' =>
      rx ← index (RAW lookup) x;
      if Qltb sensor_raw_norm rx then
        if (x =? 0)%nat then Ok potential
        else
          px ← index (POT lookup) x;
          px1 ← index (POT lookup) (x - 1);
          rx ← index (RAW lookup) x;
          rx1 ← index (RAW lookup) (x - 1);
          potential_per_raw ← fdiv (px - px1) (rx - rx1);
          rx1 ← index (RAW lookup) (x - 1);
          let potential_offset := ((sensor_raw_norm - rx1) * potential_per_raw)%Q in
          px1 ← index (POT lookup) (x - 1);
          Ok (px1 + potential_offset)%Q
      else lookup_scan lookup sensor_raw_norm fuel' (S x) potential
  end.

Definition lookup_potential (norm_fact : Q) (sensor_raw : Q) (sensor_temp : Q)
    (lookup : lookup_table) : result Q :=
  let sensor_raw_norm :=
    (sensor_raw * (1 + norm_fact * (sensor_temp - inject_Z DEFAULT_SOIL_TEMP)))%Q in
  let numcols := length (RAW lookup) in
  last_raw ← index (RAW lookup) (numcols - 1);
  if Qle_bool last_raw sensor_raw_norm then
    index (POT lookup) (numcols - 1)
  else
    potential ← index (POT lookup) 0;
    lookup_scan lookup sensor_raw_norm numcols 0 potential.


(** ** Payload decoding: the two value decoders of [parse_raw] *)

Definition MPH_TO_MPS : Q := (1609.34 / 3600.0)%Q.

(** [((hi << 2) + (lo >> 6)) & 0x3FF], the ten-bit fields. *)
Definition ten_bits (hi lo : Z) : Z :=
  Z.land (Z.shiftl hi 2 + Z.shiftr lo 6) 0x3FF.

(** The builtin [round] of Python 3 with one argument: the nearest
    integer, a tie going to the even one. *)
Definition py_round (q : Q) : Z :=
  let f := Qfloor q in
  let d := (q - inject_Z f)%Q in
  if Qltb d (1 # 2) then f
  else if Qltb (1 # 2) d then f + 1
  else if Z.even f then f else f + 1.

Section Decoders.

(** [weewx.wxformulas.FtoC], a library function; and
    [calculate_thermistor_temp] as it computes on floats (its results are
    not rational; the embedding over the reals above describes them). *)
Variable FtoC : Q -> result Q.
Variable thermistor_temp : Q -> result Q.

(** The wind part of a station packet (the statements from
    [wind_speed_raw = pkt[1]] to the end of the first [if]).  All
    assignments to [data] sit in the [else] branch of the direction
    test. *)
Definition wind_reading (pkt : list Z) (data : gmap string pyval)
    : result (gmap string pyval) :=
  wind_speed_raw ← index pkt 1;
  wind_dir_raw ← index pkt 2;
  if negb ((wind_speed_raw =? 0) && (wind_dir_raw =? 0)) then
    if wind_dir_raw =? 0 then Ok data
    else if wind_dir_raw =? 255 then Ok data
    else
      let wind_dir_pro := (9.0 + inject_Z (wind_dir_raw - 1) * 342.0 / 253.0)%Q in
      ec ← calc_wind_speed_ec wind_speed_raw wind_dir_raw;
      let wind_speed_ec := py_round ec in
      Ok (<["wind_speed" := VFloat (inject_Z wind_speed_ec * MPH_TO_MPS)%Q]>
           (<["wind_dir" := VFloat wind_dir_pro]>
             (<["wind_speed_raw" := VInt wind_speed_raw]>
               (<["wind_speed_ec" := VInt wind_speed_ec]> data))))
  else Ok data.

(** [data[key_1] = v] on the first temperature/humidity channel,
    [data[key_2] = v] on the second, [data[key] = v] otherwise. *)
Definition store_by_channel (self : driver) (channel : pyval)
    (key_1 key_2 key : string) (v : pyval) (data : gmap string pyval)
    : gmap string pyval :=
  if pv_eqb channel (VInt (temp_hum_1 (self_channels self))) then <[key_1 := v]> data
  else if pv_eqb channel (VInt (temp_hum_2 (self_channels self))) then <[key_2 := v]> data
  else <[key := v]> data.

(** The message part of a station packet (from
    [message_type = (pkt[0] >> 4 & 0xF)] on).  The humidity log of type
    0xA, which keeps [self.last_hum], only writes to the log. *)
Definition station_message (self : driver) (pkt : list Z)
    (data : gmap string pyval) : result (gmap string pyval) :=
  b0 ← index pkt 0;
  let message_type := Z.land (Z.shiftr b0 4) 0xF in
  if message_type =? 2 then
    b3 ← index pkt 3; b4 ← index pkt 4;
    let supercap_volt_raw := ten_bits b3 b4 in
    if negb (supercap_volt_raw =? 0x3FF) then
      Ok (<["supercap_volt" := VFloat (inject_Z supercap_volt_raw / 300.0)%Q]> data)
    else Ok data
  else if message_type =? 3 then
    _ ← index pkt 3; _ ← index pkt 4; _ ← index pkt 5; Ok data
  else if message_type =? 4 then
    b3 ← index pkt 3; b4 ← index pkt 4;
    let uv_raw := ten_bits b3 b4 in
    if negb (uv_raw =? 0x3FF) then
      Ok (<["uv" := VFloat (inject_Z uv_raw / 50.0)%Q]> data)
    else Ok data
  else if message_type =? 5 then
    b4 ← index pkt 4; b3 ← index pkt 3;
    let time_between_tips_raw := Z.shiftl (Z.land b4 0x30) 4 + b3 in
    channel ← getitem data "channel";
    if pv_eqb channel (VInt (iss (self_channels self))) then
      rain_rate ←
        (if time_between_tips_raw =? 0x3FF then Ok (VInt 0)
         else
           b4 ← index pkt 4;
           if Z.land b4 0x40 =? 0 then
             let time_between_tips := (inject_Z time_between_tips_raw / 16.0)%Q in
             r ← fdiv 3600.0 time_between_tips;
             Ok (VFloat (r * rain_per_tip self)%Q)
           else
             r ← fdiv 3600.0 (inject_Z time_between_tips_raw);
             Ok (VFloat (r * rain_per_tip self)%Q));
      Ok (<["rain_rate" := rain_rate]> data)
    else Ok data
  else if message_type =? 6 then
    b3 ← index pkt 3; b4 ← index pkt 4;
    let sr_raw := ten_bits b3 b4 in
    if sr_raw <? 0x3FE then
      Ok (<["solar_radiation" := VFloat (inject_Z sr_raw * 1.757936)%Q]> data)
    else Ok data
  else if message_type =? 7 then
    b3 ← index pkt 3; b4 ← index pkt 4;
    let solar_power_raw := ten_bits b3 b4 in
    if negb (solar_power_raw =? 0x3FF) then
      Ok (<["solar_power" := VFloat (inject_Z solar_power_raw / 300.0)%Q]> data)
    else Ok data
  else if message_type =? 8 then
    b3 ← index pkt 3; b4 ← index pkt 4;
    let temp_raw := Z.shiftl b3 4 + Z.shiftr b4 4 in
    if negb (temp_raw =? 0xFFC) then
      b4 ← index pkt 4;
      temp_c ←
        (if negb (Z.land b4 0x8 =? 0) then FtoC (inject_Z temp_raw / 10.0)%Q
         else thermistor_temp (inject_Z temp_raw / 4)%Q);
      channel ← getitem data "channel";
      Ok (store_by_channel self channel "temp_1" "temp_2" "temperature"
            (VFloat temp_c) data)
    else Ok data
  else if message_type =? 9 then
    _ ← index pkt 3; _ ← index pkt 5; Ok data
  else if message_type =? 0xA then
    b4 ← index pkt 4; b3 ← index pkt 3;
    let humidity_raw := Z.shiftl (Z.shiftr b4 4) 8 + b3 in
    if negb (humidity_raw =? 0) then
      b4 ← index pkt 4;
      let humidity :=
        (if Z.land b4 0x08 =? 0x8 then inject_Z humidity_raw / 10.0
         else inject_Z humidity_raw * -0.301 + 710.23)%Q in
      channel ← getitem data "channel";
      if pv_eqb channel (VInt (temp_hum_1 (self_channels self))) then
        Ok (<["humid_1" := VFloat humidity]> data)
      else if pv_eqb channel (VInt (temp_hum_2 (self_channels self))) then
        Ok (<["humid_2" := VFloat humidity]> data)
      else if pv_eqb channel (VInt (anemometer (self_channels self))) then
        Ok data
      else Ok (<["humidity" := VFloat humidity]> data)
    else Ok data
  else if message_type =? 0xC then
    _ ← index pkt 3; _ ← index pkt 4; _ ← index pkt 5; Ok data
  else if message_type =? 0xE then
    rain_count_raw ← index pkt 3;
    if negb (rain_count_raw =? 0x80) then
      Ok (<["rain_count" := VInt (Z.land rain_count_raw 0x7F)]> data)
    else Ok data
  else Ok data.

(** The station decoder of [parse_raw]: wind, then message. *)
Definition decode_station_packet (self : driver) (pkt : list Z)
    (data : gmap string pyval) : result (gmap string pyval) :=
  data ← wind_reading pkt data;
  station_message self pkt data.

(** The leaf/soil decoder of [parse_raw]. *)
Definition decode_leaf_soil_packet (self : driver) (pkt : list Z)
    (data : gmap string pyval) : result (gmap string pyval) :=
  b0 ← index pkt 0;
  let data_type := Z.shiftr b0 4 in
  if data_type =? 0xF then
    b1 ← index pkt 1;
    let data_subtype := Z.land b1 0x3 in
    let sensor_num := pretty (Z.shiftr (Z.land b1 0xe0) 5 + 1) in
    let temp_c := inject_Z DEFAULT_SOIL_TEMP in
    b3 ← index pkt 3; b5 ← index pkt 5;
    let temp_raw := ten_bits b3 b5 in
    b2 ← index pkt 2; b4 ← index pkt 4;
    let potential_raw := ten_bits b2 b4 in
    if data_subtype =? 1 then
      '(temp_c, data) ←
        (if negb (b3 =? 0xFF) then
           temp_c ← thermistor_temp (inject_Z temp_raw);
           Ok (temp_c, <["soil_temp_" +:+ sensor_num := VFloat temp_c]> data)
         else Ok (temp_c, data));
      if negb (b2 =? 0xFF) then
        soil_moisture ← lookup_potential 0.009 (inject_Z potential_raw) temp_c SM_MAP;
        Ok (<["soil_moisture_" +:+ sensor_num := VFloat soil_moisture]> data)
      else Ok data
    else if data_subtype =? 2 then
      '(temp_c, data) ←
        (if negb (b3 =? 0xFF) then
           temp_c ← thermistor_temp (inject_Z temp_raw);
           Ok (temp_c, <["leaf_temp_" +:+ sensor_num := VFloat temp_c]> data)
         else Ok (temp_c, data));
      if negb (b2 =? 0) then
        leaf_wetness ← lookup_potential 0.0 (inject_Z potential_raw) temp_c LW_MAP;
        Ok (<["leaf_wetness_" +:+ sensor_num := VFloat leaf_wetness]> data)
      else Ok data
    else Ok data
  else Ok data.

(** [parse_raw] with its two decoders. *)
Definition parse_raw_packet (self : driver) (pkt : list Z)
    : result (gmap string pyval) :=
  parse_raw decode_station_packet decode_leaf_soil_packet self pkt.

End Decoders.


(** ** The start of [genLoopPackets]: the transmitter whose frequency
    errors are stored *)

(** [a % b] on integers: the sign of the divisor, [ZeroDivisionError]
    for the divisor 0. *)
Definition py_mod (a b : Z) : result Z :=
  if b =? 0 then Raise ZeroDivisionError else Ok (a mod b).

(** [l[i]] with an integer that may be negative. *)
Definition list_getitem {A : Type} (l : list A) (i : Z) : result A :=
  if i <? 0 then
    if - i <=? Z.of_nat (length l) then index l (Z.to_nat (Z.of_nat (length l) + i))
    else Raise IndexError
  else index l (Z.to_nat i).

(** The statements of [genLoopPackets] before its loop;
    [time_last_received] is [int(time.time())]. *)
Definition genLoopPackets_start (time_last_received : Z) (self : driver)
    : result driver :=
  let periodShowOneTransm := 2 * 24 * 3600 in
  m ← py_mod (time_last_received - 3 * 3600)
             (periodShowOneTransm * Z.of_nat (tr_count self));
  q ← fdiv (inject_Z m) (inject_Z periodShowOneTransm);
  let rel_transm_to_store := int_of_float q in
  t ← list_getitem (activeTrIds (self_stats self)) rel_transm_to_store;
  Ok (set_transm_to_store t self).


(** A table [lookup_potential] can use: not empty, as many potentials as
    raw values, raw values strictly increasing. *)
Definition increasing (l : list Q) : Prop :=
  forall i j a b, (i < j)%nat -> l !! i = Some a -> l !! j = Some b -> (a < b)%Q.

Record table_ok (t : lookup_table) : Prop := {
  table_nonempty : (0 < length (RAW t))%nat;
  table_lengths : length (POT t) = length (RAW t);
  table_increasing : increasing (RAW t)
}.

(** [sensor_raw_norm] of [lookup_potential]. *)
Definition normalized (norm_fact sensor_raw sensor_temp : Q) : Q :=
  (sensor_raw * (1 + norm_fact * (sensor_temp - inject_Z DEFAULT_SOIL_TEMP)))%Q.


(** Boolean test of [increasing]: each raw value below the next. *)
Fixpoint increasingb (l : list Q) : bool :=
  match l with
  | a :: (b :: _) as l' => Qltb a b && increasingb l'
  | _ => true
  end.


(** The wind correction stays within 6 below and 19 above the raw speed
    and never goes below zero. *)
Definition correction_ok (s a : Z) : bool :=
  match calc_wind_speed_ec s a with
  | Ok q => Qle_bool (inject_Z s - 6) q && Qle_bool q (inject_Z s + 19)
            && Qle_bool 0 q
  | Raise _ => false
  end.


(** The observation names the station decoder writes: for the wind, and
    for the message of the packet. *)
Definition wind_keys : list string :=
  ["wind_speed"; "wind_dir"; "wind_speed_raw"; "wind_speed_ec"].

Definition message_keys : list string :=
  ["supercap_volt"; "uv"; "rain_rate"; "solar_radiation"; "solar_power";
   "temp_1"; "temp_2"; "temperature"; "humid_1"; "humid_2"; "humidity";
   "rain_count"].

(** The battery flags of [parse_raw], one for each role. *)
Definition battery_keys : list string :=
  ["bat_iss"; "bat_anemometer"; "bat_th_1"; "bat_th_2"; "bat_leaf_soil"].

(** All bytes of a packet between 0 and 255. *)
Definition all_bytes (pkt : list Z) : Prop := Forall (fun b => 0 <= b < 256) pkt.

(** [message_type] and [time_between_tips_raw] of [parse_raw]. *)
Definition message_type (b0 : Z) : Z := Z.land (Z.shiftr b0 4) 0xF.

Definition time_between_tips_raw (b3 b4 : Z) : Z :=
  Z.shiftl (Z.land b4 0x30) 4 + b3.


(** What the leaf/soil decoder writes: a temperature, a soil moisture
    between 0 and 200 or a leaf wetness between 0 and 15, under a name
    that ends in the sensor number, 1 to 8. *)
Definition leaf_soil_field (k : string) (v : pyval) : Prop :=
  exists n : Z, 1 <= n <= 8 /\
    (k = "soil_temp_" +:+ pretty n \/ k = "leaf_temp_" +:+ pretty n \/
     (k = "soil_moisture_" +:+ pretty n /\
      exists q, v = VFloat q /\ (0 <= q <= 200)%Q) \/
     (k = "leaf_wetness_" +:+ pretty n /\
      exists q, v = VFloat q /\ (0 <= q <= 15)%Q)).


(** Stand-ins for the library conversion and the float thermistor
    formula in the examples. *)
Definition example_FtoC (x : Q) : result Q := Ok ((x - 32) * 5 / 9)%Q.
Definition example_thermistor (x : Q) : result Q :=
  if Qeq_bool x 0 then Raise ZeroDivisionError else Ok (inject_Z DEFAULT_SOIL_TEMP).

(** Packets of the comments of [parse_raw]: wind on channel 2, a rain
    count, a soil moisture, a rain rate with bytes 3 and 4 zero. *)
Definition pkt_wind : list Z := [0x51; 0x06; 0xB2; 0xFF; 0x73; 0x00; 0x76; 0x61].
Definition pkt_rain_count : list Z := [0xE0; 0x00; 0x00; 0x05; 0x05; 0x00; 0x9F; 0x3D].
Definition pkt_soil : list Z := [0xF2; 0x09; 0x1A; 0x55; 0xC0; 0x00; 0x62; 0xE6].
Definition pkt_rain_rate_zero : list Z := [0x50; 0x00; 0x00; 0x00; 0x00; 0x00; 0x00; 0x00].

(** The default driver with a leaf/soil station on channel 3. *)
Definition driver_leaf_soil : driver :=
  {| rain_per_tip := rain_per_tip driver_default;
     sensor_map := sensor_map driver_default;
     self_stats := self_stats driver_default;
     last_rain_count := last_rain_count driver_default;
     _log_humidity_raw := _log_humidity_raw driver_default;
     _save_pct_good_per_transmitter := _save_pct_good_per_transmitter driver_default;
     cmd := cmd driver_default; path := path driver_default;
     ld_library_path := ld_library_path driver_default;
     frequency := frequency driver_default;
     self_channels := {| iss := 1; anemometer := 0; leaf_soil := 3;
                         temp_hum_1 := 0; temp_hum_2 := 0; wind_channel := 1 |};
     transmitters := transmitters driver_default;
     tr_count := tr_count driver_default;
     _last_pkt := _last_pkt driver_default;
     transm_to_store := transm_to_store driver_default |}.


(** Slot [i] cannot be summarized over [period] seconds: its cumulative
    count is positive and either its transmitter id has no loop time
    ([IndexError]) or messages arrived in a period shorter than the loop
    time, which makes [max_count] zero ([ZeroDivisionError]). *)
Definition slot_fails (period : Z) (st : stats) (i : nat) (e : exn) : Prop :=
  exists c x,
    curr_cnt st !! i = Some c /\ 0 < c /\ activeTrIds st !! i = Some x /\
    ((loop_times st !! x = None /\ e = IndexError) \/
     (exists lt lc,
        loop_times st !! x = Some lt /\ last_cnt st !! i = Some lc /\
        lc < c /\ (0 <= inject_Z period < lt)%Q /\ e = ZeroDivisionError)).

(** One ISS, an archive record at time 1000, then a line that reports
    three messages in the second slot, which has no transmitter. *)
Definition stats_stray_count : stats :=
  (_update_stats 105 3 0 0 stats_after_first_archive).1.

(** A reading with a rain count. *)
Definition reading_rain : gmap string pyval :=
  {[ "channel" := VInt 1; "rain_count" := VInt 5 ]}.

(** The same reading with the four message counters of its line. *)
Definition reading_counted : gmap string pyval :=
  <["curr_cnt3" := VInt 1]> (<["curr_cnt2" := VInt 2]>
    (<["curr_cnt1" := VInt 3]> (<["curr_cnt0" := VInt 5]> reading_rain))).


(** The loop of [ch_to_xmit] over the eight transmitter ids. *)
Definition scan_transmitters (transmitters : Z) : SM (Z * nat) :=
  acc ← mark_active transmitters 0 (1, 0%nat);
  acc ← mark_active transmitters 1 acc;
  acc ← mark_active transmitters 2 acc;
  acc ← mark_active transmitters 3 acc;
  acc ← mark_active transmitters 4 acc;
  acc ← mark_active transmitters 5 acc;
  acc ← mark_active transmitters 6 acc;
  acc ← mark_active transmitters 7 acc;
  mret (transmitters, acc.2).

(** The ids whose bit is set in [transmitters], in increasing order. *)
Definition bit_set (transmitters : Z) (i : nat) : bool :=
  negb (Z.land transmitters (Z.shiftl 1 (Z.of_nat i)) =? 0).

Definition ids_before (transmitters : Z) (k : nat) : list nat :=
  filter (fun i => bit_set transmitters i = true) (seq 0 k).

Definition active_ids (transmitters : Z) : list nat := ids_before transmitters 8.

(** The ids of the channels of the five roles, in increasing order. *)
Definition role_ids (chs : list Z) : list nat :=
  filter (fun i => Z.of_nat i + 1 ∈ chs) (seq 0 8).

(** Channels from 1 to 8 for the ISS and from 0 (none) to 8 for the other
    roles, no channel given to two roles. *)
Definition channels_okb (a b c d e : Z) : bool :=
  (1 <=? a) && (a <=? 8) &&
  forallb (fun x => (0 <=? x) && (x <=? 8)) [b; c; d; e] &&
  bool_decide (NoDup (filter (fun x => x <> 0) [a; b; c; d; e])).

Definition xmit_check (a b c d e : Z) : bool :=
  negb (channels_okb a b c d e) ||
  match ch_to_xmit a b c d e _init_stats with
  | (_, Ok (t, _)) =>
      bool_decide (active_ids t = role_ids [a; b; c; d; e])
  | (_, Raise _) => false
  end.


(** What a pattern matches, and the groups it captures: the text
    consumed and the captured strings, in the order the groups close. *)
Inductive sem : regex -> list ascii -> list string -> Prop :=
  | sem_lit c : sem (Lit c) [c] []
  | sem_class (p : ascii -> bool) c : p c = true -> sem (Class p) [c] []
  | sem_dot c : sem Dot [c] []
  | sem_bol : sem Bol [] []
  | sem_cat r1 r2 s1 s2 g1 g2 :
      sem r1 s1 g1 -> sem r2 s2 g2 -> sem (Cat r1 r2) (s1 ++ s2) (g1 ++ g2)
  | sem_rep_O r : sem (Rep 0 r) [] []
  | sem_rep_S n r s1 s2 g1 g2 :
      sem r s1 g1 -> sem (Rep n r) s2 g2 ->
      sem (Rep (S n) r) (s1 ++ s2) (g1 ++ g2)
  | sem_plus_one r s g : sem r s g -> sem (Plus r) s g
  | sem_plus_more r s1 s2 g1 g2 :
      sem r s1 g1 -> sem (Plus r) s2 g2 -> sem (Plus r) (s1 ++ s2) (g1 ++ g2)
  | sem_grp r s g :
      sem r s g -> sem (Grp r) s (g ++ [string_of_list_ascii s]).

(** The loop of [rmatch] for [Plus], over the matcher of the repeated
    pattern. *)
Definition plus_loop
    (m : nat -> list ascii -> list string -> cont -> option (list string))
    (k : cont) : nat -> nat -> list ascii -> list string -> option (list string) :=
  fix more (fuel : nat) (pos : nat) (s : list ascii) (caps : list string)
    : option (list string) :=
    m pos s caps (fun pos' s' caps' =>
      match fuel with
      | S fuel' =>
          match (if (pos <? pos')%nat then more fuel' pos' s' caps' else None) with
          | Some res => Some res
          | None => k pos' s' caps'
          end
      | O => k pos' s' caps'
      end).

(** A matcher that only succeeds through its continuation, on what is
    left after a text the pattern matches. *)
Definition sound (r : regex)
    (m : nat -> list ascii -> list string -> cont -> option (list string)) : Prop :=
  forall pos s caps k res,
    m pos s caps k = Some res ->
    exists s1 s2 g,
      s = s1 ++ s2 /\ sem r s1 g /\
      k (pos + length s1)%nat s2 (caps ++ g) = Some res.

(** The characters, and the test that two hexadecimal digits convert to a
    byte. *)
Definition all_ascii : list ascii := map ascii_of_nat (seq 0 256).

Definition hex_chars : list ascii := List.filter is_upper_hex all_ascii.

Definition hex_pair_ok (c1 c2 : ascii) : bool :=
  match py_int_base 16 (String c1 (String c2 EmptyString)) with
  | Ok v => (0 <=? v) && (v <? 256)
  | Raise _ => false
  end.

(** A decimal digit is no blank, no sign and no underscore, and has a
    value below ten. *)
Definition digit_ok (c : ascii) : bool :=
  negb (is_digit c) ||
  (negb (is_space c) && negb (Ascii.eqb c "-") && negb (Ascii.eqb c "+")
   && negb (Ascii.eqb c "_") &&
   match digit_of 10 c with
   | Some v => (0 <=? v) && (v <? 10)
   | None => false
   end).

(** The fields of a data line: two hexadecimal digits; one or more
    decimal digits. *)
Definition hex_field (g : string) : Prop :=
  exists c1 c2, is_upper_hex c1 = true /\ is_upper_hex c2 = true /\
                g = String c1 (String c2 EmptyString).

Definition dec_field (g : string) : Prop :=
  exists ds, ds <> [] /\ Forall (fun c => is_digit c = true) ds /\
             g = string_of_list_ascii ds.

(** A field with more digits than [int()] converts. *)
Definition over_digit_limit (g : string) : bool :=
  int_max_str_digits <? Z.of_nat (String.length g).

(** A counter of 4301 digits, and a data line that carries it. *)
Definition long_counter : string :=
  string_of_list_ascii (repeat "1"%char 4301).

Definition line_long_counter : string :=
  "13:44:13.116046 E000000505009F3D 5 " +:+ long_counter +:+ " 2 1".

(** A data line of the ISS on channel 1, with a rain count. *)
Definition line_rain_count : string :=
  "13:44:13.116046 E000000505009F3D 5 3 2 1".

(** * Properties *)

(** ** Wind speed error correction *)

Lemma Zrange_In (lo x : Z) (n : nat) :
  lo <= x < lo + Z.of_nat n -> In x (Zrange lo n).
Proof.
  intros Hx. unfold Zrange. apply in_map_iff.
  exists (Z.to_nat (x - lo)). split; [lia|].
  apply in_seq. lia.
Qed.

Lemma forallb_Zrange (f : Z -> bool) (lo x : Z) (n : nat) :
  forallb f (Zrange lo n) = true -> lo <= x < lo + Z.of_nat n -> f x = true.
Proof.
  intros Hall Hx. rewrite forallb_forall in Hall.
  apply Hall, Zrange_In, Hx.
Qed.

Lemma agrees_spec (s a : Z) q :
  calc_wind_speed_ec s a = Ok q ->
  agrees s a = true -> (q == spec_wind_correction s a)%Q.
Proof.
  unfold agrees. intros ->. apply Qeq_bool_iff.
Qed.

Lemma agrees_ok (s a : Z) :
  agrees s a = true ->
  exists q, calc_wind_speed_ec s a = Ok q /\ (q == spec_wind_correction s a)%Q.
Proof.
  unfold agrees. destruct (calc_wind_speed_ec s a) as [q|e]; [|discriminate].
  intros H. exists q. split; [reflexivity|]. by apply Qeq_bool_iff.
Qed.

Lemma agrees_on_bytes :
  forallb (fun s => forallb (fun a => agrees s a || angle_bin_only s a)
                      (Zrange 1 255))
          (Zrange 0 151) = true.
Proof. vm_compute. reflexivity. Qed.

Lemma at_bin_all :
  forallb (fun i => forallb (fun j => at_bin i j) (seq 0 34)) (seq 0 54) = true.
Proof. vm_compute. reflexivity. Qed.

Lemma grid_speeds_length : length grid_speeds = 54%nat.
Proof. reflexivity. Qed.

Lemma grid_angles_length : length grid_angles = 34%nat.
Proof. reflexivity. Qed.

Lemma calc_above_150 (s a : Z) :
  150 < s -> calc_wind_speed_ec s a = Ok (inject_Z s).
Proof.
  intros Hs. unfold calc_wind_speed_ec.
  replace (150 <? s) with true by (symmetry; apply Z.ltb_lt; lia).
  by rewrite orb_true_r.
Qed.

Lemma calc_below_3 (s a : Z) :
  s < 3 -> calc_wind_speed_ec s a = Ok (inject_Z s).
Proof.
  intros Hs. unfold calc_wind_speed_ec.
  by replace (s <? 3) with true by (symmetry; apply Z.ltb_lt; lia).
Qed.

(** C3, as amended.  For raw byte values: a speed above 150 is returned
    unchanged; for a speed of at most 150 and a raw angle from 1 to 255,
    unless the folded angle is an angle bin while the speed lies between
    two speed bins, the result is the one the specification's algorithm
    gives (fold the angle, bracket speed and angle with clamping, the
    table entry on an exact match, bilinear interpolation over the four
    corners otherwise, added to the raw speed); and at every pair of a
    speed bin and an angle bin the result is the raw speed plus the table
    entry. *)
Theorem calc_wind_speed_ec_spec_on_domain :
  (forall s a : Z, 150 < s -> calc_wind_speed_ec s a = Ok (inject_Z s)) /\
  (forall s a : Z,
     0 <= s <= 150 -> 1 <= a <= 255 -> angle_bin_only s a = false ->
     exists q, calc_wind_speed_ec s a = Ok q /\
               (q == spec_wind_correction s a)%Q) /\
  (forall (i j : nat) (s a : Z),
     grid_speeds !! i = Some s -> grid_angles !! j = Some a ->
     exists q, calc_wind_speed_ec s a = Ok q /\
               (q == inject_Z (s + entry i j))%Q).
Proof.
  split; [exact calc_above_150|]. split.
  - intros s a Hs Ha Hno.
    pose proof (forallb_Zrange _ 0 s 151 agrees_on_bytes ltac:(lia)) as Hrow.
    cbv beta in Hrow.
    pose proof (forallb_Zrange _ 1 a 255 Hrow ltac:(lia)) as Hcell.
    cbv beta in Hcell. rewrite Hno, orb_false_r in Hcell.
    by apply agrees_ok.
  - intros i j s a Hi Hj.
    assert (Hil : (i < 54)%nat).
    { rewrite <- grid_speeds_length. by eapply lookup_lt_Some. }
    assert (Hjl : (j < 34)%nat).
    { rewrite <- grid_angles_length. by eapply lookup_lt_Some. }
    pose proof at_bin_all as Hall.
    rewrite forallb_forall in Hall.
    specialize (Hall i ltac:(apply in_seq; lia)).
    rewrite forallb_forall in Hall.
    specialize (Hall j ltac:(apply in_seq; lia)).
    unfold at_bin in Hall. rewrite Hi, Hj in Hall.
    destruct (calc_wind_speed_ec s a) as [q|e]; [|discriminate].
    exists q. split; [reflexivity|]. by apply Qeq_bool_iff.
Qed.

Lemma calc_wind_speed_ec_spec_on_domain_witness :
  exists q, calc_wind_speed_ec 32 115 = Ok q /\
            (q == spec_wind_correction 32 115)%Q.
Proof.
  apply (proj1 (proj2 calc_wind_speed_ec_spec_on_domain) 32 115).
  - lia.
  - lia.
  - vm_compute. reflexivity.
Defined.

(** C3 as stated fails.  Speed 200 at angle 1: the code returns 200, the
    specification's clamping to the last speed bin gives 202.  Speed 32
    at angle 116 (an angle bin, between speed bins 30 and 35 with entries
    5 and 6): the code returns 37, interpolation gives 37.4.  Speed 135 at
    angle 0: the code extends the line through the first two angle bins
    below the first one. *)
Lemma calc_wind_speed_ec_not_spec :
  (exists q, calc_wind_speed_ec 200 1 = Ok q /\
             (q == 200)%Q /\ (spec_wind_correction 200 1 == 202)%Q) /\
  (exists q, calc_wind_speed_ec 32 116 = Ok q /\
             (q == 37)%Q /\ (spec_wind_correction 32 116 == 37.4)%Q) /\
  (exists q, calc_wind_speed_ec 135 0 = Ok q /\
             (q == 407 # 3)%Q /\ (spec_wind_correction 135 0 == 136)%Q).
Proof.
  repeat split; eexists; (split; [vm_compute; reflexivity|]);
    split; vm_compute; reflexivity.
Qed.

(** ** Thermistor calibration *)

Section Thermistor.
Local Open Scope R_scope.

Lemma rdiv_ok (a b : R) : b <> 0 -> rdiv a b = Ok (a / b).
Proof. intros Hb. unfold rdiv. by destruct (Req_dec_T b 0). Qed.

Lemma rdiv_zero (a : R) : rdiv a 0 = Raise ZeroDivisionError.
Proof. unfold rdiv. by destruct (Req_dec_T 0 0). Qed.

Lemma math_log_pos (r : R) : 0 < r -> math_log r = Ok (ln r).
Proof. intros Hr. unfold math_log. destruct (Rle_dec r 0); [lra|done]. Qed.

Lemma math_log_nonpos (r : R) :
  r <= 0 -> math_log r = Raise (ValueError "math domain error").
Proof. intros Hr. unfold math_log. destruct (Rle_dec r 0); [done|lra]. Qed.

Lemma ln_2_lt_1 : ln 2 < 1.
Proof.
  rewrite <- (ln_exp 1). apply ln_increasing; [lra|].
  pose proof (exp_ineq1 1 ltac:(lra)). lra.
Qed.

Lemma ln_64th : - 6 < ln (/ 64).
Proof.
  rewrite ln_Rinv by lra.
  replace 64 with (2 ^ 6) by (simpl; lra).
  rewrite ln_pow by lra. simpl INR.
  pose proof ln_2_lt_1. lra.
Qed.

Lemma inv_raw_bounds (n : Z) :
  (1 <= n)%Z -> 0 < 1 / IZR n <= 1.
Proof.
  intros Hn. apply IZR_le in Hn.
  unfold Rdiv. rewrite Rmult_1_l. split.
  - apply Rinv_0_lt_compat. lra.
  - apply Rle_trans with (/ 1); [apply Rinv_le_contravar; lra|].
    rewrite Rinv_1. lra.
Qed.

Lemma inv_raw_low (n : Z) :
  (1 <= n <= 1001)%Z -> 1 / 1001 <= 1 / IZR n.
Proof.
  intros [H1 H2]. apply IZR_le in H1, H2.
  unfold Rdiv. rewrite !Rmult_1_l. apply Rinv_le_contravar; lra.
Qed.

Lemma inv_raw_high (n : Z) :
  (1002 <= n)%Z -> 1 / IZR n <= 1 / 1002.
Proof.
  intros H1. apply IZR_le in H1.
  unfold Rdiv. rewrite !Rmult_1_l. apply Rinv_le_contravar; lra.
Qed.

Lemma resistance_pos (n : Z) :
  (1 <= n <= 1001)%Z -> / 64 < resistance n.
Proof.
  intros Hn. unfold resistance.
  pose proof (inv_raw_low n Hn). pose proof (inv_raw_bounds n ltac:(lia)).
  set (d := 1 / IZR n - 0.0009988027) in *.
  assert (Hd : 0 < d <= 1) by (unfold d; lra).
  assert (1 <= / d).
  { rewrite <- Rinv_1. apply Rinv_le_contravar; lra. }
  unfold Rdiv. lra.
Qed.

Lemma resistance_neg (n : Z) :
  (1002 <= n)%Z -> resistance n < 0.
Proof.
  intros Hn. unfold resistance.
  pose proof (inv_raw_high n Hn).
  set (d := 1 / IZR n - 0.0009988027) in *.
  assert (Hd : d < 0) by (unfold d; lra).
  assert (/ d < 0) by (apply Rinv_lt_0_compat; lra).
  unfold Rdiv. lra.
Qed.

Lemma steinhart_hart_nonzero (n : Z) :
  (1 <= n <= 1001)%Z ->
  0 < 0.002783573 + 0.0002509406 * ln (resistance n).
Proof.
  intros Hn. pose proof (resistance_pos n Hn) as Hr.
  assert (ln (/ 64) < ln (resistance n)) by (apply ln_increasing; lra).
  pose proof ln_64th. lra.
Qed.

(** The function up to the [try] block. *)
Lemma thermistor_unfold (n : Z) :
  (1 <= n)%Z -> (n <= 1001 \/ 1002 <= n)%Z ->
  calculate_thermistor_temp n =
  try_except_ValueError
    (l ← math_log (resistance n);
     t ← rdiv 1 (0.002783573 + 0.0002509406 * l);
     Ok (t - 273))
    (fun _ => Ok (IZR DEFAULT_SOIL_TEMP)).
Proof.
  intros H1 Hn. unfold calculate_thermistor_temp.
  pose proof (inv_raw_bounds n H1).
  assert (IZR n <> 0) by (apply IZR_le in H1; lra).
  rewrite rdiv_ok by done. cbn [mbind result_bind].
  assert (1 / IZR n - 0.0009988027 <> 0).
  { destruct Hn as [Hn|Hn].
    - pose proof (inv_raw_low n ltac:(lia)). lra.
    - pose proof (inv_raw_high n Hn). lra. }
  rewrite rdiv_ok by done. cbn [mbind result_bind].
  rewrite rdiv_ok by lra. cbn [mbind result_bind].
  reflexivity.
Qed.

Lemma thermistor_low (n : Z) :
  (1 <= n <= 1001)%Z ->
  calculate_thermistor_temp n =
  Ok (1 / (0.002783573 + 0.0002509406 * ln (resistance n)) - 273).
Proof.
  intros Hn. rewrite thermistor_unfold by lia.
  pose proof (resistance_pos n Hn).
  rewrite math_log_pos by lra. cbn [mbind result_bind].
  pose proof (steinhart_hart_nonzero n Hn).
  rewrite rdiv_ok by lra. reflexivity.
Qed.

Lemma thermistor_high (n : Z) :
  (1002 <= n)%Z -> calculate_thermistor_temp n = Ok (IZR DEFAULT_SOIL_TEMP).
Proof.
  intros Hn. rewrite thermistor_unfold by lia.
  pose proof (resistance_neg n Hn).
  rewrite math_log_nonpos by lra. reflexivity.
Qed.

Lemma thermistor_zero :
  calculate_thermistor_temp 0 = Raise ZeroDivisionError.
Proof. unfold calculate_thermistor_temp. by rewrite rdiv_zero. Qed.

(** C10.  For every raw value from 1 to 1023 the function returns a
    number: the Steinhart-Hart temperature of the derived resistance for
    raw values up to 1001, where that resistance is positive; and for raw
    values from 1002 on, where the resistance is negative and the
    logarithm raises, the default soil temperature 24.  Raw value 0 divides
    by zero. *)
Theorem calculate_thermistor_temp_returns :
  (forall n : Z, (1 <= n <= 1023)%Z ->
     exists t : R, calculate_thermistor_temp n = Ok t) /\
  (forall n : Z, (1 <= n <= 1001)%Z ->
     0 < resistance n /\
     calculate_thermistor_temp n =
     Ok (1 / (0.002783573 + 0.0002509406 * ln (resistance n)) - 273)) /\
  (forall n : Z, (1002 <= n <= 1023)%Z ->
     resistance n < 0 /\ calculate_thermistor_temp n = Ok 24) /\
  calculate_thermistor_temp 0 = Raise ZeroDivisionError.
Proof.
  split; [|split; [|split]].
  - intros n Hn. destruct (Z_le_gt_dec n 1001).
    + eexists. apply thermistor_low. lia.
    + eexists. apply thermistor_high. lia.
  - intros n Hn. split.
    + pose proof (resistance_pos n Hn). lra.
    + by apply thermistor_low.
  - intros n Hn. split.
    + apply resistance_neg. lia.
    + apply thermistor_high. lia.
  - exact thermistor_zero.
Qed.

Lemma calculate_thermistor_temp_returns_witness :
  exists t : R, calculate_thermistor_temp 1002 = Ok t.
Proof.
  apply (proj1 calculate_thermistor_temp_returns 1002%Z). lia.
Defined.

End Thermistor.

(** ** Link quality tracker *)

Lemma index_lookup {A : Type} (l : list A) (i : nat) (v : A) :
  l !! i = Some v -> index l i = Ok v.
Proof. unfold index. by intros ->. Qed.

Lemma index_ok_lookup {A : Type} (l : list A) (i : nat) (v : A) :
  index l i = Ok v -> l !! i = Some v.
Proof. unfold index. destruct (l !! i); by intros [= ->]. Qed.

Lemma store_lt {A : Type} (l : list A) (i : nat) (v : A) :
  (i < length l)%nat -> store l i v = Ok (<[i:=v]> l).
Proof.
  intros Hi. unfold store.
  by replace (i <? length l)%nat with true by (symmetry; apply Nat.ltb_lt; lia).
Qed.

Ltac sm_unfold :=
  unfold mbind, SM_bind, get, lift, modify, mret, SM_ret; cbv beta iota.

Ltac sm_step :=
  cbv beta iota;
  cbn [max_count count missed pct_good last_cnt curr_cnt activeTrIds loop_times
       set_max_count set_count set_missed set_pct_good].

Ltac slots :=
  unfold rated, counted;
  cbn [count max_count missed pct_good
       set_count set_max_count set_missed set_pct_good].

Ltac slots_in H :=
  unfold rated, counted in H |- *;
  cbn [count max_count missed pct_good
       set_count set_max_count set_missed set_pct_good] in H |- *.

Lemma summarize_transmitter_idle period i t st c :
  curr_cnt st !! i = Some c -> c <= 0 ->
  summarize_transmitter period i t st = (st, Ok t).
Proof.
  intros Hc Hle. unfold summarize_transmitter. sm_unfold.
  rewrite (index_lookup _ _ _ Hc).
  by replace (0 <? c) with false by (symmetry; apply Z.ltb_ge; lia).
Qed.

Lemma summarize_transmitter_active period i t st c x lt lc :
  wf st ->
  curr_cnt st !! i = Some c -> 0 < c ->
  activeTrIds st !! i = Some x -> loop_times st !! x = Some lt ->
  Qeq_bool lt 0 = false ->
  last_cnt st !! i = Some lc ->
  let mc := inject_Z (Qfloor (inject_Z period / lt)) in
  summarize_transmitter period i t st =
  if 0 <? c - lc then
    if Qeq_bool mc 0 then
      (set_missed (<[i:=(mc - inject_Z (c - lc))%Q]> (missed st))
         (counted period i c lc lt st), Raise ZeroDivisionError)
    else
      (rated period i c lc lt st,
       Ok {| total_count := total_count t + (c - lc);
             total_missed := (total_missed t + (mc - inject_Z (c - lc)))%Q;
             total_max_count := (total_max_count t + mc)%Q |})
  else (counted period i c lc lt st, Ok t).
Proof.
  intros Hwf Hc Hpos Hx Hlt Hnz Hlc mc.
  assert (Hi : (i < 4)%nat).
  { rewrite <- (wf_curr_cnt st Hwf). by eapply lookup_lt_Some. }
  unfold summarize_transmitter. sm_unfold.
  rewrite (index_lookup _ _ _ Hc).
  replace (0 <? c) with true by (symmetry; apply Z.ltb_lt; lia).
  sm_step.
  rewrite (index_lookup _ _ _ Hx), (index_lookup _ _ _ Hlt).
  unfold floordiv. rewrite Hnz. fold mc.
  rewrite store_lt by (rewrite (wf_max_count st Hwf); lia).
  sm_step.
  rewrite (index_lookup _ _ _ Hlc).
  rewrite store_lt by (rewrite (wf_count st Hwf); lia).
  sm_step.
  rewrite (index_lookup _ _ (c - lc))
    by (apply list_lookup_insert_eq; rewrite (wf_count st Hwf); lia).
  destruct (0 <? c - lc); [|reflexivity].
  sm_step.
  rewrite (index_lookup _ _ mc)
    by (apply list_lookup_insert_eq; rewrite (wf_max_count st Hwf); lia).
  rewrite store_lt by (rewrite (wf_missed st Hwf); lia).
  unfold fdiv.
  destruct (Qeq_bool mc 0); [reflexivity|].
  sm_step.
  rewrite store_lt by (rewrite (wf_pct_good st Hwf); lia).
  sm_step.
  rewrite (index_lookup _ _ (mc - inject_Z (c - lc))%Q)
    by (apply list_lookup_insert_eq; rewrite (wf_missed st Hwf); lia).
  reflexivity.
Qed.

Lemma frame_refl st : frame st st.
Proof. by repeat split. Qed.

Lemma frame_trans a b c : frame a b -> frame b c -> frame a c.
Proof. unfold frame. intuition congruence. Qed.

Lemma same_slot_refl j st : same_slot j st st.
Proof. by repeat split. Qed.

Lemma same_slot_trans j a b c : same_slot j a b -> same_slot j b c -> same_slot j a c.
Proof. unfold same_slot. intuition congruence. Qed.

Lemma wf_counted period i c lc lt st : wf st -> wf (counted period i c lc lt st).
Proof.
  intros []. split; cbn; rewrite ?length_insert; done.
Qed.

Lemma wf_set_missed l st :
  length l = 4%nat -> wf st -> wf (set_missed l st).
Proof. intros Hl []. split; cbn; done. Qed.

Lemma wf_rated period i c lc lt st : wf st -> wf (rated period i c lc lt st).
Proof.
  intros []. split; cbn; rewrite ?length_insert; done.
Qed.

Lemma frame_counted period i c lc lt st : frame st (counted period i c lc lt st).
Proof. by repeat split. Qed.

Lemma frame_rated period i c lc lt st : frame st (rated period i c lc lt st).
Proof. by repeat split. Qed.

Lemma same_slot_counted period i j c lc lt st :
  j <> i -> same_slot j st (counted period i c lc lt st).
Proof.
  intros Hne. repeat split; cbn; by rewrite ?list_lookup_insert_ne.
Qed.

Lemma same_slot_rated period i j c lc lt st :
  j <> i -> same_slot j st (rated period i c lc lt st).
Proof.
  intros Hne. repeat split; cbn; by rewrite ?list_lookup_insert_ne.
Qed.

Lemma loop_times_nonzero st x lt :
  wf st -> loop_times st !! x = Some lt -> Qeq_bool lt 0 = false /\ (0 < lt)%Q.
Proof.
  intros Hwf. rewrite (wf_loop_times st Hwf).
  do 9 (destruct x as [|x]; [intros [= <-]; by vm_compute|]).
  by destruct x.
Qed.

Lemma summarize_transmitter_outcome period i t st :
  wf st -> (i < 4)%nat ->
  step_outcome period i t st (summarize_transmitter period i t st).
Proof.
  intros Hwf Hi.
  destruct (lookup_lt_is_Some_2 (curr_cnt st) i) as [c Hc];
    [rewrite (wf_curr_cnt st Hwf); lia|].
  destruct (lookup_lt_is_Some_2 (last_cnt st) i) as [lc Hlc];
    [rewrite (wf_last_cnt st Hwf); lia|].
  destruct (lookup_lt_is_Some_2 (activeTrIds st) i) as [x Hx];
    [rewrite (wf_activeTrIds st Hwf); lia|].
  destruct (Z_le_gt_dec c 0) as [Hle|Hgt].
  { rewrite (summarize_transmitter_idle _ _ _ _ _ Hc Hle). by eapply step_idle. }
  destruct (loop_times st !! x) as [lt|] eqn:Hlt.
  - destruct (loop_times_nonzero st x lt Hwf Hlt) as [Hnz _].
    rewrite (summarize_transmitter_active period i t st c x lt lc) by (done || lia).
    destruct (0 <? c - lc) eqn:Hcnt.
    + apply Z.ltb_lt in Hcnt.
      destruct (Qeq_bool (inject_Z (Qfloor (inject_Z period / lt))) 0) eqn:Hmc.
      * eapply step_zero_max; eauto; lia.
      * eapply step_rated; eauto; lia.
    + apply Z.ltb_ge in Hcnt. eapply step_counted; eauto; lia.
  - unfold summarize_transmitter. sm_unfold.
    rewrite (index_lookup _ _ _ Hc).
    replace (0 <? c) with true by (symmetry; apply Z.ltb_lt; lia).
    sm_step. rewrite (index_lookup _ _ _ Hx).
    unfold index at 1. rewrite Hlt.
    by eapply step_no_loop_time; eauto; lia.
Qed.

(** Whatever the outcome, a step keeps the shape, the fields it only
    reads, and the other slots. *)
Lemma step_outcome_frame period i t st out :
  wf st -> step_outcome period i t st out ->
  wf out.1 /\ frame st out.1 /\ forall j, j <> i -> same_slot j st out.1.
Proof.
  intros Hwf Hout. destruct Hout; cbn [fst].
  - split; [done|]. split; [apply frame_refl|]. intros; apply same_slot_refl.
  - split; [done|]. split; [apply frame_refl|]. intros; apply same_slot_refl.
  - split; [by apply wf_counted|]. split; [apply frame_counted|].
    intros; by apply same_slot_counted.
  - split.
    { apply wf_set_missed; [|by apply wf_counted].
      rewrite length_insert. apply (wf_missed st Hwf). }
    split; [by repeat split|].
    intros j Hne. repeat split; cbn; by rewrite ?list_lookup_insert_ne.
  - split; [by apply wf_rated|]. split; [apply frame_rated|].
    intros; by apply same_slot_rated.
Qed.

Lemma _update_summaries_unfold now st :
  _update_summaries now st =
  if 0 <? last_ts st then
    (t ← four_steps (now - last_ts st) no_totals; aggregate t) (set_curr_ts now st)
  else (set_curr_ts now st, Ok tt).
Proof.
  unfold _update_summaries, four_steps, aggregate. sm_unfold.
  cbn [last_ts curr_ts set_curr_ts].
  destruct (0 <? last_ts st); [|reflexivity].
  unfold no_totals.
  destruct (summarize_transmitter _ 0 _ _) as [s0 [t0|e]]; [|reflexivity].
  destruct (summarize_transmitter _ 1 _ _) as [s1 [t1|e]]; [|reflexivity].
  destruct (summarize_transmitter _ 2 _ _) as [s2 [t2|e]]; [|reflexivity].
  destruct (summarize_transmitter _ 3 _ _) as [s3 [t3|e]]; reflexivity.
Qed.

Lemma aggregate_state t st :
  (aggregate t st).1 = st \/
  (exists p, pct_good_all st <> None /\ (aggregate t st).1 = set_pct_good_all (Some p) st).
Proof.
  unfold aggregate. sm_unfold.
  destruct (negb (Qle_bool (total_max_count t) 0)); [|by left].
  destruct (bool_decide (is_Some (pct_good_all st))) eqn:Hs; [|by left].
  apply bool_decide_eq_true in Hs. cbn [andb].
  unfold fdiv. destruct (Qeq_bool (total_max_count t) 0); [by left|].
  cbv beta iota. right. eexists. split; [|reflexivity].
  destruct Hs as [? ->]. done.
Qed.

Lemma aggregate_ok t st : exists st', aggregate t st = (st', Ok tt).
Proof.
  unfold aggregate. sm_unfold.
  destruct (negb (Qle_bool (total_max_count t) 0)) eqn:Hpos; [|by eexists].
  destruct (bool_decide (is_Some (pct_good_all st))); [|by eexists].
  cbn [andb]. unfold fdiv.
  destruct (Qeq_bool (total_max_count t) 0) eqn:Hz; [|by eexists].
  apply negb_true_iff in Hpos. apply Qeq_bool_iff in Hz.
  assert (Qle_bool (total_max_count t) 0 = true) as Hle.
  { apply Qle_bool_iff. rewrite Hz. apply Qle_refl. }
  congruence.
Qed.

(** An invariant indexed by the number of slots handled survives the
    loop, however it ends. *)
Lemma four_steps_inv (I : nat -> stats -> Prop) period t st :
  wf st -> I 0%nat st ->
  (forall i t s out, (i < 4)%nat -> wf s -> frame st s -> I i s ->
     step_outcome period i t s out -> I (S i) out.1) ->
  let st' := (four_steps period t st).1 in
  (exists k, I k st') /\ wf st' /\ frame st st'.
Proof.
  intros Hwf H0 Hstep. unfold four_steps. sm_unfold.
  pose proof (summarize_transmitter_outcome period 0 t st Hwf ltac:(lia)) as O0.
  destruct (step_outcome_frame _ _ _ _ _ Hwf O0) as (W0 & F0 & _).
  pose proof (Hstep 0%nat _ _ _ ltac:(lia) Hwf (frame_refl st) H0 O0) as I1.
  destruct (summarize_transmitter period 0 t st) as [s0 [t0|e]];
    cbn [fst] in *; [|by (split; [eexists; eassumption|split; assumption])].
  pose proof (summarize_transmitter_outcome period 1 t0 s0 W0 ltac:(lia)) as O1.
  destruct (step_outcome_frame _ _ _ _ _ W0 O1) as (W1 & F1 & _).
  pose proof (Hstep 1%nat _ _ _ ltac:(lia) W0 F0 I1 O1) as I2.
  pose proof (frame_trans _ _ _ F0 F1) as F01.
  destruct (summarize_transmitter period 1 t0 s0) as [s1 [t1|e]];
    cbn [fst] in *; [|by (split; [eexists; eassumption|split; assumption])].
  pose proof (summarize_transmitter_outcome period 2 t1 s1 W1 ltac:(lia)) as O2.
  destruct (step_outcome_frame _ _ _ _ _ W1 O2) as (W2 & F2 & _).
  pose proof (Hstep 2%nat _ _ _ ltac:(lia) W1 F01 I2 O2) as I3.
  pose proof (frame_trans _ _ _ F01 F2) as F02.
  destruct (summarize_transmitter period 2 t1 s1) as [s2 [t2|e]];
    cbn [fst] in *; [|by (split; [eexists; eassumption|split; assumption])].
  pose proof (summarize_transmitter_outcome period 3 t2 s2 W2 ltac:(lia)) as O3.
  destruct (step_outcome_frame _ _ _ _ _ W2 O3) as (W3 & F3 & _).
  pose proof (Hstep 3%nat _ _ _ ltac:(lia) W2 F02 I3 O3) as I4.
  pose proof (frame_trans _ _ _ F02 F3) as F03.
  destruct (summarize_transmitter period 3 t2 s2) as [s3 [t3|e]];
    cbn [fst] in *; (split; [eexists; eassumption|split; assumption]).
Qed.

Lemma wf_set_curr_ts now st : wf st -> wf (set_curr_ts now st).
Proof. intros []. by split. Qed.

Lemma wf_set_pct_good_all p st : wf st -> wf (set_pct_good_all p st).
Proof. intros []. by split. Qed.

(** The same for the whole of [_update_summaries], for an invariant that
    ignores the time stamp and the aggregate. *)
Lemma _update_summaries_inv (I : nat -> stats -> Prop) now st :
  wf st -> I 0%nat st ->
  (forall k s, I k s -> I k (set_curr_ts now s)) ->
  (forall k s p, I k s -> I k (set_pct_good_all p s)) ->
  (forall i t s out, (i < 4)%nat -> wf s -> frame (set_curr_ts now st) s -> I i s ->
     step_outcome (now - last_ts st) i t s out -> I (S i) out.1) ->
  let st' := (_update_summaries now st).1 in
  (exists k, I k st') /\ wf st' /\
  (pct_good_all st = None -> pct_good_all st' = None).
Proof.
  intros Hwf H0 Hts Hall Hstep. rewrite _update_summaries_unfold.
  destruct (0 <? last_ts st).
  - sm_unfold.
    destruct (four_steps_inv I (now - last_ts st) no_totals (set_curr_ts now st)
                (wf_set_curr_ts _ _ Hwf) (Hts _ _ H0) Hstep) as ([k Hk] & W & F).
    destruct F as (_&_&_&_&_&Fp). cbn [pct_good_all set_curr_ts] in Fp.
    destruct (four_steps _ _ _) as [s4 [t4|e]]; cbn [fst] in *.
    + destruct (aggregate_state t4 s4) as [->|(p & Hsome & ->)].
      * split; [by eauto|]. split; [done|]. congruence.
      * split; [by eauto|]. split; [by apply wf_set_pct_good_all|]. congruence.
    + split; [by eauto|]. split; [done|]. congruence.
  - cbn [fst]. split; [by eauto|]. split; [by apply wf_set_curr_ts|done].
Qed.

Lemma Qfloor_div_nonneg (period : Z) (lt : Q) :
  0 <= period -> (0 < lt)%Q ->
  (0 <= inject_Z (Qfloor (inject_Z period / lt)))%Q.
Proof.
  intros Hp Hlt.
  change 0%Q with (inject_Z 0). rewrite <- Zle_Qle.
  rewrite <- (Qfloor_Z 0). apply Qfloor_resp_le.
  apply Qle_shift_div_l; [done|].
  rewrite Qmult_0_l. change 0%Q with (inject_Z 0). by rewrite <- Zle_Qle.
Qed.

Lemma Qfloor_div_pos (period : Z) (lt : Q) :
  (0 < lt)%Q -> (lt <= inject_Z period)%Q ->
  Qeq_bool (inject_Z (Qfloor (inject_Z period / lt))) 0 = false.
Proof.
  intros Hlt Hle.
  assert (1 <= Qfloor (inject_Z period / lt)) as H1.
  { rewrite <- (Qfloor_Z 1). apply Qfloor_resp_le.
    apply Qle_shift_div_l; [done|]. by rewrite Qmult_1_l. }
  destruct (Qeq_bool _ 0) eqn:Hz; [|done].
  apply Qeq_bool_iff in Hz. unfold Qeq, inject_Z in Hz, H1.
  cbn [Qnum Qden] in Hz. lia.
Qed.

Lemma Qnonzero_pos (q : Q) : (0 <= q)%Q -> Qeq_bool q 0 = false -> (0 < q)%Q.
Proof.
  intros Hle Hnz. apply Qle_lteq in Hle as [Hlt|Heq]; [done|].
  assert (Qeq_bool q 0 = true) by (apply Qeq_bool_iff; by symmetry).
  congruence.
Qed.

Lemma slots_inv_step period i t st out :
  (i < 4)%nat -> wf st -> slots_inv period i st ->
  step_outcome period i t st out -> slots_inv period (S i) out.1.
Proof.
  intros Hi Hwf (HM & HU & HR) Hout.
  assert (Hnone : pct_good st !! i = Some None) by (apply HU; lia).
  assert (HU' : unrated_from (S i) st) by (intros j Hj; apply HU; lia).
  pose proof (wf_count st Hwf) as Lc. pose proof (wf_max_count st Hwf) as Lm.
  pose proof (wf_missed st Hwf) as Ls. pose proof (wf_pct_good st Hwf) as Lp.
  destruct Hout as [c Hc Hle|c x Hc Hpos Hx Hlt|c x lt lc Hc Hpos Hx Hlt Hlc Hcnt
                   |c x lt lc Hc Hpos Hx Hlt Hlc Hcnt Hz
                   |c x lt lc Hc Hpos Hx Hlt Hlc Hcnt Hz]; cbn [fst].
  - by repeat split.
  - by repeat split.
  - split; [|split].
    + intros j cj Hj Hcj. slots_in Hj.
      destruct (decide (j = i)) as [->|Hne].
      * rewrite list_lookup_insert_eq in Hj by lia. simplify_eq. lia.
      * rewrite list_lookup_insert_ne in Hj by done.
        rewrite ?list_lookup_insert_ne by done. by apply HM.
    + intros j Hj. slots. by apply HU'.
    + intros Hp j p Hj. slots_in Hj.
      destruct (decide (j = i)) as [->|Hne]; [congruence|].
      rewrite !list_lookup_insert_ne by done. by apply HR.
  - split; [|split].
    + intros j cj Hj Hcj. slots_in Hj.
      destruct (decide (j = i)) as [->|Hne].
      * rewrite list_lookup_insert_eq in Hj by lia.
        rewrite ?list_lookup_insert_eq by lia. simplify_eq.
        eexists. split; reflexivity.
      * rewrite list_lookup_insert_ne in Hj by done. rewrite ?list_lookup_insert_ne by done.
        by apply HM.
    + intros j Hj. slots. by apply HU'.
    + intros Hp j p Hj. slots_in Hj.
      destruct (decide (j = i)) as [->|Hne]; [congruence|].
      rewrite !list_lookup_insert_ne by done. by apply HR.
  - destruct (loop_times_nonzero st x lt Hwf Hlt) as [_ Hltpos].
    split; [|split].
    + intros j cj Hj Hcj. slots_in Hj.
      destruct (decide (j = i)) as [->|Hne].
      * rewrite list_lookup_insert_eq in Hj by lia.
        rewrite ?list_lookup_insert_eq by lia. simplify_eq.
        eexists. split; reflexivity.
      * rewrite list_lookup_insert_ne in Hj by done. rewrite ?list_lookup_insert_ne by done.
        by apply HM.
    + intros j Hj. slots. rewrite list_lookup_insert_ne by lia.
      by apply HU'.
    + intros Hp j p Hj. slots_in Hj.
      destruct (decide (j = i)) as [->|Hne].
      * rewrite list_lookup_insert_eq in Hj by lia. simplify_eq.
        rewrite !list_lookup_insert_eq by lia.
        eexists _, _. split; [reflexivity|]. split; [reflexivity|].
        split; [lia|]. split; [|reflexivity].
        apply Qnonzero_pos; [by apply Qfloor_div_nonneg|done].
      * rewrite list_lookup_insert_ne in Hj by done.
        rewrite !list_lookup_insert_ne by done. by apply HR.
Qed.

Lemma slots_inv_weaken period k k' st :
  (k <= k')%nat -> slots_inv period k st -> slots_inv period k' st.
Proof.
  intros Hk (HM & HU & HR). split; [done|]. split; [|done].
  intros i Hi. apply HU. lia.
Qed.

(** What [_update_summaries] guarantees from a state whose slots are
    consistent and unrated. *)
Lemma _update_summaries_slots now st :
  wf st -> missed_consistent st -> unrated_from 0 st ->
  let st' := (_update_summaries now st).1 in
  wf st' /\ missed_consistent st' /\
  (last_ts st <= now -> rated_ok st') /\
  (pct_good_all st = None -> pct_good_all st' = None).
Proof.
  intros Hwf HM HU.
  destruct (_update_summaries_inv (slots_inv (now - last_ts st)) now st Hwf)
    as ([k (HM' & _ & HR')] & W & Hall).
  - split; [done|]. split; [done|]. intros _ i p Hp.
    rewrite HU in Hp; [done|]. apply lookup_lt_Some in Hp.
    rewrite (wf_pct_good st Hwf) in Hp. lia.
  - by intros k s (?&?&?).
  - by intros k s p (?&?&?).
  - intros i t s out Hi W F HI Hout. by eapply slots_inv_step.
  - split; [done|]. split; [done|]. split; [|done].
    intros Hle. apply HR'. lia.
Qed.

Lemma preserves_bind {A B : Type} (R : stats -> stats -> Prop)
    (m : SM A) (k : A -> SM B) :
  (forall a b c, R a b -> R b c -> R a c) ->
  preserves R m -> (forall a, preserves R (k a)) -> preserves R (m ≫= k).
Proof.
  intros R_trans Hm Hk st. unfold mbind, SM_bind.
  specialize (Hm st). destruct (m st) as [st' [a|e]]; cbn [fst] in *; [|done].
  eapply R_trans; [exact Hm|apply Hk].
Qed.

Lemma preserves_pure {A : Type} (R : stats -> stats -> Prop) (m : SM A) :
  (forall st, R st st) -> (forall st, (m st).1 = st) -> preserves R m.
Proof. intros R_refl Hm st. rewrite Hm. apply R_refl. Qed.

Lemma same_summary_refl st : same_summary st st.
Proof. by repeat split. Qed.

Lemma same_summary_trans a b c :
  same_summary a b -> same_summary b c -> same_summary a c.
Proof. unfold same_summary. intuition congruence. Qed.

Lemma store_length {A : Type} (l l' : list A) (i : nat) (v : A) :
  store l i v = Ok l' -> length l' = length l.
Proof.
  unfold store. destruct (i <? length l)%nat; [|done].
  intros [= <-]. apply length_insert.
Qed.

Lemma mark_active_same tr i acc : preserves same_summary (mark_active tr i acc).
Proof.
  intros st. unfold mark_active. destruct acc as [mask n].
  destruct (negb (Z.land tr mask =? 0)); [|apply same_summary_refl].
  sm_unfold.
  destruct (store (activeTrIds st) n i) as [l|e] eqn:Hl; [|apply same_summary_refl].
  cbv beta iota. cbn [activeTrIdPtrs set_activeTrIds].
  destruct (store (activeTrIdPtrs st) i n) as [lp|e] eqn:Hlp; cbn [fst];
    repeat split; cbn; eauto using store_length.
Qed.

Lemma ch_to_xmit_same c1 c2 c3 c4 c5 :
  preserves same_summary (ch_to_xmit c1 c2 c3 c4 c5).
Proof.
  unfold ch_to_xmit.
  repeat (apply preserves_bind;
          [exact same_summary_trans
          |first [apply mark_active_same
                 |apply preserves_pure; [exact same_summary_refl|done]]
          |intros ?]).
  apply preserves_pure; [exact same_summary_refl|done].
Qed.

Lemma _update_stats_one_same i c : preserves same_summary (_update_stats_one i c).
Proof.
  intros st. unfold _update_stats_one. sm_unfold.
  destruct (store (curr_cnt st) i c) as [l|e] eqn:Hl; [|apply same_summary_refl].
  cbv beta iota. cbn [fst]. repeat split; cbn; eauto using store_length.
Qed.

Lemma _update_stats_same n0 n1 n2 n3 :
  preserves same_summary (_update_stats n0 n1 n2 n3).
Proof.
  unfold _update_stats.
  repeat (apply preserves_bind;
          [exact same_summary_trans|apply _update_stats_one_same|intros ?]).
  apply _update_stats_one_same.
Qed.

Lemma tracker_inv_same st st' :
  same_summary st st' -> tracker_inv st -> tracker_inv st'.
Proof.
  intros (E1 & E2 & E3 & E4 & E5 & E6 & L1 & L2 & L3) ([] & HM & HU & Hall).
  split; [|split; [|split]].
  - split; congruence.
  - intros i c. rewrite E2, E3, E4. apply HM.
  - intros i Hi. rewrite E5. by apply HU.
  - congruence.
Qed.

Lemma tracker_inv_init : tracker_inv _init_stats.
Proof.
  split; [by split|]. split; [|split; [|done]].
  - intros i c Hc Hpos.
    do 4 (destruct i as [|i]; [cbn in Hc; simplify_eq; lia|]). done.
  - intros i Hi. do 4 (destruct i as [|i]; [done|]). lia.
Qed.

(** [_reset_stats] on a well-shaped state. *)
Lemma _reset_stats_ok st :
  wf st ->
  exists st', _reset_stats st = (st', Ok tt) /\ wf st' /\
    max_count st' = max_count st /\ count st' = count st /\
    missed st' = missed st /\ pct_good st' = replicate 4 None /\
    pct_good_all st' = None /\ last_ts st' = curr_ts st /\
    last_cnt st' = curr_cnt st /\ curr_cnt st' = curr_cnt st /\
    activeTrIds st' = activeTrIds st /\ loop_times st' = loop_times st.
Proof.
  intros [].
  destruct st as [lt ids ptrs cts lts cc lc mc cn ms pg pga]; cbn in *.
  do 5 (destruct cc as [|? cc]; try discriminate).
  do 5 (destruct lc as [|? lc]; try discriminate).
  do 5 (destruct pg as [|? pg]; try discriminate).
  eexists. split; [vm_compute; reflexivity|]. cbn. by repeat split.
Qed.

Lemma new_archive_record_inv now st st' stored :
  tracker_inv st -> new_archive_record now st = (st', Ok stored) ->
  tracker_inv st' /\ stored = None.
Proof.
  intros (Hwf & HM & HU & Hall) Hrun.
  destruct (_update_summaries_slots now st Hwf HM HU) as (W & HM' & _ & Hall').
  specialize (Hall' Hall).
  unfold new_archive_record in Hrun. revert Hrun. sm_unfold.
  destruct (_update_summaries now st) as [s1 [[]|e]]; cbn [fst] in *; [|done].
  destruct (_reset_stats_ok s1 W)
    as (s2 & -> & W2 & E1 & E2 & E3 & E4 & E5 & _).
  intros [= <- <-]. split; [|done].
  split; [done|]. split; [|split; [|done]].
  - intros i c. rewrite E1, E2, E3. apply HM'.
  - intros i Hi. rewrite E4. apply lookup_replicate. split; [done|lia].
Qed.

Lemma reachable_inv st : reachable st -> tracker_inv st.
Proof.
  induction 1 as [c1 c2 c3 c4 c5 st out Hrun|st st' n0 n1 n2 n3 _ IH Hrun
                 |st st' now stored _ IH Hrun].
  - pose proof (ch_to_xmit_same c1 c2 c3 c4 c5 _init_stats) as Hs.
    rewrite Hrun in Hs. eapply tracker_inv_same; [exact Hs|apply tracker_inv_init].
  - pose proof (_update_stats_same n0 n1 n2 n3 st) as Hs.
    rewrite Hrun in Hs. by eapply tracker_inv_same.
  - by eapply new_archive_record_inv.
Qed.

Lemma summarizable_frame period a b i :
  frame a b -> summarizable period a i -> summarizable period b i.
Proof.
  intros (E1 & E2 & E3 & E4 & _) H c. rewrite E1, E2, E3, E4. apply H.
Qed.

Lemma summarized_transfer period a b c d i :
  frame a b -> same_slot i a b -> summarized period b i c -> same_slot i c d ->
  summarized period a i d.
Proof.
  intros (E1 & E2 & E3 & E4 & _) (S1 & S2 & S3 & S4) H (T1 & T2 & T3 & T4).
  intros n x lt lc Hn Hpos Hx Hlt Hlc.
  rewrite <- E3 in Hn. rewrite <- E2 in Hx. rewrite <- E1 in Hlt.
  rewrite <- E4 in Hlc.
  destruct (H n x lt lc Hn Hpos Hx Hlt Hlc) as (R1 & R2 & R3 & R4).
  rewrite T1, T2, T3, T4, <- S3, <- S4. done.
Qed.

Lemma summarize_transmitter_ok period i t st :
  wf st -> (i < 4)%nat -> summarizable period st i ->
  exists st' t',
    summarize_transmitter period i t st = (st', Ok t') /\ wf st' /\
    frame st st' /\ (forall j, j <> i -> same_slot j st st') /\
    summarized period st i st'.
Proof.
  intros Hwf Hi Hsafe.
  pose proof (summarize_transmitter_outcome period i t st Hwf Hi) as Hout.
  destruct (step_outcome_frame _ _ _ _ _ Hwf Hout) as (W & F & S).
  pose proof (wf_count st Hwf) as Lc. pose proof (wf_max_count st Hwf) as Lm.
  pose proof (wf_missed st Hwf) as Ls. pose proof (wf_pct_good st Hwf) as Lp.
  destruct Hout as [c Hc Hle|c x Hc Hpos Hx Hlt|c x lt lc Hc Hpos Hx Hlt Hlc Hcnt
                   |c x lt lc Hc Hpos Hx Hlt Hlc Hcnt Hz
                   |c x lt lc Hc Hpos Hx Hlt Hlc Hcnt Hz]; cbn [fst] in *.
  - eexists _, _. split; [reflexivity|]. repeat (split; [done|]).
    intros n ? ? ? Hn Hpos. simplify_eq. lia.
  - destruct (Hsafe c Hc Hpos) as (x' & lt & lc & Hx' & Hlt' & _). simplify_eq.
  - eexists _, _. split; [reflexivity|]. repeat (split; [done|]).
    intros n x' lt' lc' Hn Hpos' Hx' Hlt' Hlc'. simplify_eq.
    unfold counted; cbn [count max_count missed pct_good set_count set_max_count].
    rewrite !list_lookup_insert_eq by lia.
    split; [done|]. split; [done|]. split; [lia|done].
  - destruct (Hsafe c Hc Hpos) as (x' & lt' & lc' & Hx' & Hlt' & Hlc' & Hper).
    simplify_eq.
    destruct (loop_times_nonzero st x lt Hwf Hlt) as [_ Hltpos].
    rewrite (Qfloor_div_pos period lt Hltpos (Hper Hcnt)) in Hz. done.
  - eexists _, _. split; [reflexivity|]. repeat (split; [done|]).
    intros n x' lt' lc' Hn Hpos' Hx' Hlt' Hlc'. simplify_eq.
    unfold rated, counted;
      cbn [count max_count missed pct_good set_count set_max_count
           set_missed set_pct_good].
    rewrite !list_lookup_insert_eq by lia.
    split; [done|]. split; [done|]. split; [done|lia].
Qed.

Lemma four_steps_ok period t st :
  wf st -> (forall i, (i < 4)%nat -> summarizable period st i) ->
  exists st' t',
    four_steps period t st = (st', Ok t') /\ wf st' /\ frame st st' /\
    forall i, (i < 4)%nat -> summarized period st i st'.
Proof.
  intros Hwf Hsafe. unfold four_steps. sm_unfold.
  destruct (summarize_transmitter_ok period 0 t st Hwf ltac:(lia)
              (Hsafe 0%nat ltac:(lia))) as (s1 & t1 & -> & W1 & F1 & S1 & R1).
  destruct (summarize_transmitter_ok period 1 t1 s1 W1 ltac:(lia)
              (summarizable_frame _ _ _ _ F1 (Hsafe 1%nat ltac:(lia))))
    as (s2 & t2 & -> & W2 & F2 & S2 & R2).
  pose proof (frame_trans _ _ _ F1 F2) as F02.
  destruct (summarize_transmitter_ok period 2 t2 s2 W2 ltac:(lia)
              (summarizable_frame _ _ _ _ F02 (Hsafe 2%nat ltac:(lia))))
    as (s3 & t3 & -> & W3 & F3 & S3 & R3).
  pose proof (frame_trans _ _ _ F02 F3) as F03.
  destruct (summarize_transmitter_ok period 3 t3 s3 W3 ltac:(lia)
              (summarizable_frame _ _ _ _ F03 (Hsafe 3%nat ltac:(lia))))
    as (s4 & t4 & -> & W4 & F4 & S4 & R4).
  pose proof (frame_trans _ _ _ F03 F4) as F04.
  eexists _, _. split; [reflexivity|]. split; [done|]. split; [done|].
  intros i Hi.
  destruct i as [|[|[|[|i]]]]; [| | | |lia].
  - eapply (summarized_transfer period st st s1 s4);
      [apply frame_refl|apply same_slot_refl|done|].
    eapply same_slot_trans; [apply S2; lia|].
    eapply same_slot_trans; [apply S3; lia|apply S4; lia].
  - eapply (summarized_transfer period st s1 s2 s4);
      [done|apply S1; lia|done|].
    eapply same_slot_trans; [apply S3; lia|apply S4; lia].
  - eapply (summarized_transfer period st s2 s3 s4); [done| |done|apply S4; lia].
    eapply same_slot_trans; [apply S1; lia|apply S2; lia].
  - eapply (summarized_transfer period st s3 s4 s4);
      [done| |done|apply same_slot_refl].
    eapply same_slot_trans; [apply S1; lia|].
    eapply same_slot_trans; [apply S2; lia|apply S3; lia].
Qed.

Lemma _update_summaries_ok now st :
  wf st -> 0 < last_ts st ->
  (forall i, (i < 4)%nat -> summarizable (now - last_ts st) st i) ->
  exists st',
    _update_summaries now st = (st', Ok tt) /\
    forall i, (i < 4)%nat -> summarized (now - last_ts st) st i st'.
Proof.
  intros Hwf Hts Hsafe. rewrite _update_summaries_unfold.
  replace (0 <? last_ts st) with true by (symmetry; apply Z.ltb_lt; lia).
  sm_unfold.
  destruct (four_steps_ok (now - last_ts st) no_totals (set_curr_ts now st)
              (wf_set_curr_ts _ _ Hwf)) as (s4 & t4 & -> & W4 & F4 & R4).
  { intros i Hi. apply (summarizable_frame _ st); [by repeat split|by apply Hsafe]. }
  destruct (aggregate_ok t4 s4) as [s5 Hagg].
  pose proof (aggregate_state t4 s4) as Hst. rewrite Hagg in *. cbn [fst] in Hst.
  exists s5. split; [done|]. intros i Hi.
  eapply (summarized_transfer _ st (set_curr_ts now st) s4 s5);
    [by repeat split|by repeat split|by apply R4|].
  destruct Hst as [->|(p & _ & ->)]; by repeat split.
Qed.

Lemma pct_bounds (c : Z) (mc : Q) :
  0 < c -> (0 < mc)%Q ->
  (0 < 100 * inject_Z c / mc)%Q /\
  ((100 * inject_Z c / mc <= 100)%Q <-> (inject_Z c <= mc)%Q).
Proof.
  intros Hc Hmc.
  assert (0 < inject_Z c)%Q as Hcq.
  { change 0%Q with (inject_Z 0). by rewrite <- Zlt_Qlt. }
  split.
  - apply Qlt_shift_div_l; [done|]. lra.
  - split; intros H.
    + assert (100 * inject_Z c / mc * mc <= 100 * mc)%Q as H2.
      { apply Qmult_le_compat_r; [done|]. by apply Qlt_le_weak. }
      rewrite (Qmult_comm _ mc), Qmult_div_r in H2; [lra|].
      intros Hz. rewrite Hz in Hmc. by apply Qlt_irrefl in Hmc.
    + apply Qle_shift_div_r; [done|]. lra.
Qed.

Lemma reachable_one_iss : reachable stats_one_iss.
Proof. by apply (reach_init 1 0 0 0 0 _ (1, 1%nat)). Qed.

Lemma reachable_after_first_archive : reachable stats_after_first_archive.
Proof.
  apply (reach_archive (_update_stats 5 0 0 0 stats_one_iss).1 _ 1000 None).
  - apply (reach_update_stats stats_one_iss _ 5 0 0 0); [apply reachable_one_iss|].
    vm_compute. reflexivity.
  - vm_compute. reflexivity.
Qed.

Lemma reachable_100_messages : reachable stats_100_messages.
Proof.
  apply (reach_update_stats stats_after_first_archive _ 105 0 0 0);
    [apply reachable_after_first_archive|].
  vm_compute. reflexivity.
Qed.

Lemma reachable_117_messages : reachable stats_117_messages.
Proof.
  apply (reach_update_stats stats_after_first_archive _ 122 0 0 0);
    [apply reachable_after_first_archive|].
  vm_compute. reflexivity.
Qed.

Lemma summarizable_100_messages (i : nat) :
  (i < 4)%nat -> summarizable (1300 - last_ts stats_100_messages) stats_100_messages i.
Proof.
  intros Hi c Hc Hpos.
  destruct i as [|[|[|[|i]]]]; [| | | |lia];
    vm_compute in Hc; injection Hc as <-; [|lia..].
  exists 0%nat, 2.5625%Q, 5. repeat split; try (vm_compute; reflexivity).
  intros _. vm_compute. discriminate.
Qed.

(** C5, as amended.  At an archive boundary after the first
    ([last_ts > 0]) at which no slot raises (each slot with a positive
    cumulative count has a loop time for its transmitter id, and a period
    of at least that loop time when messages arrived),
    [_update_summaries] returns, and for every
    slot with a positive cumulative count [c] it has stored
    [max_count = period // loop_time], [count = c - last_cnt], and, when
    that count is positive, [missed = max_count - count] and
    [pct_good = 100 * count / max_count]; otherwise [missed] and
    [pct_good] are left as they were.  The loop-time table has the nine
    entries below.  With a period of 300 s, loop time 2.5625 s and 100
    messages: [max_count] 117, [missed] 17, [pct_good] 10000/117, which is
    between 85.47 and 85.48. *)
Theorem update_summaries_per_transmitter :
  (forall (st : stats) (now : Z),
     wf st -> 0 < last_ts st ->
     (forall i, (i < 4)%nat -> summarizable (now - last_ts st) st i) ->
     exists st',
       _update_summaries now st = (st', Ok tt) /\
       forall (i : nat) (c : Z) (x : nat) (lt : Q) (lc : Z),
         curr_cnt st !! i = Some c -> 0 < c ->
         activeTrIds st !! i = Some x -> loop_times st !! x = Some lt ->
         last_cnt st !! i = Some lc ->
         let mc := inject_Z (Qfloor (inject_Z (now - last_ts st) / lt)) in
         max_count st' !! i = Some mc /\ count st' !! i = Some (c - lc) /\
         (0 < c - lc ->
            missed st' !! i = Some (mc - inject_Z (c - lc))%Q /\
            pct_good st' !! i = Some (Some (100 * inject_Z (c - lc) / mc)%Q)) /\
         (c - lc <= 0 ->
            missed st' !! i = missed st !! i /\
            pct_good st' !! i = pct_good st !! i)) /\
  loop_times _init_stats =
    [2.5625; 2.625; 2.6875; 2.75; 2.8125; 2.875; 2.9375; 3; 100.0]%Q /\
  (exists st' p,
     _update_summaries 1300 stats_100_messages = (st', Ok tt) /\
     last_ts stats_100_messages = 1000 /\
     max_count st' !! 0%nat = Some 117%Q /\ count st' !! 0%nat = Some 100 /\
     missed st' !! 0%nat = Some 17%Q /\
     pct_good st' !! 0%nat = Some (Some p) /\
     (p == 10000 # 117)%Q /\ (85.47 <= p)%Q /\ (p < 85.48)%Q).
Proof.
  split; [|split].
  - intros st now Hwf Hts Hsafe.
    destruct (_update_summaries_ok now st Hwf Hts Hsafe) as (st' & Hrun & Hsum).
    exists st'. split; [done|].
    intros i c x lt lc Hc Hpos Hx Hlt Hlc.
    assert (Hi : (i < 4)%nat).
    { rewrite <- (wf_curr_cnt st Hwf). by eapply lookup_lt_Some. }
    exact (Hsum i Hi c x lt lc Hc Hpos Hx Hlt Hlc).
  - reflexivity.
  - eexists _, _. split; [vm_compute; reflexivity|].
    repeat split; vm_compute; (reflexivity || discriminate).
Qed.

Lemma wf_100_messages : wf stats_100_messages.
Proof. split; vm_compute; reflexivity. Qed.

Lemma update_summaries_per_transmitter_witness :
  exists st', _update_summaries 1300 stats_100_messages = (st', Ok tt).
Proof.
  destruct (proj1 update_summaries_per_transmitter stats_100_messages 1300
              wf_100_messages ltac:(vm_compute; reflexivity)
              summarizable_100_messages) as (st' & Hrun & _).
  exists st'. exact Hrun.
Defined.

(** C5 as stated fails at the boundaries where [_update_summaries]
    raises.  With one ISS and the counters 5 3 2 1 the second slot has a
    positive count and the transmitter id 9, which is past the nine
    entries of the loop-time table: [IndexError], and no [max_count] is
    stored for the slot.  Two seconds after an archive record, 100 new
    messages on the first channel give [max_count = 2 // 2.5625 = 0]:
    [ZeroDivisionError], and [pct_good] stays unset although [count] is
    positive. *)
Lemma update_summaries_boundary_raises :
  (reachable stats_four_counters /\ 0 < last_ts stats_four_counters /\
   curr_cnt stats_four_counters !! 1%nat = Some 3 /\
   activeTrIds stats_four_counters !! 1%nat = Some 9%nat /\
   exists st',
     _update_summaries 1300 stats_four_counters = (st', Raise IndexError) /\
     max_count st' !! 1%nat = Some 0%Q /\ pct_good st' !! 1%nat = Some None) /\
  (reachable stats_100_messages /\ last_ts stats_100_messages = 1000 /\
   exists st',
     _update_summaries 1002 stats_100_messages = (st', Raise ZeroDivisionError) /\
     count st' !! 0%nat = Some 100 /\ max_count st' !! 0%nat = Some 0%Q /\
     pct_good st' !! 0%nat = Some None).
Proof.
  split.
  - split.
    { apply (reach_update_stats stats_after_first_archive _ 5 3 2 1);
        [apply reachable_after_first_archive|].
      vm_compute. reflexivity. }
    split; [vm_compute; reflexivity|].
    split; [vm_compute; reflexivity|]. split; [vm_compute; reflexivity|].
    eexists. split; [vm_compute; reflexivity|].
    split; vm_compute; reflexivity.
  - split; [exact reachable_100_messages|]. split; [vm_compute; reflexivity|].
    eexists. split; [vm_compute; reflexivity|].
    repeat split; vm_compute; reflexivity.
Qed.

(** C6, on the code.  In every state the driver can reach,
    [_update_summaries] leaves [pct_good_all] unset, whatever the counts,
    and [new_archive_record] therefore stores no [rxCheckPercent]: the
    aggregate is only assigned under the guard
    [self.stats['pct_good_all'] is not None], and every other assignment
    to it stores [None]. *)
Theorem pct_good_all_stays_unset (st : stats) (now : Z) :
  reachable st ->
  pct_good_all (_update_summaries now st).1 = None /\
  forall st' stored,
    new_archive_record now st = (st', Ok stored) -> stored = None.
Proof.
  intros Hreach. destruct (reachable_inv st Hreach) as (Hwf & HM & HU & Hall).
  split.
  - by apply (_update_summaries_slots now st Hwf HM HU).
  - intros st' stored Hrun.
    by eapply (new_archive_record_inv now st st' stored).
Qed.

Lemma pct_good_all_stays_unset_witness :
  pct_good_all (_update_summaries 1300 stats_100_messages).1 = None /\
  forall st' stored,
    new_archive_record 1300 stats_100_messages = (st', Ok stored) ->
    stored = None.
Proof.
  apply (pct_good_all_stays_unset stats_100_messages 1300).
  exact reachable_100_messages.
Defined.

(** C7, as amended.  After [_update_summaries] in a state the driver can
    reach, with a clock that has not gone back: [missed] is
    [max_count - count] in every slot whose [count] is positive; every
    per-transmitter [pct_good] that is set is [100 * count / max_count]
    with [count] and [max_count] positive, hence positive, and it is at
    most 100 exactly when [count] does not exceed [max_count]; the
    aggregate is unset. *)
Theorem update_summaries_invariant (st : stats) (now : Z) :
  reachable st -> last_ts st <= now ->
  let st' := (_update_summaries now st).1 in
  (forall i c, count st' !! i = Some c -> 0 < c ->
     exists mc, max_count st' !! i = Some mc /\
                missed st' !! i = Some (mc - inject_Z c)%Q) /\
  (forall i p, pct_good st' !! i = Some (Some p) ->
     exists c mc, count st' !! i = Some c /\ max_count st' !! i = Some mc /\
       0 < c /\ (0 < mc)%Q /\ p = (100 * inject_Z c / mc)%Q /\
       (0 < p)%Q /\ ((p <= 100)%Q <-> (inject_Z c <= mc)%Q)) /\
  pct_good_all st' = None.
Proof.
  intros Hreach Hnow.
  destruct (reachable_inv st Hreach) as (Hwf & HM & HU & Hall).
  destruct (_update_summaries_slots now st Hwf HM HU) as (W & HM' & HR & Hall').
  split; [exact HM'|]. split; [|by apply Hall'].
  intros i p Hp.
  destruct (HR Hnow i p Hp) as (c & mc & Hc & Hmc & Hcpos & Hmcpos & ->).
  exists c, mc. repeat (split; [done|]).
  by apply pct_bounds.
Qed.

Lemma update_summaries_invariant_witness :
  pct_good_all (_update_summaries 1300 stats_100_messages).1 = None.
Proof.
  apply (update_summaries_invariant stats_100_messages 1300).
  - exact reachable_100_messages.
  - vm_compute. discriminate.
Defined.

(** C7 as stated fails: 117 messages counted over a period of 299 seconds
    on the first channel, where [max_count] is [299 // 2.5625 = 116], give
    a [pct_good] above 100 (and a negative [missed]). *)
Lemma pct_good_above_100 :
  reachable stats_117_messages /\ last_ts stats_117_messages <= 1299 /\
  exists st' p,
    _update_summaries 1299 stats_117_messages = (st', Ok tt) /\
    max_count st' !! 0%nat = Some 116%Q /\ count st' !! 0%nat = Some 117 /\
    pct_good st' !! 0%nat = Some (Some p) /\ (100 < p)%Q.
Proof.
  split; [exact reachable_117_messages|]. split; [vm_compute; discriminate|].
  eexists _, _. split; [vm_compute; reflexivity|].
  repeat split; vm_compute; reflexivity.
Qed.

(** ** Construction *)

Lemma add_transmitter_ok t ch t' :
  add_transmitter t ch = Ok t' -> 1 <= ch.
Proof.
  unfold add_transmitter, shl1.
  destruct (ch - 1 <? 0) eqn:Hneg; [done|]. apply Z.ltb_ge in Hneg. lia.
Qed.

Lemma add_optional_ok t ch t' :
  add_optional t ch = Ok t' -> 0 <= ch.
Proof.
  unfold add_optional. destruct (ch =? 0) eqn:Hz; cbn [negb].
  - apply Z.eqb_eq in Hz. lia.
  - intros H. apply add_transmitter_ok in H. lia.
Qed.

(** [ch_to_xmit] returns only for a positive ISS channel and non-negative
    other role channels. *)
Lemma ch_to_xmit_ok a b c d e st st' out :
  ch_to_xmit a b c d e st = (st', Ok out) ->
  1 <= a /\ 0 <= b /\ 0 <= c /\ 0 <= d /\ 0 <= e.
Proof.
  unfold ch_to_xmit.
  unfold mbind at 1. unfold SM_bind at 1. unfold lift at 1.
  destruct (add_transmitter 0 a) as [t1|] eqn:H1; [|done].
  cbn [mbind result_bind].
  destruct (add_optional t1 b) as [t2|] eqn:H2; cbn [mbind result_bind]; [|done].
  destruct (add_optional t2 c) as [t3|] eqn:H3; cbn [mbind result_bind]; [|done].
  destruct (add_optional t3 d) as [t4|] eqn:H4; cbn [mbind result_bind]; [|done].
  destruct (add_optional t4 e) as [t5|] eqn:H5; cbn [mbind result_bind]; [|done].
  intros _.
  apply add_transmitter_ok in H1. apply add_optional_ok in H2, H3, H4, H5. lia.
Qed.

(** What an object that was built tells about the configuration. *)
Lemma init_object_inv cfg self :
  init_object cfg = Ok self ->
  (exists b, get_int cfg "rain_bucket_type" DEFAULT_RAIN_BUCKET_TYPE = Ok b /\
             (b = 0 \/ b = 1) /\
             rain_per_tip self = (if b =? 0 then 0.254 else 0.2)%Q) /\
  frequency self = default DEFAULT_FREQUENCY (stn_dict cfg !! "transceiver_frequency") /\
  frequency self ∈ ["US"; "NZ"; "EU"] /\
  get_int cfg "iss_channel" 1 = Ok (iss (self_channels self)) /\
  get_int cfg "anemometer_channel" 0 = Ok (anemometer (self_channels self)) /\
  get_int cfg "leaf_soil_channel" 0 = Ok (leaf_soil (self_channels self)) /\
  get_int cfg "temp_hum_1_channel" 0 = Ok (temp_hum_1 (self_channels self)) /\
  get_int cfg "temp_hum_2_channel" 0 = Ok (temp_hum_2 (self_channels self)) /\
  1 <= iss (self_channels self) /\ 0 <= anemometer (self_channels self) /\
  0 <= leaf_soil (self_channels self) /\ 0 <= temp_hum_1 (self_channels self) /\
  0 <= temp_hum_2 (self_channels self).
Proof.
  unfold init_object.
  destruct (get_int cfg "debug_parse" 0) as [?|]; [|done].
  destruct (get_int cfg "debug_rain" 0) as [?|]; [|done].
  destruct (get_int cfg "debug_rtld" 0) as [?|]; [|done].
  cbn [mbind result_bind].
  destruct (get_int cfg "rain_bucket_type" _) as [b|] eqn:Hb; [|done].
  cbn [mbind result_bind].
  destruct (bool_decide (b ∈ [0; 1])) eqn:Hbin; [|done]. cbn [negb].
  apply bool_decide_eq_true in Hbin.
  destruct (tobool (stn_dict cfg !! "log_humidity_raw")) as [?|]; [|done].
  destruct (tobool (stn_dict cfg !! "save_pct_good_per_transmitter")) as [?|]; [|done].
  cbn [mbind result_bind].
  destruct (bool_decide (default DEFAULT_FREQUENCY _ ∈ ["US"; "NZ"; "EU"])) eqn:Hf;
    [|done]. cbn [negb].
  apply bool_decide_eq_true in Hf.
  destruct (get_int cfg "iss_channel" 1) as [c1|] eqn:H1; [|done].
  destruct (get_int cfg "anemometer_channel" 0) as [c2|] eqn:H2; [|done].
  destruct (get_int cfg "leaf_soil_channel" 0) as [c3|] eqn:H3; [|done].
  destruct (get_int cfg "temp_hum_1_channel" 0) as [c4|] eqn:H4; [|done].
  destruct (get_int cfg "temp_hum_2_channel" 0) as [c5|] eqn:H5; [|done].
  cbn [mbind result_bind].
  destruct (ch_to_xmit c1 c2 c3 c4 c5 _init_stats) as [st' [[tr n]|]] eqn:Hx; [|done].
  apply ch_to_xmit_ok in Hx.
  intros [= <-]. cbn.
  split; [|by repeat split; try lia].
  exists b. split; [done|]. split; [|done].
  apply elem_of_cons in Hbin as [->|Hbin]; [by left|].
  apply list_elem_of_singleton in Hbin as ->. by right.
Qed.

Lemma init_raise_no_process cfg e :
  init_object cfg = Raise e -> __init__ cfg = ([], Raise e).
Proof. unfold __init__. by intros ->. Qed.

Lemma init_object_cases cfg :
  (exists self, init_object cfg = Ok self) \/
  (exists e, __init__ cfg = ([], Raise e)).
Proof.
  destruct (init_object cfg) as [self|e] eqn:H.
  - left. by exists self.
  - right. exists e. by apply init_raise_no_process.
Qed.

(** C9, as amended.  Construction raises, and starts no process, when the
    rain bucket type is not 0 or 1, when the frequency band is not US, NZ
    or EU, and when the ISS channel is not positive or another role
    channel is negative; when construction succeeds the process is
    started once, with the object's command line.  (Role channels above 8
    are not checked.) *)
Theorem init_fails_fast :
  (forall cfg,
     (forall b, get_int cfg "rain_bucket_type" DEFAULT_RAIN_BUCKET_TYPE = Ok b ->
                b <> 0 /\ b <> 1) ->
     exists e, __init__ cfg = ([], Raise e)) /\
  (forall cfg,
     default DEFAULT_FREQUENCY (stn_dict cfg !! "transceiver_frequency")
       ∉ ["US"; "NZ"; "EU"] ->
     exists e, __init__ cfg = ([], Raise e)) /\
  (forall cfg,
     (forall c, get_int cfg "iss_channel" 1 = Ok c -> c <= 0) \/
     (forall c, get_int cfg "anemometer_channel" 0 = Ok c -> c < 0) \/
     (forall c, get_int cfg "leaf_soil_channel" 0 = Ok c -> c < 0) \/
     (forall c, get_int cfg "temp_hum_1_channel" 0 = Ok c -> c < 0) \/
     (forall c, get_int cfg "temp_hum_2_channel" 0 = Ok c -> c < 0) ->
     exists e, __init__ cfg = ([], Raise e)) /\
  (forall cfg effects self,
     __init__ cfg = (effects, Ok self) ->
     effects = [StartProcess (cmd self) (path self) (ld_library_path self)]).
Proof.
  split; [|split; [|split]].
  - intros cfg Hbad. destruct (init_object_cases cfg) as [[self Hok]|Hr]; [|done].
    destruct (init_object_inv cfg self Hok) as ((b & Hb & Hb01 & _) & _).
    destruct (Hbad b Hb). lia.
  - intros cfg Hbad. destruct (init_object_cases cfg) as [[self Hok]|Hr]; [|done].
    destruct (init_object_inv cfg self Hok) as (_ & Hf & Hin & _).
    rewrite Hf in Hin. done.
  - intros cfg Hbad. destruct (init_object_cases cfg) as [[self Hok]|Hr]; [|done].
    destruct (init_object_inv cfg self Hok)
      as (_ & _ & _ & H1 & H2 & H3 & H4 & H5 & G1 & G2 & G3 & G4 & G5).
    destruct Hbad as [H|[H|[H|[H|H]]]];
      [specialize (H _ H1)|specialize (H _ H2)|specialize (H _ H3)
      |specialize (H _ H4)|specialize (H _ H5)]; lia.
  - intros cfg effects self. unfold __init__.
    destruct (init_object cfg); by intros [= <- <-].
Qed.

Lemma init_fails_fast_witness :
  exists e, __init__ config_bucket_2 = ([], Raise e).
Proof.
  apply (proj1 init_fails_fast config_bucket_2).
  intros b Hb. vm_compute in Hb. injection Hb as <-. lia.
Defined.

(** C9 as stated fails: with [temp_hum_2_channel = 9] the object is
    built and the process is started, with transmitter mask 257. *)
Lemma init_accepts_channel_9 :
  exists self,
    __init__ config_channel_9 =
      ([StartProcess "/home/pi/work/bin/rtldavis -tf EU -tf EU -tr 257" None None],
       Ok self) /\
    temp_hum_2 (self_channels self) = 9 /\ transmitters self = 257.
Proof.
  assert (match __init__ config_channel_9 with
          | (effects, Ok self) =>
              effects = [StartProcess
                           "/home/pi/work/bin/rtldavis -tf EU -tf EU -tr 257"
                           None None] /\
              temp_hum_2 (self_channels self) = 9 /\ transmitters self = 257
          | (_, Raise _) => False
          end) as H by (vm_compute; by repeat split).
  destruct (__init__ config_channel_9) as [effects [self|e]]; [|done].
  destruct H as (-> & H1 & H2). by exists self.
Qed.

(** ** Rain *)

Lemma Qle_bool_0_inject (z : Z) : Qle_bool 0 (inject_Z z) = (0 <=? z).
Proof. unfold Qle_bool, inject_Z. cbn [Qnum Qden]. f_equal; lia. Qed.

Lemma _data_to_packet_rain now self data rc :
  data !! "rain_count" = Some rc ->
  let rain_count :=
    match last_rain_count self with
    | Some last => pv_sub rc last
    | None => VInt 0
    end in
  let rain_count :=
    if pv_neg rain_count then pv_add_int rain_count 128 else rain_count in
  (_data_to_packet now self data).2 !! "rain"
    = Some (VFloat (pv_Q rain_count * rain_per_tip self)%Q) /\
  last_rain_count (_data_to_packet now self data).1 = Some rc /\
  rain_per_tip (_data_to_packet now self data).1 = rain_per_tip self.
Proof.
  intros Hrc. unfold _data_to_packet. rewrite Hrc. cbn [fst snd].
  split; [|done].
  rewrite lookup_insert_ne by done. rewrite lookup_insert_ne by done.
  by rewrite lookup_insert_eq.
Qed.

(** C4.  For two consecutive readings with 7-bit rain counts [last] and
    [curr], the rain of the second packet is the number of tips,
    [curr - last] when [curr >= last] and [curr - last + 128] otherwise,
    never negative, times [rain_per_tip]; the constructor sets
    [rain_per_tip] to 0.254 for bucket type 0 and to 0.2 for bucket type 1;
    counts 120 then 5 give 13 tips. *)
Theorem rain_delta_wraparound :
  (forall (now1 now2 : Q) (self : driver) (d1 d2 : gmap string pyval)
          (last curr : Z),
     0 <= last <= 127 -> 0 <= curr <= 127 ->
     d1 !! "rain_count" = Some (VInt last) ->
     d2 !! "rain_count" = Some (VInt curr) ->
     let self1 := (_data_to_packet now1 self d1).1 in
     let out := _data_to_packet now2 self1 d2 in
     let delta := if last <=? curr then curr - last else curr - last + 128 in
     0 <= delta <= 127 /\
     out.2 !! "rain" = Some (VFloat (inject_Z delta * rain_per_tip self)%Q) /\
     last_rain_count out.1 = Some (VInt curr)) /\
  (forall cfg self,
     init_object cfg = Ok self ->
     (get_int cfg "rain_bucket_type" DEFAULT_RAIN_BUCKET_TYPE = Ok 0 /\
      rain_per_tip self = 0.254%Q) \/
     (get_int cfg "rain_bucket_type" DEFAULT_RAIN_BUCKET_TYPE = Ok 1 /\
      rain_per_tip self = 0.2%Q)) /\
  (if 120 <=? 5 then 5 - 120 else 5 - 120 + 128) = 13.
Proof.
  split; [|split; [|reflexivity]].
  - intros now1 now2 self d1 d2 last curr Hl Hc H1 H2 self1 out delta.
    destruct (_data_to_packet_rain now1 self d1 _ H1) as (_ & Hlast & Hrpt).
    destruct (_data_to_packet_rain now2 self1 d2 _ H2) as (Hrain & Hlast2 & _).
    fold out in Hrain, Hlast2. unfold self1 in Hrain. rewrite Hlast, Hrpt in Hrain.
    split; [|split; [|done]].
    + unfold delta. destruct (last <=? curr) eqn:Hle;
        [apply Z.leb_le in Hle|apply Z.leb_gt in Hle]; lia.
    + rewrite Hrain. unfold delta, pv_neg, pv_sub, pv_Q.
      rewrite Qle_bool_0_inject.
      destruct (last <=? curr) eqn:Hle.
      * apply Z.leb_le in Hle.
        by replace (0 <=? curr - last) with true by (symmetry; apply Z.leb_le; lia).
      * apply Z.leb_gt in Hle.
        by replace (0 <=? curr - last) with false by (symmetry; apply Z.leb_gt; lia).
  - intros cfg self Hok.
    destruct (init_object_inv cfg self Hok) as ((b & Hb & [->| ->] & Hr) & _);
      [left|right]; done.
Qed.

Lemma rain_delta_wraparound_witness :
  let d1 : gmap string pyval := {[ "rain_count" := VInt 120 ]} in
  let d2 : gmap string pyval := {[ "rain_count" := VInt 5 ]} in
  (_data_to_packet 1001 (_data_to_packet 1000 driver_default d1).1 d2).2 !! "rain"
    = Some (VFloat (inject_Z 13 * rain_per_tip driver_default)%Q).
Proof.
  intros d1 d2.
  apply (proj1 rain_delta_wraparound 1000%Q 1001%Q driver_default d1 d2 120 5);
    try lia; reflexivity.
Defined.

(** ** Frame parser *)

Lemma init_default : init_object config_default = Ok driver_default.
Proof. vm_compute. reflexivity. Qed.

Section FrameProperties.

Variable crc16 : list Z -> Z.
Variable decode_station decode_leaf_soil :
  driver -> list Z -> gmap string pyval -> result (gmap string pyval).

Lemma strip_nonempty_of_match (r : regex) (line : string) :
  search r "" = None -> is_Some (search r (strip line)) ->
  negb (bool_decide (strip line = "")) = true.
Proof.
  intros Hempty Hm. destruct (bool_decide (strip line = "")) eqn:Hs; [|done].
  apply bool_decide_eq_true in Hs. rewrite Hs, Hempty in Hm.
  by destruct Hm.
Qed.

(** A parser exception on the first line of a list ends the run of the
    read loop: the exception leaves [genLoopPackets], with the line still
    in the list and the later lists of lines not looked at. *)
Lemma genLoopPackets_first_raises now self line rest batches yielded e :
  PacketFactory_parse_text crc16 decode_station decode_leaf_soil now self
    (line :: rest) = (line :: rest, Raise e) ->
  genLoopPackets crc16 decode_station decode_leaf_soil self
    ((now, line :: rest) :: batches) yielded =
  {| run_self := self; run_lines := line :: rest;
     run_yielded := yielded; run_raised := Some e |}.
Proof.
  intros Hp. cbn [genLoopPackets length read_lines].
  rewrite Hp. reflexivity.
Qed.

Lemma DATAPacket_bad_crc self line rest m bytes :
  search DATAPacket_PATTERN line = Some m ->
  frame_bytes m = Ok bytes -> crc16 bytes <> 0 ->
  DATAPacket_parse_text crc16 decode_station decode_leaf_soil self (line :: rest)
  = (line :: rest, Raise (ValueError "CRC error")).
Proof.
  intros Hm Hb Hcrc. unfold DATAPacket_parse_text. rewrite Hm.
  unfold frame_bytes in Hb. rewrite Hb. cbn [mbind result_bind].
  unfold _check_crc.
  by replace (crc16 bytes =? 0) with false by (symmetry; apply Z.eqb_neq; lia).
Qed.

(** C1, on the code.  A line recognized as a data packet whose eight
    bytes have a nonzero CRC makes [DATAPacket.parse_text] raise
    [ValueError] without popping the line; nothing catches it, so the run
    of [genLoopPackets] ends there: the line stays in the list, nothing
    more is yielded and the lines that follow are not processed. *)
Theorem crc_failure_ends_read_loop
    (now : Q) (self : driver) (line : string) (rest : list string)
    (batches : list (Q * list string)) (yielded : list (gmap string pyval))
    (m : list string) (bytes : list Z) :
  is_Some (search DATAPacket_IDENTIFIER (strip line)) ->
  search DATAPacket_PATTERN line = Some m ->
  frame_bytes m = Ok bytes -> crc16 bytes <> 0 ->
  DATAPacket_parse_text crc16 decode_station decode_leaf_soil self (line :: rest)
    = (line :: rest, Raise (ValueError "CRC error")) /\
  genLoopPackets crc16 decode_station decode_leaf_soil self
    ((now, line :: rest) :: batches) yielded =
  {| run_self := self; run_lines := line :: rest;
     run_yielded := yielded; run_raised := Some (ValueError "CRC error") |}.
Proof.
  intros Hid Hm Hb Hcrc.
  pose proof (DATAPacket_bad_crc self line rest m bytes Hm Hb Hcrc) as Hd.
  split; [exact Hd|].
  apply genLoopPackets_first_raises.
  unfold PacketFactory_parse_text.
  rewrite (strip_nonempty_of_match DATAPacket_IDENTIFIER line eq_refl Hid).
  by rewrite (bool_decide_eq_true_2 _ Hid).
Qed.

(** C2, on the code.  A packet whose channel matches none of the
    configured roles makes [parse_raw] raise [NameError]: the message of
    the anomaly report reads the name [raw], which nothing binds. *)
Theorem parse_raw_unknown_channel
    (self : driver) (b0 : Z) (rest : list Z) :
  let channel := Z.land b0 0x7 + 1 in
  channel <> iss (self_channels self) ->
  channel <> anemometer (self_channels self) ->
  channel <> temp_hum_1 (self_channels self) ->
  channel <> temp_hum_2 (self_channels self) ->
  channel <> leaf_soil (self_channels self) ->
  parse_raw decode_station decode_leaf_soil self (b0 :: rest) = Raise (NameError "raw").
Proof.
  intros channel H1 H2 H3 H4 H5. unfold parse_raw.
  cbn [index lookup list_lookup mbind result_bind]. fold channel.
  apply Z.eqb_neq in H1, H2, H3, H4, H5.
  rewrite H1, H2, H3, H4, H5. reflexivity.
Qed.

End FrameProperties.

Lemma crc_failure_ends_read_loop_witness :
  genLoopPackets crc16_ccitt decode_nothing decode_nothing driver_default
    [(1000%Q, [line_bad_crc]); (1001%Q, [line_freq_ok])] [] =
  {| run_self := driver_default; run_lines := [line_bad_crc];
     run_yielded := []; run_raised := Some (ValueError "CRC error") |}.
Proof.
  apply (crc_failure_ends_read_loop crc16_ccitt decode_nothing decode_nothing
           1000%Q driver_default line_bad_crc [] [(1001%Q, [line_freq_ok])] []
           ["51"; "06"; "B2"; "FF"; "73"; "00"; "76"; "62"; "5"; "3"; "2"; "1"]
           [0x51; 0x06; 0xB2; 0xFF; 0x73; 0x00; 0x76; 0x62]).
  - vm_compute. by eexists.
  - vm_compute. reflexivity.
  - vm_compute. reflexivity.
  - vm_compute. discriminate.
Defined.

Lemma parse_raw_unknown_channel_witness :
  parse_raw decode_nothing decode_nothing driver_default
    [0x51; 0x06; 0xB2; 0xFF; 0x73; 0x00; 0x76; 0x61] = Raise (NameError "raw").
Proof.
  apply (parse_raw_unknown_channel decode_nothing decode_nothing
           driver_default 0x51 [0x06; 0xB2; 0xFF; 0x73; 0x00; 0x76; 0x61]);
    vm_compute; discriminate.
Defined.

(** ** Channel reports *)

Lemma store_freq_error_ok m y pkt g1 g3 idx fe :
  group m 1 = Ok g1 -> py_int g1 = Ok idx ->
  group m 3 = Ok g3 -> py_int g3 = Ok fe ->
  exists pkt', store_freq_error m y pkt = Ok pkt'.
Proof.
  intros H1 Hi H3 Hf. unfold store_freq_error.
  rewrite H1. cbn [mbind result_bind]. rewrite Hi. cbn [mbind result_bind].
  destruct (idx =? y); [|by eexists].
  rewrite H3. cbn [mbind result_bind]. rewrite Hf. by eexists.
Qed.

Lemma store_freq_errors_ok now m g1 g3 idx fe :
  group m 1 = Ok g1 -> py_int g1 = Ok idx ->
  group m 3 = Ok g3 -> py_int g3 = Ok fe ->
  exists pkt, store_freq_errors now m = Ok pkt.
Proof.
  intros H1 Hi H3 Hf. unfold store_freq_errors.
  match goal with
  | |- context [store_freq_error m 0 ?p] =>
      destruct (store_freq_error_ok m 0 p g1 g3 idx fe H1 Hi H3 Hf) as [p0 ->]
  end.
  cbn [mbind result_bind].
  destruct (store_freq_error_ok m 1 p0 g1 g3 idx fe H1 Hi H3 Hf) as [p1 ->].
  cbn [mbind result_bind].
  destruct (store_freq_error_ok m 2 p1 g1 g3 idx fe H1 Hi H3 Hf) as [p2 ->].
  cbn [mbind result_bind].
  destruct (store_freq_error_ok m 3 p2 g1 g3 idx fe H1 Hi H3 Hf) as [p3 ->].
  cbn [mbind result_bind].
  apply (store_freq_error_ok m 4 p3 g1 g3 idx fe H1 Hi H3 Hf).
Qed.

Lemma CHANNELPacket_v13_fatal now self line rest m g1 g3 fe :
  search CHANNELPacket_PATTERNv13 line = Some m ->
  group m 1 = Ok g1 -> group m 3 = Ok g3 -> py_int g3 = Ok fe ->
  20000 < Z.abs fe ->
  CHANNELPacket_parse_text now self (line :: rest)
  = (line :: rest, Raise (WeeWxIOError (freq_error_message g1 g3))).
Proof.
  intros Hm H1 H3 Hf Hbig. unfold CHANNELPacket_parse_text. rewrite Hm.
  rewrite H3. cbn [mbind result_bind]. rewrite Hf. cbn [mbind result_bind].
  replace (20000 <? Z.abs fe) with true by (symmetry; apply Z.ltb_lt; lia).
  rewrite H1. reflexivity.
Qed.

Lemma CHANNELPacket_v12_fatal now self line rest m g1 g3 fe :
  search CHANNELPacket_PATTERNv13 line = None ->
  search CHANNELPacket_PATTERNv12 line = Some m ->
  group m 1 = Ok g1 -> group m 3 = Ok g3 -> py_int g3 = Ok fe ->
  20000 < Z.abs fe ->
  CHANNELPacket_parse_text now self (line :: rest)
  = (line :: rest, Raise (WeeWxIOError (freq_error_message g1 g3))).
Proof.
  intros Hn Hm H1 H3 Hf Hbig. unfold CHANNELPacket_parse_text. rewrite Hn, Hm.
  rewrite H3. cbn [mbind result_bind]. rewrite Hf. cbn [mbind result_bind].
  replace (20000 <? Z.abs fe) with true by (symmetry; apply Z.ltb_lt; lia).
  rewrite H1. reflexivity.
Qed.

Lemma CHANNELPacket_v13_normal now self line rest m g1 g3 g4 idx fe tr :
  search CHANNELPacket_PATTERNv13 line = Some m ->
  group m 1 = Ok g1 -> py_int g1 = Ok idx ->
  group m 3 = Ok g3 -> py_int g3 = Ok fe ->
  group m 4 = Ok g4 -> py_int g4 = Ok tr ->
  Z.abs fe <= 20000 ->
  exists pkt,
    CHANNELPacket_parse_text now self (line :: rest) = (rest, Ok (Some pkt)).
Proof.
  intros Hm H1 Hi H3 Hf H4 Ht Hsmall. unfold CHANNELPacket_parse_text. rewrite Hm.
  rewrite H3. cbn [mbind result_bind]. rewrite Hf. cbn [mbind result_bind].
  replace (20000 <? Z.abs fe) with false by (symmetry; apply Z.ltb_ge; lia).
  destruct (bool_decide (frequency self = "EU")); [|by eexists].
  rewrite H4. cbn [mbind result_bind]. rewrite Ht. cbn [mbind result_bind].
  destruct (tr =? Z.of_nat (transm_to_store self)); [|by eexists].
  destruct (store_freq_errors_ok now m g1 g3 idx fe H1 Hi H3 Hf) as [pkt ->].
  by eexists.
Qed.

Lemma CHANNELPacket_v12_normal now self line rest m g1 g3 idx fe :
  search CHANNELPacket_PATTERNv13 line = None ->
  search CHANNELPacket_PATTERNv12 line = Some m ->
  group m 1 = Ok g1 -> py_int g1 = Ok idx ->
  group m 3 = Ok g3 -> py_int g3 = Ok fe ->
  Z.abs fe <= 20000 ->
  exists pkt,
    CHANNELPacket_parse_text now self (line :: rest) = (rest, Ok (Some pkt)).
Proof.
  intros Hn Hm H1 Hi H3 Hf Hsmall. unfold CHANNELPacket_parse_text.
  rewrite Hn, Hm.
  rewrite H3. cbn [mbind result_bind]. rewrite Hf. cbn [mbind result_bind].
  replace (20000 <? Z.abs fe) with false by (symmetry; apply Z.ltb_ge; lia).
  destruct (bool_decide (frequency self = "EU")); [|by eexists].
  destruct (store_freq_errors_ok now m g1 g3 idx fe H1 Hi H3 Hf) as [pkt ->].
  by eexists.
Qed.

Lemma channel_line_dispatch crc16 ds dl now self line rest :
  search DATAPacket_IDENTIFIER (strip line) = None ->
  is_Some (search CHANNELPacket_IDENTIFIER (strip line)) ->
  PacketFactory_parse_text crc16 ds dl now self (line :: rest)
  = CHANNELPacket_parse_text now self (line :: rest).
Proof.
  intros Hd Hc. unfold PacketFactory_parse_text.
  rewrite (strip_nonempty_of_match CHANNELPacket_IDENTIFIER line eq_refl Hc).
  rewrite Hd.
  rewrite bool_decide_eq_false_2 by (by intros [? ?]).
  by rewrite (bool_decide_eq_true_2 _ Hc).
Qed.

(** C8.  For a channel report of either shape whose frequency-error
    field is an integer of absolute value above 20000,
    [CHANNELPacket.parse_text] raises [WeeWxIOError] (the error class of
    the fatal conditions, not the [ValueError] of a decode failure) and
    leaves the line in place; when the line reaches that parser through
    [PacketFactory], the exception leaves [genLoopPackets].  With an
    absolute value of at most 20000 the parser returns a packet and pops
    the line. *)
Theorem freq_error_over_threshold_is_fatal :
  (forall now self line rest m g1 g3 fe,
     (search CHANNELPacket_PATTERNv13 line = Some m \/
      (search CHANNELPacket_PATTERNv13 line = None /\
       search CHANNELPacket_PATTERNv12 line = Some m)) ->
     group m 1 = Ok g1 -> group m 3 = Ok g3 -> py_int g3 = Ok fe ->
     20000 < Z.abs fe ->
     CHANNELPacket_parse_text now self (line :: rest)
     = (line :: rest, Raise (WeeWxIOError (freq_error_message g1 g3))) /\
     forall crc16 ds dl batches yielded,
       search DATAPacket_IDENTIFIER (strip line) = None ->
       is_Some (search CHANNELPacket_IDENTIFIER (strip line)) ->
       genLoopPackets crc16 ds dl self ((now, line :: rest) :: batches) yielded =
       {| run_self := self; run_lines := line :: rest; run_yielded := yielded;
          run_raised := Some (WeeWxIOError (freq_error_message g1 g3)) |}) /\
  (forall now self line rest m g1 g3 g4 idx fe tr,
     search CHANNELPacket_PATTERNv13 line = Some m ->
     group m 1 = Ok g1 -> py_int g1 = Ok idx ->
     group m 3 = Ok g3 -> py_int g3 = Ok fe ->
     group m 4 = Ok g4 -> py_int g4 = Ok tr ->
     Z.abs fe <= 20000 ->
     exists pkt,
       CHANNELPacket_parse_text now self (line :: rest) = (rest, Ok (Some pkt))) /\
  (forall now self line rest m g1 g3 idx fe,
     search CHANNELPacket_PATTERNv13 line = None ->
     search CHANNELPacket_PATTERNv12 line = Some m ->
     group m 1 = Ok g1 -> py_int g1 = Ok idx ->
     group m 3 = Ok g3 -> py_int g3 = Ok fe ->
     Z.abs fe <= 20000 ->
     exists pkt,
       CHANNELPacket_parse_text now self (line :: rest) = (rest, Ok (Some pkt))) /\
  (forall msg msg', WeeWxIOError msg <> ValueError msg').
Proof.
  split; [|split; [|split]].
  - intros now self line rest m g1 g3 fe Hm H1 H3 Hf Hbig.
    assert (CHANNELPacket_parse_text now self (line :: rest)
            = (line :: rest, Raise (WeeWxIOError (freq_error_message g1 g3))))
      as Hraise.
    { destruct Hm as [Hm|[Hn Hm]].
      - by eapply CHANNELPacket_v13_fatal.
      - by eapply CHANNELPacket_v12_fatal. }
    split; [exact Hraise|].
    intros crc16 ds dl batches yielded Hd Hc.
    apply genLoopPackets_first_raises.
    by rewrite channel_line_dispatch.
  - intros. by eapply CHANNELPacket_v13_normal.
  - intros. by eapply CHANNELPacket_v12_normal.
  - done.
Qed.

Lemma freq_error_over_threshold_is_fatal_witness :
  genLoopPackets crc16_ccitt decode_nothing decode_nothing driver_default
    [(1000%Q, [line_freq_error; line_freq_ok])] [] =
  {| run_self := driver_default;
     run_lines := [line_freq_error; line_freq_ok];
     run_yielded := [];
     run_raised :=
       Some (WeeWxIOError (freq_error_message "3" "-20001")) |}.
Proof.
  refine (proj2 (proj1 freq_error_over_threshold_is_fatal 1000%Q driver_default
            line_freq_error [line_freq_ok] ["3"; "868437250"; "-20001"; "0"]
            "3" "-20001" (-20001) _ _ _ _ _)
            crc16_ccitt decode_nothing decode_nothing [] [] _ _).
  - left. vm_compute. reflexivity.
  - reflexivity.
  - reflexivity.
  - vm_compute. reflexivity.
  - vm_compute. reflexivity.
  - vm_compute. reflexivity.
  - vm_compute. by eexists.
Defined.

Example freq_error_v12_fatal :
  (CHANNELPacket_parse_text 1000 driver_default [line_freq_error_v12]).2
  = Raise (WeeWxIOError (freq_error_message "3" "20001")).
Proof. vm_compute. reflexivity. Qed.

Example freq_error_at_threshold :
  (CHANNELPacket_parse_text 1000 driver_default [line_freq_ok; line_bad_crc]).1
  = [line_bad_crc] /\
  is_ok (CHANNELPacket_parse_text 1000 driver_default [line_freq_ok]).2 = true.
Proof. split; vm_compute; reflexivity. Qed.


(** ** Soil moisture and leaf wetness lookup *)

Lemma Qltb_lt (a b : Q) : Qltb a b = true <-> (a < b)%Q.
Proof.
  unfold Qltb. rewrite negb_true_iff. split.
  - intros H. apply Qnot_le_lt. intros Hle.
    apply Qle_bool_iff in Hle. congruence.
  - intros H. destruct (Qle_bool b a) eqn:Hb; [|done].
    apply Qle_bool_iff in Hb. by apply Qlt_not_le in H.
Qed.

Lemma Qltb_ge (a b : Q) : Qltb a b = false <-> (b <= a)%Q.
Proof.
  unfold Qltb. rewrite negb_false_iff. apply Qle_bool_iff.
Qed.

Lemma fdiv_ok (a b : Q) : ~ (b == 0)%Q -> fdiv a b = Ok (a / b)%Q.
Proof.
  intros Hb. unfold fdiv. destruct (Qeq_bool b 0) eqn:Hz; [|done].
  by apply Qeq_bool_iff in Hz.
Qed.

(** The loop passes over the indices whose raw value is at most the
    normalized value. *)
Lemma lookup_scan_skip t norm p (k fuel x : nat) :
  (forall j rj, (x <= j < x + k)%nat -> RAW t !! j = Some rj -> (rj <= norm)%Q) ->
  (x + k <= length (RAW t))%nat ->
  lookup_scan t norm (k + fuel) x p = lookup_scan t norm fuel (x + k) p.
Proof.
  revert x. induction k as [|k IH]; intros x Hle Hlen.
  - by rewrite Nat.add_0_r.
  - cbn [Nat.add lookup_scan].
    destruct (lookup_lt_is_Some_2 (RAW t) x ltac:(lia)) as [rx Hrx].
    rewrite (index_lookup _ _ _ Hrx). cbn [mbind result_bind].
    assert (Qltb norm rx = false) as ->.
    { apply Qltb_ge. apply (Hle x); [lia|done]. }
    rewrite IH; [f_equal; lia| |lia].
    intros j rj Hj. apply Hle. lia.
Qed.

Lemma lookup_scan_first t norm p fuel r0 :
  RAW t !! 0%nat = Some r0 -> (norm < r0)%Q ->
  lookup_scan t norm (S fuel) 0 p = Ok p.
Proof.
  intros Hr Hlt. cbn [lookup_scan]. rewrite (index_lookup _ _ _ Hr).
  cbn [mbind result_bind]. by rewrite (proj2 (Qltb_lt _ _) Hlt).
Qed.

Lemma lookup_scan_between t norm p fuel x r1 r2 p1 p2 :
  RAW t !! x = Some r1 -> RAW t !! S x = Some r2 ->
  POT t !! x = Some p1 -> POT t !! S x = Some p2 ->
  (r1 < r2)%Q -> (norm < r2)%Q ->
  lookup_scan t norm (S fuel) (S x) p
  = Ok (p1 + (norm - r1) * ((p2 - p1) / (r2 - r1)))%Q.
Proof.
  intros Hr1 Hr2 Hp1 Hp2 Hinc Hlt. cbn [lookup_scan Nat.eqb].
  replace (S x - 1)%nat with x by lia.
  rewrite (index_lookup _ _ _ Hr2), (index_lookup _ _ _ Hr1),
    (index_lookup _ _ _ Hp2), (index_lookup _ _ _ Hp1).
  cbn [mbind result_bind]. rewrite (proj2 (Qltb_lt _ _) Hlt).
  rewrite fdiv_ok; [done|]. intros Hz. lra.
Qed.

Section Lookup.
Variable t : lookup_table.
Hypothesis Hok : table_ok t.
Variables norm_fact sensor_raw sensor_temp : Q.

Let norm := normalized norm_fact sensor_raw sensor_temp.

Lemma last_raw_lookup :
  exists r, RAW t !! (length (RAW t) - 1)%nat = Some r.
Proof.
  apply lookup_lt_is_Some_2. pose proof (table_nonempty t Hok). lia.
Qed.

Lemma lookup_potential_high r p :
  RAW t !! (length (RAW t) - 1)%nat = Some r ->
  POT t !! (length (RAW t) - 1)%nat = Some p ->
  (r <= norm)%Q ->
  lookup_potential norm_fact sensor_raw sensor_temp t = Ok p.
Proof.
  intros Hr Hp Hle. unfold lookup_potential. fold (normalized norm_fact sensor_raw sensor_temp).
  fold norm. rewrite (index_lookup _ _ _ Hr). cbn [mbind result_bind].
  rewrite (proj2 (Qle_bool_iff _ _) Hle). by apply index_lookup.
Qed.

Lemma lookup_potential_low r0 p0 :
  RAW t !! 0%nat = Some r0 -> POT t !! 0%nat = Some p0 ->
  (norm < r0)%Q ->
  lookup_potential norm_fact sensor_raw sensor_temp t = Ok p0.
Proof.
  intros Hr Hp Hlt. unfold lookup_potential.
  fold (normalized norm_fact sensor_raw sensor_temp). fold norm.
  destruct last_raw_lookup as [r Hlast].
  rewrite (index_lookup _ _ _ Hlast). cbn [mbind result_bind].
  assert (Qle_bool r norm = false) as ->.
  { destruct (Qle_bool r norm) eqn:Hb; [|done].
    apply Qle_bool_iff in Hb.
    destruct (decide (length (RAW t) - 1 = 0)%nat) as [Hz|Hnz].
    - rewrite Hz, Hr in Hlast. simplify_eq. lra.
    - pose proof (table_increasing t Hok 0%nat (length (RAW t) - 1)%nat r0 r ltac:(lia) Hr Hlast). lra. }
  rewrite (index_lookup _ _ _ Hp). cbn [mbind result_bind].
  pose proof (table_nonempty t Hok).
  destruct (length (RAW t)) as [|n] eqn:Hn; [lia|].
  by eapply lookup_scan_first.
Qed.

Lemma lookup_potential_between x r1 r2 p1 p2 :
  RAW t !! x = Some r1 -> RAW t !! S x = Some r2 ->
  POT t !! x = Some p1 -> POT t !! S x = Some p2 ->
  (r1 <= norm)%Q -> (norm < r2)%Q ->
  lookup_potential norm_fact sensor_raw sensor_temp t
  = Ok (p1 + (norm - r1) * ((p2 - p1) / (r2 - r1)))%Q.
Proof.
  intros Hr1 Hr2 Hp1 Hp2 Hle Hlt. unfold lookup_potential.
  fold (normalized norm_fact sensor_raw sensor_temp). fold norm.
  destruct last_raw_lookup as [r Hlast].
  rewrite (index_lookup _ _ _ Hlast). cbn [mbind result_bind].
  pose proof (lookup_lt_Some _ _ _ Hr2) as Hx.
  assert (Qle_bool r norm = false) as ->.
  { destruct (Qle_bool r norm) eqn:Hb; [|done].
    apply Qle_bool_iff in Hb.
    destruct (decide (S x = length (RAW t) - 1)%nat) as [Hz|Hnz].
    - rewrite <- Hz, Hr2 in Hlast. simplify_eq. lra.
    - pose proof (table_increasing t Hok (S x) (length (RAW t) - 1)%nat r2 r ltac:(lia) Hr2 Hlast). lra. }
  destruct (lookup_lt_is_Some_2 (POT t) 0) as [p0 Hp0].
  { rewrite (table_lengths t Hok). lia. }
  rewrite (index_lookup _ _ _ Hp0). cbn [mbind result_bind].
  replace (length (RAW t)) with (S x + S (length (RAW t) - S (S x)))%nat by lia.
  rewrite lookup_scan_skip.
  - rewrite Nat.add_0_l.
    apply lookup_scan_between; try done.
    apply (table_increasing t Hok x (S x)); [lia|done..].
  - intros j rj Hj Hrj.
    destruct (decide (j = x)) as [->|Hne]; [by simplify_eq|].
    pose proof (table_increasing t Hok j x rj r1 ltac:(lia) Hrj Hr1). lra.
  - lia.
Qed.

End Lookup.


Lemma increasingb_head a l :
  increasingb (a :: l) = true -> forall j b, l !! j = Some b -> (a < b)%Q.
Proof.
  revert a. induction l as [|c l IH]; intros a Hinc j b Hb; [done|].
  cbn [increasingb] in Hinc. apply andb_true_iff in Hinc as [Hac Hl].
  apply Qltb_lt in Hac.
  destruct j as [|j]; cbn in Hb; [by simplify_eq|].
  pose proof (IH c Hl j b Hb). lra.
Qed.

Lemma increasingb_increasing l : increasingb l = true -> increasing l.
Proof.
  induction l as [|a l IH]; intros Hinc i j x y Hij Hx Hy; [done|].
  destruct j as [|j]; [lia|]. cbn in Hy.
  destruct i as [|i]; cbn in Hx.
  - simplify_eq. by eapply increasingb_head.
  - apply (IH ltac:(destruct l; [done|]; cbn [increasingb] in Hinc;
                    by apply andb_true_iff in Hinc as [_ ?]) i j); [lia|done..].
Qed.

Lemma SM_MAP_ok : table_ok SM_MAP.
Proof.
  split; [cbn; lia|reflexivity|]. by apply increasingb_increasing.
Qed.

Lemma LW_MAP_ok : table_ok LW_MAP.
Proof.
  split; [cbn; lia|reflexivity|]. by apply increasingb_increasing.
Qed.

(** Between the first and the last raw value there are two neighbours
    that enclose the normalized value. *)
Lemma bracket_exists (l : list Q) (norm r0 : Q) (n : nat) (rn : Q) :
  l !! 0%nat = Some r0 -> (r0 <= norm)%Q ->
  l !! n = Some rn -> (norm < rn)%Q ->
  exists x r1 r2, l !! x = Some r1 /\ l !! S x = Some r2 /\
                  (r1 <= norm)%Q /\ (norm < r2)%Q.
Proof.
  intros H0 Hle. revert rn. induction n as [|n IH]; intros rn Hn Hlt.
  - simplify_eq. lra.
  - destruct (lookup_lt_is_Some_2 l n) as [rm Hm].
    { apply lookup_lt_Some in Hn. lia. }
    destruct (Qlt_le_dec norm rm) as [Hlow|Hhigh].
    + by apply (IH rm).
    + by exists n, rm, rn.
Qed.

Lemma interpolation_within (lo hi p1 p2 r1 r2 norm : Q) :
  (lo <= p1 <= hi)%Q -> (lo <= p2 <= hi)%Q ->
  (r1 <= norm)%Q -> (norm < r2)%Q ->
  (lo <= p1 + (norm - r1) * ((p2 - p1) / (r2 - r1)) <= hi)%Q.
Proof.
  intros H1 H2 Hle Hlt.
  set (d := (r2 - r1)%Q). set (u := (norm - r1)%Q).
  assert (0 < d)%Q as Hd by (unfold d; lra).
  assert (0 <= u)%Q as Hu0 by (unfold u; lra).
  assert (u < d)%Q as Hud by (unfold u, d; lra).
  set (per := ((p2 - p1) / d)%Q).
  assert (per * d == p2 - p1)%Q as Hper.
  { unfold per. rewrite Qmult_comm. apply Qmult_div_r. lra. }
  destruct (Qlt_le_dec p2 p1) as [Hdown|Hup].
  - assert (per <= 0)%Q as Hneg by nra.
    assert (u * per <= 0)%Q by nra.
    assert (d * per <= u * per)%Q by nra.
    split; nra.
  - assert (0 <= per)%Q as Hpos by nra.
    assert (0 <= u * per)%Q by nra.
    assert (u * per <= d * per)%Q by nra.
    split; nra.
Qed.

Lemma lookup_potential_within (t : lookup_table) (lo hi : Q) :
  table_ok t ->
  (forall i p, POT t !! i = Some p -> (lo <= p <= hi)%Q) ->
  forall norm_fact sensor_raw sensor_temp : Q,
  exists q, lookup_potential norm_fact sensor_raw sensor_temp t = Ok q /\
            (lo <= q <= hi)%Q.
Proof.
  intros Hok Hb nf raw temp.
  set (norm := normalized nf raw temp).
  destruct (last_raw_lookup t Hok) as [r Hr].
  pose proof (table_nonempty t Hok) as Hne.
  destruct (lookup_lt_is_Some_2 (POT t) (length (RAW t) - 1)) as [p Hp].
  { rewrite (table_lengths t Hok). lia. }
  destruct (lookup_lt_is_Some_2 (RAW t) 0 Hne) as [r0 Hr0].
  destruct (lookup_lt_is_Some_2 (POT t) 0) as [p0 Hp0].
  { rewrite (table_lengths t Hok). lia. }
  destruct (Qlt_le_dec norm r) as [Hlow|Hhigh].
  2:{ exists p. split; [by eapply lookup_potential_high|by eapply Hb]. }
  destruct (Qlt_le_dec norm r0) as [Hfirst|Hin].
  { exists p0. split; [by eapply lookup_potential_low|by eapply Hb]. }
  destruct (bracket_exists (RAW t) norm r0 _ r Hr0 Hin Hr Hlow)
    as (x & r1 & r2 & Hr1 & Hr2 & Hle & Hlt).
  destruct (lookup_lt_is_Some_2 (POT t) x) as [p1 Hp1].
  { rewrite (table_lengths t Hok). apply lookup_lt_Some in Hr1. lia. }
  destruct (lookup_lt_is_Some_2 (POT t) (S x)) as [p2 Hp2].
  { rewrite (table_lengths t Hok). by apply lookup_lt_Some in Hr2. }
  exists (p1 + (norm - r1) * ((p2 - p1) / (r2 - r1)))%Q. split.
  { exact (lookup_potential_between t Hok nf raw temp x r1 r2 p1 p2
             Hr1 Hr2 Hp1 Hp2 Hle Hlt). }
  apply interpolation_within; [by eapply Hb|by eapply Hb|done..].
Qed.

Lemma SM_MAP_within (i : nat) (p : Q) :
  POT SM_MAP !! i = Some p -> (0 <= p <= 200)%Q.
Proof.
  intros Hp. do 11 (destruct i as [|i]; [cbn in Hp; simplify_eq; lra|]). done.
Qed.

Lemma LW_MAP_within (i : nat) (p : Q) :
  POT LW_MAP !! i = Some p -> (0 <= p <= 15)%Q.
Proof.
  intros Hp. do 8 (destruct i as [|i]; [cbn in Hp; simplify_eq; lra|]). done.
Qed.

Lemma soil_moisture_within (norm_fact sensor_raw sensor_temp q : Q) :
  lookup_potential norm_fact sensor_raw sensor_temp SM_MAP = Ok q ->
  (0 <= q <= 200)%Q.
Proof.
  intros H.
  destruct (lookup_potential_within SM_MAP 0 200 SM_MAP_ok SM_MAP_within
              norm_fact sensor_raw sensor_temp) as (q' & Hq & Hb).
  rewrite H in Hq. by simplify_eq.
Qed.

Lemma leaf_wetness_within (norm_fact sensor_raw sensor_temp q : Q) :
  lookup_potential norm_fact sensor_raw sensor_temp LW_MAP = Ok q ->
  (0 <= q <= 15)%Q.
Proof.
  intros H.
  destruct (lookup_potential_within LW_MAP 0 15 LW_MAP_ok LW_MAP_within
              norm_fact sensor_raw sensor_temp) as (q' & Hq & Hb).
  rewrite H in Hq. by simplify_eq.
Qed.

(** X1.  [lookup_potential] on a well-formed table (not empty, as many
    potentials as raw values, raw values increasing) never raises, and
    the potential it returns lies within any bounds that hold for all the
    potentials of the table. *)
Theorem lookup_potential_bounded (t : lookup_table) (lo hi : Q)
    (norm_fact sensor_raw sensor_temp : Q) :
  table_ok t ->
  (forall i p, POT t !! i = Some p -> (lo <= p <= hi)%Q) ->
  exists q, lookup_potential norm_fact sensor_raw sensor_temp t = Ok q /\
            (lo <= q <= hi)%Q.
Proof. intros Hok Hb. by apply lookup_potential_within. Qed.

Lemma lookup_potential_bounded_witness :
  exists q, lookup_potential 0.009%Q 300%Q 30%Q SM_MAP = Ok q /\ (0 <= q <= 200)%Q.
Proof.
  apply (lookup_potential_bounded SM_MAP 0%Q 200%Q 0.009%Q 300%Q 30%Q SM_MAP_ok).
  exact SM_MAP_within.
Defined.

(** X2.  On the two tables of the driver [lookup_potential] never raises,
    whatever the raw value, the temperature and the normalization factor:
    a soil moisture lies between 0 and 200 and a leaf wetness between 0
    and 15. *)
Theorem lookup_potential_tables (norm_fact sensor_raw sensor_temp : Q) :
  (exists q, lookup_potential norm_fact sensor_raw sensor_temp SM_MAP = Ok q /\
             (0 <= q <= 200)%Q) /\
  (exists q, lookup_potential norm_fact sensor_raw sensor_temp LW_MAP = Ok q /\
             (0 <= q <= 15)%Q).
Proof.
  split.
  - apply lookup_potential_within; [exact SM_MAP_ok|exact SM_MAP_within].
  - apply lookup_potential_within; [exact LW_MAP_ok|exact LW_MAP_within].
Qed.

(** X3.  Outside the table [lookup_potential] clamps: below the first raw
    value it returns the first potential, at or above the last raw value
    the last potential. *)
Theorem lookup_potential_clamps (t : lookup_table)
    (norm_fact sensor_raw sensor_temp : Q) :
  table_ok t ->
  (forall r0 p0,
     RAW t !! 0%nat = Some r0 -> POT t !! 0%nat = Some p0 ->
     (normalized norm_fact sensor_raw sensor_temp < r0)%Q ->
     lookup_potential norm_fact sensor_raw sensor_temp t = Ok p0) /\
  (forall r p,
     RAW t !! (length (RAW t) - 1)%nat = Some r ->
     POT t !! (length (RAW t) - 1)%nat = Some p ->
     (r <= normalized norm_fact sensor_raw sensor_temp)%Q ->
     lookup_potential norm_fact sensor_raw sensor_temp t = Ok p).
Proof.
  intros Hok. split.
  - intros r0 p0. by apply lookup_potential_low.
  - intros r p. by apply lookup_potential_high.
Qed.

Lemma lookup_potential_clamps_witness :
  lookup_potential 0.009%Q 50%Q 24%Q SM_MAP = Ok 0.0%Q /\
  lookup_potential 0.009%Q 800%Q 24%Q SM_MAP = Ok 200.0%Q.
Proof.
  split.
  - apply (proj1 (lookup_potential_clamps SM_MAP 0.009%Q 50%Q 24%Q SM_MAP_ok) 99.2%Q);
      [reflexivity|reflexivity|by vm_compute].
  - apply (proj2 (lookup_potential_clamps SM_MAP 0.009%Q 800%Q 24%Q SM_MAP_ok) 720.1%Q);
      [reflexivity|reflexivity|]. vm_compute. discriminate.
Defined.

(** X4.  Between two neighbouring raw values [lookup_potential]
    interpolates linearly between their potentials, and returns the
    potential of the lower one when the normalized value equals it. *)
Theorem lookup_potential_interpolates (t : lookup_table)
    (norm_fact sensor_raw sensor_temp : Q) (x : nat) (r1 r2 p1 p2 : Q) :
  table_ok t ->
  RAW t !! x = Some r1 -> RAW t !! S x = Some r2 ->
  POT t !! x = Some p1 -> POT t !! S x = Some p2 ->
  let norm := normalized norm_fact sensor_raw sensor_temp in
  (r1 <= norm)%Q -> (norm < r2)%Q ->
  exists q,
    lookup_potential norm_fact sensor_raw sensor_temp t = Ok q /\
    (q == p1 + (norm - r1) / (r2 - r1) * (p2 - p1))%Q /\
    ((norm == r1)%Q -> (q == p1)%Q).
Proof.
  intros Hok Hr1 Hr2 Hp1 Hp2 norm Hle Hlt.
  exists (p1 + (norm - r1) * ((p2 - p1) / (r2 - r1)))%Q. split.
  { exact (lookup_potential_between t Hok norm_fact sensor_raw sensor_temp
             x r1 r2 p1 p2 Hr1 Hr2 Hp1 Hp2 Hle Hlt). }
  assert (~ (r2 - r1 == 0)%Q) as Hnz by lra.
  split.
  - field. exact Hnz.
  - intros Heq. rewrite Heq. field. exact Hnz.
Qed.

Lemma lookup_potential_interpolates_witness :
  exists q,
    lookup_potential 0.009%Q 300%Q 24%Q SM_MAP = Ok q /\
    (q == 15.0 + (normalized 0.009 300 24 - 266.8) / (391.7 - 266.8)
               * (35.0 - 15.0))%Q /\
    ((normalized 0.009 300 24 == 266.8)%Q -> (q == 15.0)%Q).
Proof.
  apply (lookup_potential_interpolates SM_MAP 0.009%Q 300%Q 24%Q 4%nat 266.8%Q 391.7%Q 15.0%Q 35.0%Q
           SM_MAP_ok); try reflexivity; vm_compute; discriminate.
Defined.


(** ** Wind correction on bytes *)

Lemma correction_ok_all :
  forallb (fun s => forallb (fun a => correction_ok s a) (Zrange 0 256))
          (Zrange 3 148) = true.
Proof. vm_cast_no_check (eq_refl true). Qed.

Lemma calc_wind_speed_ec_byte (s a : Z) :
  0 <= s -> 0 <= a < 256 ->
  exists q, calc_wind_speed_ec s a = Ok q /\
            (inject_Z s - 6 <= q <= inject_Z s + 19)%Q /\ (0 <= q)%Q.
Proof.
  intros Hs Ha.
  assert (forall z : Z, 0 <= z ->
            (inject_Z z - 6 <= inject_Z z <= inject_Z z + 19)%Q /\
            (0 <= inject_Z z)%Q) as Hraw.
  { intros z Hz. assert (0 <= inject_Z z)%Q by (unfold Qle; cbn; lia). lra. }
  destruct (Z_lt_le_dec s 3) as [Hlow|Hge].
  { exists (inject_Z s). split; [by apply calc_below_3|by apply Hraw]. }
  destruct (Z_lt_le_dec 150 s) as [Hhigh|Hle].
  { exists (inject_Z s). split; [by apply calc_above_150|by apply Hraw]. }
  pose proof (forallb_Zrange _ 3 s 148 correction_ok_all ltac:(lia)) as Hrow.
  cbv beta in Hrow.
  pose proof (forallb_Zrange _ 0 a 256 Hrow ltac:(lia)) as Hcell.
  cbv beta in Hcell. unfold correction_ok in Hcell.
  destruct (calc_wind_speed_ec s a) as [q|e]; [|done].
  apply andb_true_iff in Hcell as [Hcell H0].
  apply andb_true_iff in Hcell as [Hlo Hhi].
  apply Qle_bool_iff in Hlo, Hhi, H0. by exists q.
Qed.

(** X5.  For a raw speed that is not negative and a raw angle byte,
    [calc_wind_speed_ec] never raises, and the corrected speed is not
    negative and lies between 6 below and 19 above the raw speed. *)
Theorem calc_wind_speed_ec_bounded (raw_mph raw_angle : Z) :
  0 <= raw_mph -> 0 <= raw_angle < 256 ->
  exists q, calc_wind_speed_ec raw_mph raw_angle = Ok q /\
            (inject_Z raw_mph - 6 <= q <= inject_Z raw_mph + 19)%Q /\
            (0 <= q)%Q.
Proof. apply calc_wind_speed_ec_byte. Qed.

Lemma calc_wind_speed_ec_bounded_witness :
  exists q, calc_wind_speed_ec 40 200 = Ok q /\
            (inject_Z 40 - 6 <= q <= inject_Z 40 + 19)%Q /\ (0 <= q)%Q.
Proof. apply (calc_wind_speed_ec_bounded 40 200); lia. Defined.


(** ** Payload decoding *)

Lemma land_ones_range (a : Z) (n : Z) :
  0 <= n -> 0 <= Z.land a (Z.ones n) < 2 ^ n.
Proof.
  intros Hn. rewrite Z.land_ones by done. apply Z.mod_pos_bound. lia.
Qed.

Lemma all_bytes_lookup (pkt : list Z) (i : nat) (b : Z) :
  all_bytes pkt -> pkt !! i = Some b -> 0 <= b < 256.
Proof. intros Hb Hi. by apply (proj1 (Forall_lookup _ _) Hb i). Qed.

Lemma py_round_ge (z : Z) (q : Q) : (inject_Z z <= q)%Q -> z <= py_round q.
Proof.
  intros Hz. assert (z <= Qfloor q) as Hf.
  { rewrite <- (Qfloor_Z z). by apply Qfloor_resp_le. }
  unfold py_round. repeat case_match; lia.
Qed.

Lemma py_round_le (z : Z) (q : Q) : (q <= inject_Z z)%Q -> py_round q <= z.
Proof.
  intros Hz. assert (Qfloor q <= z) as Hf.
  { rewrite <- (Qfloor_Z z). by apply Qfloor_resp_le. }
  destruct (Z.eq_dec (Qfloor q) z) as [Heq|Hne].
  - assert (q == inject_Z z)%Q as Hq.
    { apply Qle_antisym; [done|]. rewrite <- Heq. apply Qfloor_le. }
    unfold py_round. rewrite Heq.
    assert (Qltb (q - inject_Z z) (1 # 2) = true) as ->; [|done].
    apply Qltb_lt. lra.
  - unfold py_round. repeat case_match; lia.
Qed.

Ltac res_step H :=
  match type of H with
  | context [index ?l ?i] =>
      let E := fresh "Hidx" in
      destruct (index l i) eqn:E; cbn [mbind result_bind] in H;
      [apply index_ok_lookup in E|discriminate H]
  | context [getitem ?d ?k] =>
      let E := fresh "Hget" in
      destruct (getitem d k) eqn:E; cbn [mbind result_bind] in H;
      [|discriminate H]
  | context [if ?b then _ else _] =>
      let E := fresh "Hif" in destruct b eqn:E
  | context [mbind _ ?r] =>
      let E := fresh "Hres" in
      destruct r eqn:E; cbn [mbind result_bind] in H; [|discriminate H]
  end.

Ltac key_ne Hk :=
  let E := fresh in
  intros E; apply Hk; subst; apply (bool_decide_unpack _); vm_compute; exact I.

Ltac key_in := apply (bool_decide_unpack _); vm_compute; exact I.

Lemma wind_dir_range (d : Z) :
  1 <= d <= 254 ->
  (9 <= 9.0 + inject_Z (d - 1) * 342.0 / 253.0 <= 351)%Q.
Proof.
  intros Hd.
  assert (0 <= inject_Z (d - 1) <= 253)%Q as [H0 H1].
  { change 0%Q with (inject_Z 0). change 253%Q with (inject_Z 253).
    rewrite <- !Zle_Qle. lia. }
  set (x := inject_Z (d - 1)) in *.
  assert (x * 342.0 / 253.0 == x * (342 # 253))%Q as -> by (field; done).
  lra.
Qed.

(** The wind part: no wind at all for the direction bytes 0 and 255;
    otherwise the four wind fields. *)
Lemma wind_reading_outcome (pkt : list Z) (data : gmap string pyval) (s d : Z) :
  0 <= s -> 0 <= d < 256 ->
  pkt !! 1%nat = Some s -> pkt !! 2%nat = Some d ->
  (d = 0 \/ d = 255 -> wind_reading pkt data = Ok data) /\
  (d <> 0 -> d <> 255 ->
   exists (e : Z) (dir : Q),
     wind_reading pkt data
     = Ok (<["wind_speed" := VFloat (inject_Z e * MPH_TO_MPS)%Q]>
            (<["wind_dir" := VFloat dir]>
              (<["wind_speed_raw" := VInt s]>
                (<["wind_speed_ec" := VInt e]> data)))) /\
     (9 <= dir <= 351)%Q /\ 0 <= e /\ s - 6 <= e <= s + 19).
Proof.
  intros Hs Hd H1 H2. unfold wind_reading.
  rewrite (index_lookup _ _ _ H1), (index_lookup _ _ _ H2).
  cbn [mbind result_bind]. split.
  - intros [-> | ->]; [|by destruct (s =? 0)].
    by destruct (s =? 0).
  - intros Hn0 Hn255.
    replace (d =? 0) with false by (symmetry; by apply Z.eqb_neq).
    replace (d =? 255) with false by (symmetry; by apply Z.eqb_neq).
    rewrite andb_false_r. cbn [negb].
    destruct (calc_wind_speed_ec_byte s d Hs Hd) as (q & -> & [Hlo Hhi] & H0).
    cbn [mbind result_bind]. eexists _, _. split; [reflexivity|].
    split; [apply wind_dir_range; lia|].
    split; [by apply py_round_ge|]. split.
    + apply py_round_ge. change (s - 6) with (s + -6).
      rewrite inject_Z_plus. change (inject_Z (-6)) with (-6 # 1)%Q. lra.
    + apply py_round_le. rewrite inject_Z_plus.
      change (inject_Z 19) with (19 # 1)%Q. lra.
Qed.

Lemma wind_reading_keys (pkt : list Z) (data data' : gmap string pyval) (k : string) :
  wind_reading pkt data = Ok data' -> k ∉ wind_keys ->
  data' !! k = data !! k.
Proof.
  intros H Hk. unfold wind_reading in H.
  repeat res_step H; simplify_eq; try done.
  by rewrite !lookup_insert_ne by key_ne Hk.
Qed.

Section DecoderProperties.

Variable FtoC : Q -> result Q.
Variable thermistor_temp : Q -> result Q.

Lemma station_message_outcome self (pkt : list Z) (data data' : gmap string pyval) :
  station_message FtoC thermistor_temp self pkt data = Ok data' ->
  data' = data \/
  exists k v, data' = <[k := v]> data /\ (k ∈ message_keys) /\
    (k = "rain_count" -> exists c, v = VInt c /\ 0 <= c <= 127).
Proof.
  intros H. unfold station_message, store_by_channel in H.
  repeat res_step H; simplify_eq; try (by left); right;
    (eexists _, _; split; [reflexivity|]; split; [key_in|]);
    try (by intros [=]).
  intros _. eexists; split; [reflexivity|].
  match goal with |- context [Z.land ?b 0x7F] =>
    pose proof (land_ones_range b 7 ltac:(lia)) as Hr end.
  change (Z.ones 7) with 0x7F in Hr. lia.
Qed.

Lemma station_message_keys self (pkt : list Z) (data data' : gmap string pyval)
    (k : string) :
  station_message FtoC thermistor_temp self pkt data = Ok data' ->
  k ∉ message_keys -> data' !! k = data !! k.
Proof.
  intros H Hk. destruct (station_message_outcome _ _ _ _ H)
    as [->|(k' & v & -> & Hin & _)]; [done|].
  apply lookup_insert_ne. by intros ->.
Qed.

End DecoderProperties.


Lemma sensor_num_range (b1 : Z) :
  1 <= Z.shiftr (Z.land b1 0xe0) 5 + 1 <= 8.
Proof.
  rewrite Z.shiftr_land. change (Z.shiftr 0xe0 5) with (Z.ones 3).
  pose proof (land_ones_range (Z.shiftr b1 5) 3 ltac:(lia)). lia.
Qed.

Lemma battery_keys_fresh (key : string) :
  key ∈ battery_keys -> (key ∉ wind_keys) /\ (key ∉ message_keys).
Proof.
  intros Hkey. unfold battery_keys in Hkey. rewrite !elem_of_cons in Hkey.
  destruct Hkey as [->|[->|[->|[->|[->|Hn]]]]];
    [..|by apply elem_of_nil in Hn]; split; key_in.
Qed.

Section PacketProperties.

Variable FtoC : Q -> result Q.
Variable thermistor_temp : Q -> result Q.

Lemma decode_leaf_soil_outcome self (pkt : list Z)
    (data data' : gmap string pyval) (k : string) :
  decode_leaf_soil_packet thermistor_temp self pkt data = Ok data' ->
  data' !! k = data !! k \/
  exists v, data' !! k = Some v /\ leaf_soil_field k v.
Proof.
  intros H. unfold decode_leaf_soil_packet in H.
  repeat match goal with
    | p : (_ * _)%type |- _ => destruct p
    | H : context [index _ _] |- _ => res_step H
    | H : context [mbind _ _] |- _ => res_step H
    | H : context [if _ then _ else _] |- _ => res_step H
    end;
    simplify_eq; try (by left);
    match goal with b : Z |- _ =>
      match goal with _ : _ !! 1%nat = Some b |- _ =>
        pose proof (sensor_num_range b) as Hn end end;
    repeat match goal with
    | |- context [<[?k' := _]> _ !! k] =>
        destruct (decide (k' = k)) as [<-|?];
        [rewrite lookup_insert_eq; right; eexists; split; [reflexivity|];
         eexists; (split; [exact Hn|]);
         eauto 8 using soil_moisture_within, leaf_wetness_within
        |rewrite lookup_insert_ne by done]
    end; by left.
Qed.

Lemma leaf_soil_field_other (k : string) (v : pyval) :
  k ∈ "channel" :: "rain_count" :: battery_keys -> ~ leaf_soil_field k v.
Proof.
  intros Hk (n & _ & H).
  unfold battery_keys in Hk. rewrite !elem_of_cons in Hk.
  destruct H as [H|[H|[[H _]|[H _]]]]; subst k; cbn in Hk;
    repeat (destruct Hk as [Hk|Hk]; [discriminate Hk|]);
    by apply elem_of_nil in Hk.
Qed.

Lemma decode_leaf_soil_keys self (pkt : list Z)
    (data data' : gmap string pyval) (k : string) :
  decode_leaf_soil_packet thermistor_temp self pkt data = Ok data' ->
  k ∈ "channel" :: "rain_count" :: battery_keys ->
  data' !! k = data !! k.
Proof.
  intros H Hk.
  destruct (decode_leaf_soil_outcome _ _ _ _ k H) as [->|(v & _ & Hf)]; [done|].
  by destruct (leaf_soil_field_other k v).
Qed.

Lemma decode_station_keys self (pkt : list Z)
    (data data' : gmap string pyval) (k : string) :
  decode_station_packet FtoC thermistor_temp self pkt data = Ok data' ->
  k ∉ wind_keys -> k ∉ message_keys -> data' !! k = data !! k.
Proof.
  intros H Hw Hm. unfold decode_station_packet in H.
  destruct (wind_reading pkt data) as [dataw|e] eqn:Hwind; [|done].
  cbn [mbind result_bind] in H.
  rewrite (station_message_keys _ _ _ _ _ _ _ H Hm).
  by apply (wind_reading_keys pkt).
Qed.

(** What [parse_raw] hands to a decoder: the channel and the battery
    flag of the role. *)
Lemma parse_raw_packet_inv self (pkt : list Z) (data' : gmap string pyval) :
  parse_raw_packet FtoC thermistor_temp self pkt = Ok data' ->
  exists (b0 : Z) (data : gmap string pyval),
    pkt !! 0%nat = Some b0 /\
    data !! "channel" = Some (VInt (Z.land b0 0x7 + 1)) /\
    data !! "rain_count" = None /\
    (exists key, key ∈ battery_keys /\
       data !! key = Some (VInt (Z.land (Z.shiftr b0 3) 0x1))) /\
    ((Z.land b0 0x7 + 1 ∈ [iss (self_channels self); anemometer (self_channels self);
                           temp_hum_1 (self_channels self);
                           temp_hum_2 (self_channels self)] /\
      decode_station_packet FtoC thermistor_temp self pkt data = Ok data') \/
     (Z.land b0 0x7 + 1 = leaf_soil (self_channels self) /\
      decode_leaf_soil_packet thermistor_temp self pkt data = Ok data')).
Proof.
  intros H. unfold parse_raw_packet, parse_raw in H.
  destruct (index pkt 0) as [b0|] eqn:H0; [|done].
  apply index_ok_lookup in H0. cbn [mbind result_bind] in H. cbv zeta in H.
  set (ch := Z.land b0 7 + 1) in *.
  destruct ((ch =? iss (self_channels self)) || (ch =? anemometer (self_channels self))
            || (ch =? temp_hum_1 (self_channels self))
            || (ch =? temp_hum_2 (self_channels self))) eqn:Hrole.
  - eexists b0, _. split; [done|].
    split; [|split; [|split; [|left; split; [|exact H]]]].
    + repeat case_match; by rewrite lookup_insert_ne, lookup_singleton_eq.
    + repeat case_match; by rewrite lookup_insert_ne, lookup_singleton_ne.
    + repeat case_match; eexists; (split; [|by apply lookup_insert_eq]); key_in.
    + rewrite !orb_true_iff, !Z.eqb_eq in Hrole.
      rewrite !elem_of_cons. destruct Hrole as [[[?|?]|?]|?]; auto 10.
  - destruct (ch =? leaf_soil (self_channels self)) eqn:Hls; [|done].
    apply Z.eqb_eq in Hls.
    eexists b0, _. split; [done|].
    split; [|split; [|split; [|right; split; [done|exact H]]]].
    + by rewrite lookup_insert_ne, lookup_singleton_eq.
    + by rewrite lookup_insert_ne, lookup_singleton_ne.
    + eexists; (split; [|by apply lookup_insert_eq]); key_in.
Qed.

(** X6.  Every reading [parse_raw] returns carries the channel number
    taken from the low three bits of the first byte, which lies between
    1 and 8 and is the channel of one of the five roles, and the battery
    flag of bit 3 of the first byte under one of the battery names: the
    decoders never overwrite them. *)
Theorem parse_raw_packet_channel self (pkt : list Z) (data : gmap string pyval) :
  parse_raw_packet FtoC thermistor_temp self pkt = Ok data ->
  exists b0 : Z,
    pkt !! 0%nat = Some b0 /\
    data !! "channel" = Some (VInt (Z.land b0 0x7 + 1)) /\
    (1 <= Z.land b0 0x7 + 1 <= 8) /\
    (Z.land b0 0x7 + 1 ∈ [iss (self_channels self); anemometer (self_channels self);
                          temp_hum_1 (self_channels self);
                          temp_hum_2 (self_channels self);
                          leaf_soil (self_channels self)]) /\
    0 <= Z.land (Z.shiftr b0 3) 0x1 <= 1 /\
    exists key, key ∈ battery_keys /\
      data !! key = Some (VInt (Z.land (Z.shiftr b0 3) 0x1)).
Proof.
  intros H.
  destruct (parse_raw_packet_inv _ _ _ H)
    as (b0 & data0 & H0 & Hch & _ & (key & Hkey & Hbat) & Hdec).
  exists b0. split; [done|].
  pose proof (land_ones_range b0 3 ltac:(lia)) as Hr3.
  change (Z.ones 3) with 7 in Hr3.
  pose proof (land_ones_range (Z.shiftr b0 3) 1 ltac:(lia)) as Hr1.
  change (Z.ones 1) with 1 in Hr1.
  assert (key ∈ "channel" :: "rain_count" :: battery_keys) as Hkey'
    by (rewrite !elem_of_cons; auto).
  destruct (battery_keys_fresh key Hkey) as [Kw Km].
  destruct Hdec as [[Hrole Hdec]|[Hrole Hdec]].
  - rewrite (decode_station_keys _ _ _ _ "channel" Hdec) by key_in.
    split; [done|]. split; [lia|]. split.
    { rewrite !elem_of_cons in Hrole. rewrite !elem_of_cons.
      destruct Hrole as [?|[?|[?|[?|Hn]]]]; auto 10. }
    split; [lia|]. exists key. split; [done|].
    by rewrite (decode_station_keys _ _ _ _ key Hdec).
  - rewrite (decode_leaf_soil_keys _ _ _ _ "channel" Hdec) by (apply elem_of_cons; by left).
    split; [done|]. split; [lia|]. split.
    { rewrite !elem_of_cons. auto 10. }
    split; [lia|]. exists key. split; [done|].
    by rewrite (decode_leaf_soil_keys _ _ _ _ key Hdec).
Qed.

End PacketProperties.


Section ReadingProperties.

Variable FtoC : Q -> result Q.
Variable thermistor_temp : Q -> result Q.

Lemma rain_count_range self (pkt : list Z)
    (data : gmap string pyval) (v : pyval) :
  parse_raw_packet FtoC thermistor_temp self pkt = Ok data ->
  data !! "rain_count" = Some v ->
  exists c : Z, v = VInt c /\ 0 <= c <= 127.
Proof.
  intros H Hv.
  destruct (parse_raw_packet_inv _ _ _ _ _ H)
    as (b0 & data0 & H0 & _ & Hnone & _ & [[_ Hdec]|[_ Hdec]]).
  - unfold decode_station_packet in Hdec.
    destruct (wind_reading pkt data0) as [dataw|e] eqn:Hwind; [|done].
    cbn [mbind result_bind] in Hdec.
    assert (dataw !! "rain_count" = None) as Hw.
    { rewrite (wind_reading_keys _ _ _ "rain_count" Hwind) by key_in. done. }
    destruct (station_message_outcome _ _ _ _ _ _ Hdec)
      as [->|(k & v' & -> & _ & Hrc)]; [congruence|].
    destruct (decide (k = "rain_count")) as [->|Hne].
    + rewrite lookup_insert_eq in Hv. simplify_eq. by apply Hrc.
    + rewrite lookup_insert_ne in Hv by done. congruence.
  - rewrite (decode_leaf_soil_keys _ _ _ _ _ "rain_count" Hdec) in Hv
      by (rewrite !elem_of_cons; auto).
    congruence.
Qed.

(** X7.  A rain count in a reading that [parse_raw] returns is an integer
    between 0 and 127. *)
Theorem parse_raw_packet_rain_count self (pkt : list Z)
    (data : gmap string pyval) (v : pyval) :
  parse_raw_packet FtoC thermistor_temp self pkt = Ok data ->
  data !! "rain_count" = Some v ->
  exists c : Z, v = VInt c /\ 0 <= c <= 127.
Proof. apply rain_count_range. Qed.

(** X8.  The rain of two readings decoded one after the other.  When
    [parse_raw] returned both readings with a rain count, the packet made
    from the second one books a number of tips between 0 and 127, never
    a negative one, times [rain_per_tip]. *)
Theorem decoded_rain_not_negative self (pkt1 pkt2 : list Z)
    (d1 d2 : gmap string pyval) (now1 now2 : Q) (obj : driver) :
  parse_raw_packet FtoC thermistor_temp self pkt1 = Ok d1 ->
  parse_raw_packet FtoC thermistor_temp self pkt2 = Ok d2 ->
  is_Some (d1 !! "rain_count") -> is_Some (d2 !! "rain_count") ->
  let obj1 := (_data_to_packet now1 obj d1).1 in
  exists tips : Z,
    0 <= tips <= 127 /\
    (_data_to_packet now2 obj1 d2).2 !! "rain"
    = Some (VFloat (inject_Z tips * rain_per_tip obj)%Q).
Proof.
  intros H1 H2 [v1 Hv1] [v2 Hv2] obj1.
  destruct (rain_count_range _ _ _ _ H1 Hv1) as (last & -> & Hl).
  destruct (rain_count_range _ _ _ _ H2 Hv2) as (curr & -> & Hc).
  destruct (_data_to_packet_rain now1 obj d1 _ Hv1) as (_ & Hlast & Hrpt).
  destruct (_data_to_packet_rain now2 obj1 d2 _ Hv2) as (Hrain & _ & _).
  unfold obj1 in Hrain. rewrite Hlast, Hrpt in Hrain. fold obj1 in Hrain.
  rewrite Hrain. unfold pv_neg, pv_sub, pv_Q. rewrite Qle_bool_0_inject.
  destruct (0 <=? curr - last) eqn:Hle; cbn [negb pv_add_int].
  - apply Z.leb_le in Hle. exists (curr - last). split; [lia|done].
  - apply Z.leb_gt in Hle. exists (curr - last + 128). split; [lia|done].
Qed.

(** X9.  The wind part of a station packet.  The direction bytes 0 and 255
    give no wind field at all, whatever the speed byte; any other
    direction byte gives a direction between 9 and 351 degrees, the raw
    speed byte, and a corrected speed that is a whole number, not
    negative, between 6 below and 19 above the raw speed; it never
    raises. *)
Theorem wind_reading_fields (pkt : list Z) (data : gmap string pyval) (s d : Z) :
  all_bytes pkt -> pkt !! 1%nat = Some s -> pkt !! 2%nat = Some d ->
  (d = 0 \/ d = 255 -> wind_reading pkt data = Ok data) /\
  (d <> 0 -> d <> 255 ->
   exists (e : Z) (dir : Q),
     wind_reading pkt data
     = Ok (<["wind_speed" := VFloat (inject_Z e * MPH_TO_MPS)%Q]>
            (<["wind_dir" := VFloat dir]>
              (<["wind_speed_raw" := VInt s]>
                (<["wind_speed_ec" := VInt e]> data)))) /\
     (9 <= dir <= 351)%Q /\ 0 <= e /\ s - 6 <= e <= s + 19).
Proof.
  intros Hb H1 H2.
  pose proof (all_bytes_lookup _ _ _ Hb H1). pose proof (all_bytes_lookup _ _ _ Hb H2).
  apply wind_reading_outcome; [lia|lia|done..].
Qed.

(** X10.  A rain-rate message (type 5) from the ISS channel, by the time
    between tips [((pkt[4] & 0x30) << 4) + pkt[3]]: 0x3FF gives the rate
    0; 0 raises [ZeroDivisionError]; any other value [t] gives
    [57600 / t] tips an hour when bit 0x40 of byte 4 is clear (heavy
    rain) and [3600 / t] when it is set, times [rain_per_tip].  From
    another channel the message adds nothing. *)
Theorem rain_rate_message self (pkt : list Z) (data : gmap string pyval)
    (b0 b3 b4 : Z) (channel : pyval) :
  pkt !! 0%nat = Some b0 -> pkt !! 3%nat = Some b3 -> pkt !! 4%nat = Some b4 ->
  message_type b0 = 5 ->
  data !! "channel" = Some channel ->
  let t := time_between_tips_raw b3 b4 in
  let out := station_message FtoC thermistor_temp self pkt data in
  (pv_eqb channel (VInt (iss (self_channels self))) = false -> out = Ok data) /\
  (pv_eqb channel (VInt (iss (self_channels self))) = true ->
   (t = 0x3FF -> out = Ok (<["rain_rate" := VInt 0]> data)) /\
   (t = 0 -> out = Raise ZeroDivisionError) /\
   (t <> 0x3FF -> t <> 0 ->
    exists r : Q,
      out = Ok (<["rain_rate" := VFloat r]> data) /\
      (r == (if Z.land b4 0x40 =? 0 then 57600 else 3600) / inject_Z t
            * rain_per_tip self)%Q)).
Proof.
  intros H0 H3 H4 Hmt Hch t out. unfold out, station_message.
  rewrite (index_lookup _ _ _ H0), (index_lookup _ _ _ H3),
    (index_lookup _ _ _ H4). cbn [mbind result_bind].
  fold (message_type b0). rewrite Hmt.
  change (5 =? 2) with false. change (5 =? 3) with false.
  change (5 =? 4) with false. change (5 =? 5) with true. cbv iota.
  unfold getitem. rewrite Hch. cbn [mbind result_bind].
  fold (time_between_tips_raw b3 b4). fold t.
  split; [by intros ->|]. intros ->.
  assert (forall z : Z, z <> 0 -> ~ (inject_Z z == 0)%Q) as Hnz.
  { intros z Hz Heq. apply Hz. unfold Qeq in Heq. cbn in Heq. lia. }
  split; [|split].
  - intros ->. reflexivity.
  - intros ->. change (0 =? 1023) with false. cbv iota.
    destruct (Z.land b4 64 =? 0); reflexivity.
  - intros Hn1 Hn0. apply Z.eqb_neq in Hn1. rewrite Hn1.
    apply Z.eqb_neq in Hn1.
    destruct (Z.land b4 64 =? 0).
    + rewrite fdiv_ok.
      * cbn [mbind result_bind]. eexists. split; [reflexivity|].
        field. by apply Hnz.
      * intros Heq. apply (Hnz t Hn0).
        assert (inject_Z t == (inject_Z t / 16.0) * 16)%Q as -> by (field; done).
        rewrite Heq. reflexivity.
    + rewrite fdiv_ok by (by apply Hnz).
      cbn [mbind result_bind]. eexists. split; [reflexivity|].
      field. by apply Hnz.
Qed.

End ReadingProperties.


Lemma lookup_potential_tables_ok (norm_fact sensor_raw sensor_temp : Q) (e : exn) :
  lookup_potential norm_fact sensor_raw sensor_temp SM_MAP <> Raise e /\
  lookup_potential norm_fact sensor_raw sensor_temp LW_MAP <> Raise e.
Proof.
  split; intros H.
  - destruct (lookup_potential_within SM_MAP 0 200 SM_MAP_ok SM_MAP_within
                norm_fact sensor_raw sensor_temp) as (q & Hq & _). congruence.
  - destruct (lookup_potential_within LW_MAP 0 15 LW_MAP_ok LW_MAP_within
                norm_fact sensor_raw sensor_temp) as (q & Hq & _). congruence.
Qed.

Lemma fdiv_raises (a b : Q) (e : exn) :
  fdiv a b = Raise e -> e = ZeroDivisionError /\ (b == 0)%Q.
Proof.
  unfold fdiv. destruct (Qeq_bool b 0) eqn:Hb; [|done].
  intros [= <-]. split; [done|]. by apply Qeq_bool_iff.
Qed.

Lemma six_bytes (pkt : list Z) :
  (6 <= length pkt)%nat ->
  exists b0 b1 b2 b3 b4 b5,
    pkt !! 0%nat = Some b0 /\ pkt !! 1%nat = Some b1 /\ pkt !! 2%nat = Some b2 /\
    pkt !! 3%nat = Some b3 /\ pkt !! 4%nat = Some b4 /\ pkt !! 5%nat = Some b5.
Proof.
  intros Hlen.
  destruct pkt as [|b0 [|b1 [|b2 [|b3 [|b4 [|b5 rest]]]]]]; cbn in Hlen; try lia.
  by exists b0, b1, b2, b3, b4, b5.
Qed.

Ltac raise_step H :=
  match type of H with
  | context [if ?b then _ else _] =>
      let E := fresh "Hif" in destruct b eqn:E
  | context [mbind _ ?r] =>
      let E := fresh "Hres" in
      destruct r eqn:E; cbn [mbind result_bind] in H
  end.

Section RaiseProperties.

Variable FtoC : Q -> result Q.
Variable thermistor_temp : Q -> result Q.

(** X11.  On a packet of bytes, at least six of them, with the channel in
    the reading, the station decoder raises in two cases only: a
    rain-rate message (type 5) whose time between tips is 0, with
    [ZeroDivisionError]; and a temperature message (type 8) on which the
    conversion [FtoC] or the thermistor formula raises.  The decoder
    itself raises no [IndexError] and no [KeyError]. *)
Theorem decode_station_packet_raises self (pkt : list Z)
    (data : gmap string pyval) (e : exn) :
  all_bytes pkt -> (6 <= length pkt)%nat -> is_Some (data !! "channel") ->
  decode_station_packet FtoC thermistor_temp self pkt data = Raise e ->
  exists b0 b3 b4 : Z,
    pkt !! 0%nat = Some b0 /\ pkt !! 3%nat = Some b3 /\ pkt !! 4%nat = Some b4 /\
    ((message_type b0 = 5 /\ time_between_tips_raw b3 b4 = 0 /\
      e = ZeroDivisionError) \/
     (message_type b0 = 8 /\
      exists x : Q, FtoC x = Raise e \/ thermistor_temp x = Raise e)).
Proof.
  intros Hb Hlen [channel Hch] H.
  destruct (six_bytes pkt Hlen) as (b0 & b1 & b2 & b3 & b4 & b5 &
                                    H0 & H1 & H2 & H3 & H4 & H5).
  exists b0, b3, b4. split; [done|]. split; [done|]. split; [done|].
  unfold decode_station_packet in H.
  pose proof (all_bytes_lookup _ _ _ Hb H1) as Hs.
  pose proof (all_bytes_lookup _ _ _ Hb H2) as Hd.
  assert (exists dataw, wind_reading pkt data = Ok dataw /\
                        dataw !! "channel" = Some channel) as (dataw & Hw & Hchw).
  { destruct (wind_reading_outcome pkt data b1 b2 ltac:(lia) Hd H1 H2) as [Hno Hyes].
    destruct (decide (b2 = 0 \/ b2 = 255)) as [Hz|Hnz].
    - exists data. by split; [apply Hno|].
    - destruct Hyes as (ec & dir & Heq & _); [tauto|tauto|].
      eexists. split; [exact Heq|]. by rewrite !lookup_insert_ne. }
  rewrite Hw in H. cbn [mbind result_bind] in H.
  unfold station_message, store_by_channel, getitem in H.
  rewrite (index_lookup _ _ _ H0), (index_lookup _ _ _ H3),
    (index_lookup _ _ _ H4), (index_lookup _ _ _ H5), Hchw in H.
  cbn [mbind result_bind] in H. fold (message_type b0) in H.
  fold (time_between_tips_raw b3 b4) in H.
  repeat match goal with
    | H : context [mbind _ _] |- _ => raise_step H
    | H : context [if _ then _ else _] |- _ => raise_step H
    end; try congruence;
    repeat match goal with
    | Hm : (message_type b0 =? _) = true |- _ => apply Z.eqb_eq in Hm
    end.
  all: simplify_eq.
  all: try (right; split; [assumption|]; eexists; eauto; fail).
  all: left; split; [assumption|];
    match goal with Hf : fdiv _ _ = Raise _ |- _ =>
      apply fdiv_raises in Hf as [-> Hq] end; split; [|done].
  - assert (inject_Z (time_between_tips_raw b3 b4) == 0)%Q as Hq'.
    { assert (inject_Z (time_between_tips_raw b3 b4)
              == (inject_Z (time_between_tips_raw b3 b4) / 16.0) * 16)%Q as ->
        by (field; done).
      rewrite Hq. reflexivity. }
    unfold Qeq in Hq'. cbn in Hq'. lia.
  - unfold Qeq in Hq. cbn in Hq. lia.
Qed.

(** X12.  The leaf/soil decoder.  What it writes is a temperature, a soil
    moisture between 0 and 200 or a leaf wetness between 0 and 15, under
    a name that ends in a sensor number from 1 to 8, and nothing else of
    the reading changes; on a packet of at least six bytes it raises only
    when the thermistor formula does. *)
Theorem decode_leaf_soil_packet_fields self (pkt : list Z)
    (data : gmap string pyval) :
  (forall (data' : gmap string pyval) (k : string),
     decode_leaf_soil_packet thermistor_temp self pkt data = Ok data' ->
     data' !! k = data !! k \/
     exists v, data' !! k = Some v /\ leaf_soil_field k v) /\
  (forall e : exn,
     (6 <= length pkt)%nat ->
     decode_leaf_soil_packet thermistor_temp self pkt data = Raise e ->
     exists x : Q, thermistor_temp x = Raise e).
Proof.
  split.
  - intros data' k H. by eapply decode_leaf_soil_outcome.
  - intros e Hlen H.
    destruct (six_bytes pkt Hlen) as (b0 & b1 & b2 & b3 & b4 & b5 &
                                      H0 & H1 & H2 & H3 & H4 & H5).
    unfold decode_leaf_soil_packet in H.
    rewrite (index_lookup _ _ _ H0), (index_lookup _ _ _ H1),
      (index_lookup _ _ _ H2), (index_lookup _ _ _ H3),
      (index_lookup _ _ _ H4), (index_lookup _ _ _ H5) in H.
    cbn [mbind result_bind] in H.
    repeat match goal with
      | p : (_ * _)%type |- _ => destruct p
      | H : context [mbind _ _] |- _ => raise_step H
      | H : context [if _ then _ else _] |- _ => raise_step H
      end; try congruence;
      repeat match goal with
      | Hl : lookup_potential _ _ _ SM_MAP = Raise _ |- _ =>
          by destruct (proj1 (lookup_potential_tables_ok _ _ _ _) Hl)
      | Hl : lookup_potential _ _ _ LW_MAP = Raise _ |- _ =>
          by destruct (proj2 (lookup_potential_tables_ok _ _ _ _) Hl)
      end;
      simplify_eq; eauto.
Qed.

End RaiseProperties.


(** ** Examples for the payload decoding *)

Lemma parse_raw_packet_channel_witness :
  match parse_raw_packet example_FtoC example_thermistor driver_default
          pkt_rain_count with
  | Ok data =>
      exists b0 : Z,
        pkt_rain_count !! 0%nat = Some b0 /\
        data !! "channel" = Some (VInt (Z.land b0 0x7 + 1)) /\
        (1 <= Z.land b0 0x7 + 1 <= 8) /\
        (Z.land b0 0x7 + 1 ∈ [iss (self_channels driver_default);
                              anemometer (self_channels driver_default);
                              temp_hum_1 (self_channels driver_default);
                              temp_hum_2 (self_channels driver_default);
                              leaf_soil (self_channels driver_default)]) /\
        0 <= Z.land (Z.shiftr b0 3) 0x1 <= 1 /\
        exists key, key ∈ battery_keys /\
          data !! key = Some (VInt (Z.land (Z.shiftr b0 3) 0x1))
  | Raise _ => False
  end.
Proof.
  destruct (parse_raw_packet example_FtoC example_thermistor driver_default
              pkt_rain_count) as [data|e] eqn:Hrun.
  - exact (parse_raw_packet_channel example_FtoC example_thermistor
             driver_default pkt_rain_count data Hrun).
  - assert (match parse_raw_packet example_FtoC example_thermistor
                   driver_default pkt_rain_count with
            | Ok _ => True
            | Raise _ => False
            end) as H by (vm_compute; exact I).
    by rewrite Hrun in H.
Defined.

Lemma parse_raw_packet_rain_count_witness :
  exists c : Z, VInt 5 = VInt c /\ 0 <= c <= 127.
Proof.
  assert (match parse_raw_packet example_FtoC example_thermistor driver_default
                  pkt_rain_count with
          | Ok data => data !! "rain_count" = Some (VInt 5)
          | Raise _ => False
          end) as H by (vm_compute; reflexivity).
  destruct (parse_raw_packet example_FtoC example_thermistor driver_default
              pkt_rain_count) as [data|e] eqn:Hrun; [|done].
  exact (parse_raw_packet_rain_count example_FtoC example_thermistor
           driver_default pkt_rain_count data (VInt 5) Hrun H).
Defined.

Lemma wind_reading_fields_witness :
  exists (e : Z) (dir : Q),
    wind_reading pkt_wind ∅
    = Ok (<["wind_speed" := VFloat (inject_Z e * MPH_TO_MPS)%Q]>
           (<["wind_dir" := VFloat dir]>
             (<["wind_speed_raw" := VInt 6]>
               (<["wind_speed_ec" := VInt e]> ∅)))) /\
    (9 <= dir <= 351)%Q /\ 0 <= e /\ 6 - 6 <= e <= 6 + 19.
Proof.
  apply (proj2 (wind_reading_fields pkt_wind ∅ 6 0xB2
                  ltac:(repeat constructor; lia) eq_refl eq_refl)); lia.
Defined.

Lemma rain_rate_message_witness :
  station_message example_FtoC example_thermistor driver_default
    pkt_rain_rate_zero {[ "channel" := VInt 1 ]} = Raise ZeroDivisionError.
Proof.
  pose proof (rain_rate_message example_FtoC example_thermistor driver_default
                pkt_rain_rate_zero {[ "channel" := VInt 1 ]} 0x50 0 0 (VInt 1)
                eq_refl eq_refl eq_refl eq_refl eq_refl) as [_ H].
  destruct (H eq_refl) as (_ & Hzero & _). exact (Hzero eq_refl).
Defined.

Lemma decode_station_packet_raises_witness :
  exists b0 b3 b4 : Z,
    pkt_rain_rate_zero !! 0%nat = Some b0 /\
    pkt_rain_rate_zero !! 3%nat = Some b3 /\
    pkt_rain_rate_zero !! 4%nat = Some b4 /\
    ((message_type b0 = 5 /\ time_between_tips_raw b3 b4 = 0 /\
      ZeroDivisionError = ZeroDivisionError) \/
     (message_type b0 = 8 /\
      exists x : Q, example_FtoC x = Raise ZeroDivisionError \/
                    example_thermistor x = Raise ZeroDivisionError)).
Proof.
  apply (decode_station_packet_raises example_FtoC example_thermistor
           driver_default pkt_rain_rate_zero {[ "channel" := VInt 1 ]}
           ZeroDivisionError).
  - repeat constructor; lia.
  - cbn. lia.
  - by eexists.
  - vm_compute. reflexivity.
Defined.

Lemma decoded_rain_not_negative_witness :
  match parse_raw_packet example_FtoC example_thermistor driver_default
          pkt_rain_count with
  | Ok d =>
      exists tips : Z,
        0 <= tips <= 127 /\
        (_data_to_packet 1001 (_data_to_packet 1000 driver_default d).1 d).2
          !! "rain"
        = Some (VFloat (inject_Z tips * rain_per_tip driver_default)%Q)
  | Raise _ => False
  end.
Proof.
  assert (match parse_raw_packet example_FtoC example_thermistor driver_default
                  pkt_rain_count with
          | Ok d => d !! "rain_count" = Some (VInt 5)
          | Raise _ => False
          end) as H by (vm_compute; reflexivity).
  destruct (parse_raw_packet example_FtoC example_thermistor driver_default
              pkt_rain_count) as [d|e] eqn:Hrun; [|exact H].
  apply (decoded_rain_not_negative example_FtoC example_thermistor
           driver_default pkt_rain_count pkt_rain_count d d 1000 1001
           driver_default Hrun Hrun); by eexists.
Defined.


(** ** The read loop *)

Section LoopProperties.

Variable crc16 : list Z -> Z.
Variable decode_station decode_leaf_soil :
  driver -> list Z -> gmap string pyval -> result (gmap string pyval).

(** A parser either pops the line it was given or raises and leaves the
    list as it is. *)
Lemma PacketFactory_parse_text_pops now self line rest :
  (exists r, PacketFactory_parse_text crc16 decode_station decode_leaf_soil
               now self (line :: rest) = (rest, Ok r)) \/
  (exists e, PacketFactory_parse_text crc16 decode_station decode_leaf_soil
               now self (line :: rest) = (line :: rest, Raise e)).
Proof.
  unfold PacketFactory_parse_text, DATAPacket_parse_text, CHANNELPacket_parse_text.
  repeat match goal with
    | |- context [if ?b then _ else _] => destruct b
    | |- context [match search ?r ?l with _ => _ end] => destruct (search r l)
    | |- context [match ?r with Ok _ => _ | Raise _ => _ end] => destruct r
    end; eauto.
Qed.

Lemma read_lines_run fuel now self lines yielded :
  (length lines <= fuel)%nat ->
  let r := read_lines crc16 decode_station decode_leaf_soil
             fuel now self lines yielded in
  (exists done, lines = done ++ run_lines r /\
     exists new, run_yielded r = yielded ++ new /\
                 (length new <= length done)%nat) /\
  (run_raised r = None -> run_lines r = []).
Proof.
  revert self lines yielded.
  induction fuel as [|fuel IH]; intros self lines yielded Hlen; cbn zeta.
  - destruct lines; [|cbn in Hlen; lia]. cbn. split; [|done].
    exists []. split; [done|]. exists []. by rewrite app_nil_r.
  - destruct lines as [|line rest].
    { cbn. split; [|done]. exists []. split; [done|]. exists [].
      by rewrite app_nil_r. }
    cbn [read_lines]. cbn in Hlen.
    destruct (PacketFactory_parse_text_pops now self line rest)
      as [[r ->]|[e ->]].
    + destruct r as [data|].
      * destruct (handle_data now self data) as [self' [[packet|]|e]].
        -- destruct (IH self' rest (yielded ++ [packet]) ltac:(lia))
             as [(done & Hd & new & Hy & Hn) Hnone].
           split; [|exact Hnone].
           exists (line :: done). split; [by rewrite Hd at 1|].
           exists (packet :: new). rewrite Hy, <- app_assoc. split; [done|].
           cbn. lia.
        -- destruct (IH self' rest yielded ltac:(lia))
             as [(done & Hd & new & Hy & Hn) Hnone].
           split; [|exact Hnone].
           exists (line :: done). split; [by rewrite Hd at 1|].
           exists new. split; [done|]. cbn. lia.
        -- cbn. split; [|done]. exists [line]. split; [done|].
           exists []. rewrite app_nil_r. split; [done|]. cbn. lia.
      * destruct (IH self rest yielded ltac:(lia))
          as [(done & Hd & new & Hy & Hn) Hnone].
        split; [|exact Hnone].
        exists (line :: done). split; [by rewrite Hd at 1|].
        exists new. split; [done|]. cbn. lia.
    + cbn. split; [|done]. exists []. split; [done|].
      exists []. rewrite app_nil_r. split; [done|]. cbn. lia.
Qed.

(** X13.  The inner read loop on one list of lines.  The lines are handled
    in order and none is skipped: what is left in the list is a tail of
    it, empty unless an exception ended the loop; the packets yielded
    before are kept, in order, and at most one packet is added for each
    line consumed. *)
Theorem read_lines_consumes now self lines yielded :
  let r := read_lines crc16 decode_station decode_leaf_soil
             (length lines) now self lines yielded in
  (exists done, lines = done ++ run_lines r /\
     exists new, run_yielded r = yielded ++ new /\
                 (length new <= length done)%nat) /\
  (run_raised r = None -> run_lines r = []).
Proof. by apply read_lines_run. Qed.

(** X14.  [genLoopPackets] over the lists of lines handed over.  The
    packets yielded before are kept, in order; at most one packet is
    added for each line handed over; and a run that no exception ended
    leaves no line behind. *)
Theorem genLoopPackets_run self batches yielded :
  let r := genLoopPackets crc16 decode_station decode_leaf_soil
             self batches yielded in
  (exists new, run_yielded r = yielded ++ new /\
     (length new <= length (concat (map snd batches)))%nat) /\
  (run_raised r = None -> run_lines r = []).
Proof.
  revert self yielded. induction batches as [|[now lines] batches IH];
    intros self yielded; cbn zeta.
  - cbn. split; [|done]. exists []. by rewrite app_nil_r.
  - cbn [genLoopPackets].
    destruct (read_lines_run (length lines) now self lines yielded ltac:(lia))
      as [(done & Hd & new & Hy & Hn) Hnone].
    set (r := read_lines _ _ _ _ _ _ _ _) in *.
    assert (length done <= length lines)%nat as Hdl.
    { pose proof (f_equal length Hd) as Hl. rewrite length_app in Hl. lia. }
    destruct (run_raised r) as [e|] eqn:Hr.
    + split; [|intros ?; congruence]. exists new. split; [done|].
      cbn. rewrite length_app. lia.
    + destruct (IH (run_self r) (run_yielded r)) as [(new' & Hy' & Hn') Hnone'].
      split; [|exact Hnone'].
      exists (new ++ new'). rewrite Hy', Hy, <- app_assoc. split; [done|].
      cbn. rewrite !length_app. lia.
Qed.

End LoopProperties.


(** ** Duplicate readings *)

Lemma pv_eqb_refl (v : pyval) : pv_eqb v v = true.
Proof. unfold pv_eqb. apply Qeq_bool_iff. reflexivity. Qed.

Lemma data_eqb_refl (data : gmap string pyval) : data_eqb data data = true.
Proof.
  unfold data_eqb. rewrite bool_decide_eq_true_2 by done. cbn [andb].
  apply forallb_forall. intros [k v] Hin.
  apply list_elem_of_In, elem_of_map_to_list in Hin. cbn [fst snd].
  rewrite Hin. apply pv_eqb_refl.
Qed.

Lemma _update_stats_one_cases i c st :
  ((i < length (curr_cnt st))%nat /\
   _update_stats_one i c st = (set_curr_cnt (<[i:=c]> (curr_cnt st)) st, Ok tt)) \/
  ((length (curr_cnt st) <= i)%nat /\
   _update_stats_one i c st = (st, Raise IndexError)).
Proof.
  unfold _update_stats_one, store, mbind, SM_bind, get, lift, modify.
  destruct (i <? length (curr_cnt st))%nat eqn:Hi.
  - left. split; [by apply Nat.ltb_lt|done].
  - right. split; [by apply Nat.ltb_ge|done].
Qed.

(** Storing the four counters succeeds exactly when the list has four
    slots, and then changes these four slots and nothing else. *)
Lemma _update_stats_cases n0 n1 n2 n3 st :
  ((4 <= length (curr_cnt st))%nat /\
   _update_stats n0 n1 n2 n3 st
   = (set_curr_cnt
        (<[3%nat:=n3]> (<[2%nat:=n2]> (<[1%nat:=n1]> (<[0%nat:=n0]> (curr_cnt st)))))
        st, Ok tt)) \/
  ((length (curr_cnt st) < 4)%nat /\
   exists st', _update_stats n0 n1 n2 n3 st = (st', Raise IndexError)).
Proof.
  unfold _update_stats. unfold mbind, SM_bind.
  destruct (_update_stats_one_cases 0 n0 st) as [[H0 ->]|[H0 ->]];
    [|right; split; [lia|by eexists]].
  set (s1 := set_curr_cnt _ st).
  assert (length (curr_cnt s1) = length (curr_cnt st)) as L1
    by (unfold s1; cbn; by rewrite length_insert).
  destruct (_update_stats_one_cases 1 n1 s1) as [[H1 ->]|[H1 ->]];
    [|right; split; [lia|by eexists]].
  set (s2 := set_curr_cnt _ s1).
  assert (length (curr_cnt s2) = length (curr_cnt st)) as L2
    by (unfold s2; cbn; by rewrite length_insert).
  destruct (_update_stats_one_cases 2 n2 s2) as [[H2 ->]|[H2 ->]];
    [|right; split; [lia|by eexists]].
  set (s3 := set_curr_cnt _ s2).
  assert (length (curr_cnt s3) = length (curr_cnt st)) as L3
    by (unfold s3; cbn; by rewrite length_insert).
  destruct (_update_stats_one_cases 3 n3 s3) as [[H3 ->]|[H3 ->]];
    [|right; split; [lia|by eexists]].
  left. split; [lia|]. reflexivity.
Qed.

Lemma insert_lookup_same (l : list Z) (i : nat) (x : Z) :
  (i < length l)%nat -> <[i:=x]> l !! i = Some x.
Proof. intros Hi. rewrite list_lookup_insert. by rewrite decide_True. Qed.

Lemma set_curr_cnt_same (st : stats) : set_curr_cnt (curr_cnt st) st = st.
Proof. by destruct st. Qed.

(** The four counters after they were stored, and storing them again
    changes nothing. *)
Lemma _update_stats_stored n0 n1 n2 n3 st st' :
  _update_stats n0 n1 n2 n3 st = (st', Ok tt) ->
  curr_cnt st' !! 0%nat = Some n0 /\ curr_cnt st' !! 1%nat = Some n1 /\
  curr_cnt st' !! 2%nat = Some n2 /\ curr_cnt st' !! 3%nat = Some n3 /\
  _update_stats n0 n1 n2 n3 st' = (st', Ok tt).
Proof.
  intros H.
  destruct (_update_stats_cases n0 n1 n2 n3 st) as [(L & Hu)|(L & st2 & Hu)];
    rewrite Hu in H; [|done].
  injection H as <-. cbn [curr_cnt set_curr_cnt].
  set (l := curr_cnt st) in *.
  assert (<[3%nat:=n3]> (<[2%nat:=n2]> (<[1%nat:=n1]> (<[0%nat:=n0]> l))) !! 0%nat
          = Some n0) as E0.
  { rewrite !list_lookup_insert_ne by lia. apply insert_lookup_same. lia. }
  assert (<[3%nat:=n3]> (<[2%nat:=n2]> (<[1%nat:=n1]> (<[0%nat:=n0]> l))) !! 1%nat
          = Some n1) as E1.
  { rewrite !list_lookup_insert_ne by lia. apply insert_lookup_same.
    rewrite length_insert. lia. }
  assert (<[3%nat:=n3]> (<[2%nat:=n2]> (<[1%nat:=n1]> (<[0%nat:=n0]> l))) !! 2%nat
          = Some n2) as E2.
  { rewrite !list_lookup_insert_ne by lia. apply insert_lookup_same.
    rewrite !length_insert. lia. }
  assert (<[3%nat:=n3]> (<[2%nat:=n2]> (<[1%nat:=n1]> (<[0%nat:=n0]> l))) !! 3%nat
          = Some n3) as E3.
  { apply insert_lookup_same. rewrite !length_insert. lia. }
  do 4 (split; [assumption|]).
  set (l' := <[3%nat:=n3]> _) in *.
  destruct (_update_stats_cases n0 n1 n2 n3 (set_curr_cnt l' st))
    as [(M & ->)|(M & _)].
  - cbn [curr_cnt set_curr_cnt].
    rewrite (list_insert_id l' 0 n0 E0), (list_insert_id l' 1 n1 E1),
      (list_insert_id l' 2 n2 E2), (list_insert_id l' 3 n3 E3).
    reflexivity.
  - cbn [curr_cnt set_curr_cnt] in M. unfold l' in M.
    rewrite !length_insert in M. lia.
Qed.

Lemma _data_to_packet_last_pkt now self data :
  _last_pkt (_data_to_packet now self data).1 = _last_pkt self /\
  self_stats (_data_to_packet now self data).1 = self_stats self.
Proof.
  unfold _data_to_packet. by destruct (data !! "rain_count").
Qed.

Lemma set_self_stats_same (self : driver) :
  set_self_stats (self_stats self) self = self.
Proof. by destruct self. Qed.

(** X15.  A reading that is handled twice in a row is emitted once.  When
    [genLoopPackets] has yielded the packet of a reading, the same
    reading coming again, at whatever time, yields no packet and leaves
    the object as it is, so the rain counter kept in the object is not
    touched and no rain is booked twice.  Its four message counters are
    stored in the statistics all the same: when the reading carries them,
    the statistics hold them after the first and after the second
    handling; a reading without counters leaves the statistics as they
    were before the first. *)
Theorem handle_data_duplicate now now' self data self1 packet :
  handle_data now self data = (self1, Ok (Some packet)) ->
  handle_data now' self1 data = (self1, Ok None) /\
  _last_pkt self1 = Some data /\
  (forall c0 c1 c2 c3,
     data !! "curr_cnt0" = Some c0 -> data !! "curr_cnt1" = Some c1 ->
     data !! "curr_cnt2" = Some c2 -> data !! "curr_cnt3" = Some c3 ->
     _update_stats (pv_int c0) (pv_int c1) (pv_int c2) (pv_int c3)
       (self_stats self) = (self_stats self1, Ok tt) /\
     curr_cnt (self_stats self1) !! 0%nat = Some (pv_int c0) /\
     curr_cnt (self_stats self1) !! 1%nat = Some (pv_int c1) /\
     curr_cnt (self_stats self1) !! 2%nat = Some (pv_int c2) /\
     curr_cnt (self_stats self1) !! 3%nat = Some (pv_int c3)) /\
  (data !! "curr_cnt0" = None -> self_stats self1 = self_stats self).
Proof.
  unfold handle_data. intros H.
  destruct (bool_decide (data = ∅)) eqn:He; [done|]. cbn [negb] in H |- *.
  destruct (bool_decide (is_Some (data !! "curr_cnt0"))) eqn:Hc.
  - unfold getitem in H |- *.
    destruct (data !! "curr_cnt0") as [c0|] eqn:G0; [|done].
    destruct (data !! "curr_cnt1") as [c1|] eqn:G1; [|done].
    destruct (data !! "curr_cnt2") as [c2|] eqn:G2; [|done].
    destruct (data !! "curr_cnt3") as [c3|] eqn:G3; [|done].
    cbn [mbind result_bind] in H |- *.
    destruct (_update_stats (pv_int c0) (pv_int c1) (pv_int c2) (pv_int c3)
                (self_stats self)) as [st' [[]|e]] eqn:Hu; [|done].
    destruct (_update_stats_stored _ _ _ _ _ _ Hu) as (E0 & E1 & E2 & E3 & Hu').
    assert (exists s p,
              _data_to_packet now (set_last_pkt (Some data) (set_self_stats st' self))
                data = (s, p) /\ self1 = s) as (s & p & Hd & ->).
    { destruct (_last_pkt (set_self_stats st' self)) as [last|].
      - destruct (data_eqb data last); [done|]. cbn [negb] in H.
        destruct (_data_to_packet now _ data) as [s p].
        injection H as <- <-. by eexists _, _.
      - cbn [negb] in H. destruct (_data_to_packet now _ data) as [s p].
        injection H as <- <-. by eexists _, _. }
    pose proof (_data_to_packet_last_pkt now
                  (set_last_pkt (Some data) (set_self_stats st' self)) data)
      as [Hl Hs].
    rewrite Hd in Hl, Hs. cbn in Hl, Hs.
    subst st'. rewrite Hu', set_self_stats_same.
    rewrite Hl, data_eqb_refl. cbn [negb].
    split; [reflexivity|]. split; [reflexivity|]. split; [|done].
    intros ? ? ? ? [= <-] [= <-] [= <-] [= <-]. done.
  - assert (data !! "curr_cnt0" = None) as G0.
    { apply bool_decide_eq_false in Hc. by apply eq_None_not_Some. }
    assert (exists s p,
              _data_to_packet now (set_last_pkt (Some data) self) data = (s, p) /\
              self1 = s) as (s & p & Hd & ->).
    { destruct (_last_pkt self) as [last|].
      - destruct (data_eqb data last); [done|]. cbn [negb] in H.
        destruct (_data_to_packet now _ data) as [s p].
        injection H as <- <-. by eexists _, _.
      - cbn [negb] in H. destruct (_data_to_packet now _ data) as [s p].
        injection H as <- <-. by eexists _, _. }
    pose proof (_data_to_packet_last_pkt now (set_last_pkt (Some data) self) data)
      as [Hl Hs].
    rewrite Hd in Hl, Hs. cbn in Hl, Hs.
    rewrite Hl, data_eqb_refl. cbn [negb].
    split; [reflexivity|]. split; [reflexivity|]. split; [|done].
    intros c0 ? ? ? G. rewrite G0 in G. discriminate G.
Qed.

Lemma handle_data_duplicate_witness :
  match handle_data 1000 driver_default reading_counted with
  | (self1, Ok (Some _)) =>
      handle_data 1001 self1 reading_counted = (self1, Ok None) /\
      _last_pkt self1 = Some reading_counted /\
      (forall c0 c1 c2 c3,
         reading_counted !! "curr_cnt0" = Some c0 ->
         reading_counted !! "curr_cnt1" = Some c1 ->
         reading_counted !! "curr_cnt2" = Some c2 ->
         reading_counted !! "curr_cnt3" = Some c3 ->
         _update_stats (pv_int c0) (pv_int c1) (pv_int c2) (pv_int c3)
           (self_stats driver_default) = (self_stats self1, Ok tt) /\
         curr_cnt (self_stats self1) !! 0%nat = Some (pv_int c0) /\
         curr_cnt (self_stats self1) !! 1%nat = Some (pv_int c1) /\
         curr_cnt (self_stats self1) !! 2%nat = Some (pv_int c2) /\
         curr_cnt (self_stats self1) !! 3%nat = Some (pv_int c3)) /\
      (reading_counted !! "curr_cnt0" = None ->
       self_stats self1 = self_stats driver_default)
  | _ => False
  end.
Proof.
  assert (match handle_data 1000 driver_default reading_counted with
          | (_, Ok (Some _)) => True
          | _ => False
          end) as Hrun by (vm_compute; exact I).
  destruct (handle_data 1000 driver_default reading_counted)
    as [self1 [[packet|]|e]] eqn:H; [|exact (False_ind _ Hrun)..].
  exact (handle_data_duplicate 1000 1001 driver_default reading_counted
           self1 packet H).
Defined.


(** ** Exceptions of the archive update *)

Lemma Qfloor_div_zero (period : Z) (lt : Q) :
  (0 < lt)%Q ->
  Qeq_bool (inject_Z (Qfloor (inject_Z period / lt))) 0 = true ->
  (0 <= inject_Z period < lt)%Q.
Proof.
  intros Hlt Hz. apply Qeq_bool_iff in Hz.
  assert (Qfloor (inject_Z period / lt) = 0) as Hf.
  { set (F := Qfloor (inject_Z period / lt)) in *.
    unfold Qeq, inject_Z in Hz. cbn [Qnum Qden] in Hz. lia. }
  pose proof (Qfloor_le (inject_Z period / lt)) as Hlo.
  pose proof (Qlt_floor (inject_Z period / lt)) as Hhi.
  rewrite Hf in Hlo, Hhi. change (inject_Z (0 + 1)) with 1%Q in Hhi.
  change (inject_Z 0) with 0%Q in Hlo.
  assert (inject_Z period == inject_Z period / lt * lt)%Q as Heq.
  { field. intros E. rewrite E in Hlt. by apply Qlt_irrefl in Hlt. }
  clear Hz Hf. set (q := (inject_Z period / lt)%Q) in *. clearbody q.
  set (p := inject_Z period) in *. clearbody p.
  split; nra.
Qed.

Lemma slot_fails_frame period a b i e :
  frame a b -> slot_fails period b i e -> slot_fails period a i e.
Proof.
  intros (Hl & Ha & Hc & Hlc & _) (c & x & H1 & H2 & H3 & H4).
  exists c, x. rewrite <- Hc, <- Ha, <- Hl, <- Hlc. done.
Qed.

Lemma summarize_transmitter_raises period i t st st' e :
  wf st -> (i < 4)%nat ->
  summarize_transmitter period i t st = (st', Raise e) ->
  slot_fails period st i e.
Proof.
  intros Hwf Hi Hrun.
  pose proof (summarize_transmitter_outcome period i t st Hwf Hi) as Hout.
  rewrite Hrun in Hout.
  inversion Hout as [|c x Hc Hpos Hx Hlt| |c x lt lc Hc Hpos Hx Hlt Hlc Hcnt Hz|];
    subst.
  - exists c, x. repeat (split; [done|]). by left.
  - exists c, x. repeat (split; [done|]). right. exists lt, lc.
    repeat (split; [done || lia|]). split; [|done].
    destruct (loop_times_nonzero st x lt Hwf Hlt) as [_ Hpos'].
    by apply Qfloor_div_zero.
Qed.

Lemma summarize_transmitter_next period i t st st' t' :
  wf st -> (i < 4)%nat ->
  summarize_transmitter period i t st = (st', Ok t') ->
  wf st' /\ frame st st'.
Proof.
  intros Hwf Hi Hrun.
  pose proof (summarize_transmitter_outcome period i t st Hwf Hi) as Hout.
  destruct (step_outcome_frame _ _ _ _ _ Hwf Hout) as (W & F & _).
  rewrite Hrun in W, F. done.
Qed.

Lemma four_steps_raises period t st st' e :
  wf st -> four_steps period t st = (st', Raise e) ->
  exists i, (i < 4)%nat /\ slot_fails period st i e.
Proof.
  intros Hwf. unfold four_steps. unfold mbind, SM_bind.
  destruct (summarize_transmitter period 0 t st) as [s1 [t1|e1]] eqn:H1.
  2:{ intros [= <- <-]. exists 0%nat. split; [lia|].
      exact (summarize_transmitter_raises period 0 _ _ _ _ Hwf ltac:(lia) H1). }
  destruct (summarize_transmitter_next period 0 _ _ _ _ Hwf ltac:(lia) H1) as [W1 F1].
  destruct (summarize_transmitter period 1 t1 s1) as [s2 [t2|e2]] eqn:H2.
  2:{ intros [= <- <-]. exists 1%nat. split; [lia|].
      eapply slot_fails_frame; [exact F1|].
      exact (summarize_transmitter_raises period 1 _ _ _ _ W1 ltac:(lia) H2). }
  destruct (summarize_transmitter_next period 1 _ _ _ _ W1 ltac:(lia) H2) as [W2 F2].
  pose proof (frame_trans _ _ _ F1 F2) as F02.
  destruct (summarize_transmitter period 2 t2 s2) as [s3 [t3|e3]] eqn:H3.
  2:{ intros [= <- <-]. exists 2%nat. split; [lia|].
      eapply slot_fails_frame; [exact F02|].
      exact (summarize_transmitter_raises period 2 _ _ _ _ W2 ltac:(lia) H3). }
  destruct (summarize_transmitter_next period 2 _ _ _ _ W2 ltac:(lia) H3) as [W3 F3].
  pose proof (frame_trans _ _ _ F02 F3) as F03.
  intros H4. exists 3%nat. split; [lia|].
  eapply slot_fails_frame; [exact F03|].
  exact (summarize_transmitter_raises period 3 _ _ _ _ W3 ltac:(lia) H4).
Qed.

(** X16.  The exceptions of [_update_summaries].  On statistics of the
    shape the driver keeps, it raises only after the first archive
    record, and only for a slot whose cumulative count is positive: with
    [IndexError] when the transmitter id of the slot has no entry in the
    loop-time table (the marker 9 of a slot without transmitter), and
    with [ZeroDivisionError] when messages arrived since the last record
    and the period is shorter than the loop time of the transmitter, so
    that [max_count] is 0. *)
Theorem update_summaries_raises (now : Z) (st st' : stats) (e : exn) :
  wf st -> _update_summaries now st = (st', Raise e) ->
  0 < last_ts st /\
  exists i, (i < 4)%nat /\ slot_fails (now - last_ts st) st i e.
Proof.
  intros Hwf. rewrite _update_summaries_unfold.
  destruct (0 <? last_ts st) eqn:Hts; [|done].
  apply Z.ltb_lt in Hts. intros H. split; [done|].
  unfold mbind, SM_bind in H.
  destruct (four_steps (now - last_ts st) no_totals (set_curr_ts now st))
    as [s4 [t4|e4]] eqn:H4.
  - destruct (aggregate_ok t4 s4) as [s5 Hagg]. rewrite Hagg in H. done.
  - injection H as <- <-.
    destruct (four_steps_raises _ _ _ _ _ (wf_set_curr_ts _ _ Hwf) H4)
      as (i & Hi & Hf).
    exists i. split; [done|].
    eapply slot_fails_frame; [|exact Hf]. by repeat split.
Qed.

Lemma update_summaries_raises_witness :
  0 < last_ts stats_stray_count /\
  exists i, (i < 4)%nat /\
    slot_fails (1300 - last_ts stats_stray_count) stats_stray_count i IndexError.
Proof.
  assert (exists st', _update_summaries 1300 stats_stray_count
                      = (st', Raise IndexError)) as [st' Hrun]
    by (eexists; vm_compute; reflexivity).
  apply (update_summaries_raises 1300 stats_stray_count st' IndexError);
    [|exact Hrun].
  split; vm_compute; reflexivity.
Defined.


(** ** Active transmitters *)

Lemma ch_to_xmit_scan (a b c d e : Z) (st : stats) :
  ch_to_xmit a b c d e st =
  match (transmitters ← add_transmitter 0 a;
         transmitters ← add_optional transmitters b;
         transmitters ← add_optional transmitters c;
         transmitters ← add_optional transmitters d;
         add_optional transmitters e) with
  | Ok transmitters => scan_transmitters transmitters st
  | Raise e => (st, Raise e)
  end.
Proof.
  unfold ch_to_xmit, scan_transmitters.
  unfold mbind at 1. unfold SM_bind at 1. unfold lift at 1.
  by destruct (_ ≫= _).
Qed.

Lemma ids_before_S (t : Z) (k : nat) :
  ids_before t (S k)
  = ids_before t k ++ (if bit_set t k then [k] else []).
Proof.
  unfold ids_before. rewrite seq_S, filter_app. cbn [Nat.add]. f_equal.
  cbn. by destruct (bit_set t k).
Qed.

Lemma ids_before_length (t : Z) (k : nat) : (length (ids_before t k) <= k)%nat.
Proof.
  unfold ids_before. etransitivity; [apply length_filter|]. by rewrite length_seq.
Qed.

(** One step of the loop: the ids found so far, then the marker 9. *)
Lemma mark_active_step (t : Z) (k : nat) (st : stats) :
  (k < 8)%nat ->
  activeTrIds st
  = ids_before t k ++ replicate (8 - length (ids_before t k)) 9%nat ->
  length (activeTrIdPtrs st) = 8%nat ->
  exists st',
    mark_active t k (Z.shiftl 1 (Z.of_nat k), length (ids_before t k)) st
    = (st', Ok (Z.shiftl 1 (Z.of_nat (S k)), length (ids_before t (S k)))) /\
    activeTrIds st'
    = ids_before t (S k) ++ replicate (8 - length (ids_before t (S k))) 9%nat /\
    length (activeTrIdPtrs st') = 8%nat.
Proof.
  intros Hk Hids Hptrs.
  pose proof (ids_before_length t k) as Hlen.
  assert (Z.shiftl (Z.shiftl 1 (Z.of_nat k)) 1 = Z.shiftl 1 (Z.of_nat (S k))) as Hmask.
  { rewrite Z.shiftl_shiftl by lia. f_equal. lia. }
  unfold mark_active. fold (bit_set t k). rewrite ids_before_S.
  destruct (bit_set t k).
  - unfold mbind, SM_bind, get, lift, modify, mret, SM_ret.
    rewrite store_lt.
    2:{ rewrite Hids, length_app, length_replicate. lia. }
    cbn [activeTrIdPtrs set_activeTrIds].
    rewrite store_lt by lia. rewrite Hmask.
    eexists. split; [|split].
    + f_equal. f_equal. f_equal. rewrite length_app. cbn. lia.
    + cbn [activeTrIds set_activeTrIds set_activeTrIdPtrs]. rewrite Hids.
      rewrite length_app. cbn [length].
      replace (8 - length (ids_before t k))%nat
        with (S (8 - (length (ids_before t k) + 1)))%nat by lia.
      cbn [replicate].
      rewrite insert_app_r_alt by lia. rewrite Nat.sub_diag. cbn.
      by rewrite <- app_assoc.
    + cbn. by rewrite length_insert.
  - unfold mret, SM_ret. rewrite Hmask, app_nil_r.
    eexists. split; [reflexivity|]. done.
Qed.

Lemma scan_transmitters_ids (t : Z) :
  exists st,
    scan_transmitters t _init_stats = (st, Ok (t, length (active_ids t))) /\
    activeTrIds st
    = active_ids t ++ replicate (8 - length (active_ids t)) 9%nat.
Proof.
  unfold scan_transmitters. unfold mbind, SM_bind.
  change (1, 0%nat) with (Z.shiftl 1 (Z.of_nat 0), length (ids_before t 0)).
  destruct (mark_active_step t 0 _init_stats ltac:(lia) eq_refl eq_refl)
    as (s1 & -> & A1 & P1).
  destruct (mark_active_step t 1 s1 ltac:(lia) A1 P1) as (s2 & -> & A2 & P2).
  destruct (mark_active_step t 2 s2 ltac:(lia) A2 P2) as (s3 & -> & A3 & P3).
  destruct (mark_active_step t 3 s3 ltac:(lia) A3 P3) as (s4 & -> & A4 & P4).
  destruct (mark_active_step t 4 s4 ltac:(lia) A4 P4) as (s5 & -> & A5 & P5).
  destruct (mark_active_step t 5 s5 ltac:(lia) A5 P5) as (s6 & -> & A6 & P6).
  destruct (mark_active_step t 6 s6 ltac:(lia) A6 P6) as (s7 & -> & A7 & P7).
  destruct (mark_active_step t 7 s7 ltac:(lia) A7 P7) as (s8 & -> & A8 & P8).
  exists s8. split; [reflexivity|exact A8].
Qed.


Lemma xmit_check_all :
  forallb (fun a => forallb (fun b => forallb (fun c => forallb (fun d =>
    forallb (fun e => xmit_check a b c d e) (Zrange 0 9))
    (Zrange 0 9)) (Zrange 0 9)) (Zrange 0 9)) (Zrange 1 8) = true.
Proof. vm_cast_no_check (eq_refl true). Qed.

Lemma channels_okb_range (a b c d e : Z) :
  channels_okb a b c d e = true ->
  1 <= a <= 8 /\ 0 <= b <= 8 /\ 0 <= c <= 8 /\ 0 <= d <= 8 /\ 0 <= e <= 8.
Proof.
  unfold channels_okb. cbn [forallb].
  rewrite !andb_true_iff, !Z.leb_le. lia.
Qed.

(** X17.  The active transmitters that [ch_to_xmit] enters in the fresh
    statistics.  The count returned is the number of bits set among the
    low eight bits of [transmitters], and [activeTrIds] lists the ids of
    these bits in increasing order, followed by the marker 9.  When the
    ISS channel lies between 1 and 8, the other channels between 0 and 8,
    and no channel is given to two roles, these ids are the channels of
    the roles less one. *)
Theorem ch_to_xmit_active (a b c d e : Z) (st : stats) (t : Z) (n : nat) :
  ch_to_xmit a b c d e _init_stats = (st, Ok (t, n)) ->
  n = length (active_ids t) /\ (n <= 8)%nat /\
  activeTrIds st = active_ids t ++ replicate (8 - n) 9%nat /\
  (channels_okb a b c d e = true -> active_ids t = role_ids [a; b; c; d; e]).
Proof.
  intros Hrun. pose proof Hrun as Hscan. rewrite ch_to_xmit_scan in Hscan.
  destruct (_ ≫= _) as [t'|] eqn:Ht in Hscan; [|done].
  destruct (scan_transmitters_ids t') as (st' & Hs & Hids).
  rewrite Hs in Hscan. injection Hscan as Hst Htr Hn. subst st t n.
  split; [done|]. split; [apply ids_before_length|]. split; [done|].
  intros Hok. destruct (channels_okb_range _ _ _ _ _ Hok) as (Ha & Hb & Hc & Hd & He).
  pose proof (forallb_Zrange _ 1 a 8 xmit_check_all ltac:(lia)) as H1.
  cbv beta in H1.
  pose proof (forallb_Zrange _ 0 b 9 H1 ltac:(lia)) as H2. cbv beta in H2.
  pose proof (forallb_Zrange _ 0 c 9 H2 ltac:(lia)) as H3. cbv beta in H3.
  pose proof (forallb_Zrange _ 0 d 9 H3 ltac:(lia)) as H4. cbv beta in H4.
  pose proof (forallb_Zrange _ 0 e 9 H4 ltac:(lia)) as H5. cbv beta in H5.
  unfold xmit_check in H5. rewrite Hok, Hrun in H5. cbn [negb orb] in H5.
  by apply bool_decide_eq_true in H5.
Qed.

Lemma ch_to_xmit_active_witness :
  active_ids 5 = role_ids [1; 0; 3; 0; 0].
Proof.
  assert (exists st, ch_to_xmit 1 0 3 0 0 _init_stats = (st, Ok (5, 2%nat)))
    as [st Hrun] by (eexists; vm_compute; reflexivity).
  apply (ch_to_xmit_active 1 0 3 0 0 st 5 2 Hrun). reflexivity.
Defined.

(** The statistics, the bit mask and the count of an object that was
    built come from [ch_to_xmit] on the fresh statistics. *)
Lemma init_object_xmit cfg self :
  init_object cfg = Ok self ->
  ch_to_xmit (iss (self_channels self)) (anemometer (self_channels self))
    (leaf_soil (self_channels self)) (temp_hum_1 (self_channels self))
    (temp_hum_2 (self_channels self)) _init_stats
  = (self_stats self, Ok (transmitters self, tr_count self)).
Proof.
  unfold init_object.
  destruct (get_int cfg "debug_parse" 0) as [?|]; [|done].
  destruct (get_int cfg "debug_rain" 0) as [?|]; [|done].
  destruct (get_int cfg "debug_rtld" 0) as [?|]; [|done].
  cbn [mbind result_bind].
  destruct (get_int cfg "rain_bucket_type" _) as [b|]; [|done].
  cbn [mbind result_bind].
  destruct (bool_decide (b ∈ [0; 1])); [|done]. cbn [negb].
  destruct (tobool (stn_dict cfg !! "log_humidity_raw")) as [?|]; [|done].
  destruct (tobool (stn_dict cfg !! "save_pct_good_per_transmitter")) as [?|]; [|done].
  cbn [mbind result_bind].
  destruct (bool_decide (default DEFAULT_FREQUENCY _ ∈ ["US"; "NZ"; "EU"]));
    [|done]. cbn [negb].
  destruct (get_int cfg "iss_channel" 1) as [c1|]; [|done].
  destruct (get_int cfg "anemometer_channel" 0) as [c2|]; [|done].
  destruct (get_int cfg "leaf_soil_channel" 0) as [c3|]; [|done].
  destruct (get_int cfg "temp_hum_1_channel" 0) as [c4|]; [|done].
  destruct (get_int cfg "temp_hum_2_channel" 0) as [c5|]; [|done].
  cbn [mbind result_bind].
  destruct (ch_to_xmit c1 c2 c3 c4 c5 _init_stats) as [st' [[tr n]|]] eqn:Hx; [|done].
  intros [= <-]. cbn. exact Hx.
Qed.

Lemma int_of_float_div (m : Z) (p : positive) :
  0 <= m -> int_of_float (inject_Z m / inject_Z (Zpos p)) = m / Zpos p.
Proof.
  intros Hm. unfold int_of_float, Qdiv, Qinv, Qmult, inject_Z.
  cbn [Qnum Qden]. rewrite Z.mul_1_r, Pos.mul_1_l.
  apply Z.quot_div_nonneg; lia.
Qed.

(** X18.  The start of [genLoopPackets] on an object that was built.
    Without an active transmitter among the ids 0 to 7 the modulus is 0
    and it raises [ZeroDivisionError]; otherwise it never raises, and the
    transmitter whose frequency errors are stored is one of the active
    ones: the entry of the list of active ids at the number of two-day
    periods (counted from three hours after the epoch) modulo the number
    of active transmitters. *)
Theorem genLoopPackets_start_active cfg self (now : Z) :
  init_object cfg = Ok self ->
  tr_count self = length (active_ids (transmitters self)) /\
  (tr_count self = 0%nat ->
   genLoopPackets_start now self = Raise ZeroDivisionError) /\
  (tr_count self <> 0%nat ->
   exists id,
     genLoopPackets_start now self = Ok (set_transm_to_store id self) /\
     active_ids (transmitters self)
       !! Z.to_nat ((now - 10800) `mod` (172800 * Z.of_nat (tr_count self))
                    / 172800) = Some id /\
     (id < 8)%nat /\ bit_set (transmitters self) id = true).
Proof.
  intros Hinit. pose proof (init_object_xmit cfg self Hinit) as Hx.
  pose proof Hx as Hscan. rewrite ch_to_xmit_scan in Hscan.
  destruct (_ ≫= _) as [t'|] eqn:Ht in Hscan; [|done].
  destruct (scan_transmitters_ids t') as (st' & Hs & Hids).
  rewrite Hs in Hscan. injection Hscan as Hst Htr Hn. subst t'.
  split; [done|]. unfold genLoopPackets_start, py_mod.
  change (2 * 24 * 3600) with 172800. change (3 * 3600) with 10800.
  split.
  - intros ->. reflexivity.
  - intros Hnz.
    replace (172800 * Z.of_nat (tr_count self) =? 0) with false
      by (symmetry; apply Z.eqb_neq; lia).
    cbn [mbind result_bind].
    set (m := (now - 10800) `mod` (172800 * Z.of_nat (tr_count self))).
    assert (0 <= m < 172800 * Z.of_nat (tr_count self)) as Hm
      by (apply Z.mod_pos_bound; lia).
    rewrite fdiv_ok by (intros E; vm_compute in E; discriminate E).
    cbn [mbind result_bind].
    rewrite int_of_float_div by lia.
    assert (0 <= m / 172800 < Z.of_nat (tr_count self)) as Hrel.
    { split; [apply Z.div_pos; lia|]. apply Z.div_lt_upper_bound; lia. }
    unfold list_getitem.
    replace (m / 172800 <? 0) with false by (symmetry; apply Z.ltb_ge; lia).
    destruct (lookup_lt_is_Some_2 (active_ids (transmitters self))
                (Z.to_nat (m / 172800))) as [id Hid]; [lia|].
    exists id.
    rewrite <- Hst, Hids.
    rewrite (index_lookup _ _ id) by (by apply lookup_app_l_Some).
    cbn [mbind result_bind]. split; [done|]. split; [exact Hid|].
    apply list_elem_of_lookup_2 in Hid. unfold active_ids, ids_before in Hid.
    apply list_elem_of_filter in Hid as [Hbit Hin].
    apply elem_of_seq in Hin. split; [lia|done].
Qed.

Lemma genLoopPackets_start_active_witness :
  exists id,
    genLoopPackets_start 1700000000 driver_default
    = Ok (set_transm_to_store id driver_default) /\
    (id < 8)%nat /\ bit_set (transmitters driver_default) id = true.
Proof.
  destruct (genLoopPackets_start_active config_default driver_default
              1700000000 init_default) as (_ & _ & Hrun).
  destruct Hrun as (id & Hrun & _ & Hid & Hbit); [discriminate|].
  exists id. split; [exact Hrun|]. split; [exact Hid|exact Hbit].
Defined.


(** ** The patterns and the fields they capture *)

Lemma plus_loop_sound (r : regex) m (k : cont) :
  sound r m ->
  forall fuel pos s caps res,
    plus_loop m k fuel pos s caps = Some res ->
    exists s1 s2 g,
      s = s1 ++ s2 /\ sem (Plus r) s1 g /\
      k (pos + length s1)%nat s2 (caps ++ g) = Some res.
Proof.
  intros Hm. induction fuel as [|fuel IH]; intros pos s caps res H.
  - cbn in H. apply Hm in H as (s1 & s2 & g & -> & Hs & Hk).
    exists s1, s2, g. split; [done|]. split; [by apply sem_plus_one|done].
  - cbn [plus_loop] in H. apply Hm in H as (s1 & s2 & g & -> & Hs & Hk).
    fold (plus_loop m k) in Hk.
    destruct (pos <? pos + length s1)%nat.
    + destruct (plus_loop m k fuel (pos + length s1) s2 (caps ++ g)) as [res'|] eqn:Hmore.
      * injection Hk as <-.
        apply IH in Hmore as (s1' & s2' & g' & -> & Hs' & Hk').
        exists (s1 ++ s1'), s2', (g ++ g').
        split; [by rewrite app_assoc|]. split; [by apply sem_plus_more|].
        by rewrite length_app, Nat.add_assoc, app_assoc.
      * exists s1, s2, g. split; [done|]. split; [by apply sem_plus_one|done].
    + exists s1, s2, g. split; [done|]. split; [by apply sem_plus_one|done].
Qed.

Lemma rep_sound (r : regex) :
  sound r (rmatch r) -> forall n, sound (Rep n r) (rmatch (Rep n r)).
Proof.
  intros Hr. induction n as [|n IH]; intros pos s caps k res H.
  - cbn in H. exists [], s, []. split; [done|]. split; [constructor|].
    by rewrite Nat.add_0_r, app_nil_r.
  - change (rmatch r pos s caps
              (fun pos' s' caps' => rmatch (Rep n r) pos' s' caps' k) = Some res) in H.
    apply Hr in H as (s1 & s2 & g & -> & Hs & Hk).
    apply IH in Hk as (s1' & s2' & g' & -> & Hs' & Hk').
    exists (s1 ++ s1'), s2', (g ++ g').
    split; [by rewrite app_assoc|]. split; [by constructor|].
    by rewrite length_app, Nat.add_assoc, app_assoc.
Qed.

(** The matcher is sound: a match consumes a text of the pattern and
    appends its groups. *)
Lemma rmatch_sound (r : regex) : sound r (rmatch r).
Proof.
  induction r as [c|p| | |r1 IH1 r2 IH2|n r1 IH1|r1 IH1|r1 IH1];
    intros pos s caps k res H.
  - cbn in H. destruct s as [|c' s']; [done|].
    destruct (Ascii.eqb c c') eqn:Hc; [|done]. apply Ascii.eqb_eq in Hc as <-.
    exists [c], s', []. split; [done|]. split; [constructor|].
    by rewrite Nat.add_1_r, app_nil_r.
  - cbn in H. destruct s as [|c' s']; [done|].
    destruct (p c') eqn:Hc; [|done].
    exists [c'], s', []. split; [done|]. split; [by constructor|].
    by rewrite Nat.add_1_r, app_nil_r.
  - cbn in H. destruct s as [|c' s']; [done|].
    destruct (Ascii.eqb c' "010"); [done|].
    exists [c'], s', []. split; [done|]. split; [constructor|].
    by rewrite Nat.add_1_r, app_nil_r.
  - cbn in H. destruct (pos =? 0)%nat; [|done].
    exists [], s, []. split; [done|]. split; [constructor|].
    by rewrite Nat.add_0_r, app_nil_r.
  - cbn in H. apply IH1 in H as (s1 & s2 & g & -> & Hs & Hk).
    apply IH2 in Hk as (s1' & s2' & g' & -> & Hs' & Hk').
    exists (s1 ++ s1'), s2', (g ++ g').
    split; [by rewrite app_assoc|]. split; [by constructor|].
    by rewrite length_app, Nat.add_assoc, app_assoc.
  - by apply (rep_sound r1 IH1 n).
  - change (plus_loop (rmatch r1) k (length s) pos s caps = Some res) in H.
    by apply (plus_loop_sound r1 _ k IH1) in H.
  - cbn in H. apply IH1 in H as (s1 & s2 & g & -> & Hs & Hk).
    replace (pos + length s1 - pos)%nat with (length s1) in Hk by lia.
    rewrite take_app_length in Hk.
    exists s1, s2, (g ++ [string_of_list_ascii s1]).
    split; [done|]. split; [by constructor|]. by rewrite app_assoc.
Qed.

Lemma search_from_sound (r : regex) (s : list ascii) (pos : nat) (m : list string) :
  search_from r pos s = Some m -> exists s1, sem r s1 m.
Proof.
  revert pos. induction s as [|c s IH]; intros pos H; cbn [search_from] in H.
  - destruct (rmatch r pos [] [] _) as [caps|] eqn:Hm; [|done].
    injection H as <-. apply rmatch_sound in Hm as (s1 & s2 & g & _ & Hs & Hk).
    injection Hk as <-. by exists s1.
  - destruct (rmatch r pos (c :: s) [] _) as [caps|] eqn:Hm.
    + injection H as <-. apply rmatch_sound in Hm as (s1 & s2 & g & _ & Hs & Hk).
      injection Hk as <-. by exists s1.
    + by apply IH in H.
Qed.

Lemma search_sound (r : regex) (subject : string) (m : list string) :
  search r subject = Some m -> exists s1, sem r s1 m.
Proof. apply search_from_sound. Qed.


Lemma sem_cat_inv r1 r2 s g :
  sem (Cat r1 r2) s g ->
  exists s1 s2 g1 g2, s = s1 ++ s2 /\ g = g1 ++ g2 /\ sem r1 s1 g1 /\ sem r2 s2 g2.
Proof. intros H. inversion H; subst. by eexists _, _, _, _. Qed.

Lemma sem_lit_inv c s g : sem (Lit c) s g -> g = [].
Proof. intros H. by inversion H. Qed.

Lemma sem_hex_group s g : sem (Grp (Rep 2 hx)) s g -> exists h, g = [h] /\ hex_field h.
Proof.
  intros H. inversion H as [| | | | | | | | |r s' g' H1]; subst.
  inversion H1 as [| | | | | |n r sa sb ga gb Ha Hb| | |]; subst.
  inversion Hb as [| | | | | |n r sc sd gc gd Hc Hd| | |]; subst.
  inversion Hd; subst.
  unfold hx in Ha, Hc.
  inversion Ha as [|p1 c1 Hc1| | | | | | | |]; subst.
  inversion Hc as [|p2 c2 Hc2| | | | | | | |]; subst.
  eexists. split; [reflexivity|]. exists c1, c2. by repeat split.
Qed.

Lemma sem_plus_class (p : ascii -> bool) s g :
  sem (Plus (Class p)) s g ->
  s <> [] /\ Forall (fun c => p c = true) s /\ g = [].
Proof.
  intros H. remember (Plus (Class p)) as r eqn:Hr.
  induction H as [| | | | | | |r s g H _|r s1 s2 g1 g2 H1 _ H2 IH|]; try done.
  - injection Hr as ->. inversion H; subst. split; [done|]. split; [|done].
    by constructor.
  - injection Hr as ->. inversion H1; subst.
    destruct (IH eq_refl) as (_ & Hall & ->).
    split; [done|]. split; [|done]. by constructor.
Qed.

Lemma sem_dec_group s g : sem (Grp (Plus d)) s g -> exists h, g = [h] /\ dec_field h.
Proof.
  intros H. inversion H as [| | | | | | | | |r s' g' H1]; subst.
  unfold d in H1. apply sem_plus_class in H1 as (Hne & Hall & ->).
  eexists. split; [reflexivity|]. by exists s.
Qed.

(** The groups of a line that [DATAPacket.PATTERN] matches: eight fields
    of two hexadecimal digits, then four fields of decimal digits. *)
Lemma DATAPacket_PATTERN_groups (line : string) (m : list string) :
  search DATAPacket_PATTERN line = Some m ->
  exists h1 h2 h3 h4 h5 h6 h7 h8 c0 c1 c2 c3,
    m = [h1; h2; h3; h4; h5; h6; h7; h8; c0; c1; c2; c3] /\
    Forall hex_field [h1; h2; h3; h4; h5; h6; h7; h8] /\
    Forall dec_field [c0; c1; c2; c3].
Proof.
  intros H. apply search_sound in H as [s H].
  unfold DATAPacket_PATTERN in H. cbn [cats] in H.
  repeat match goal with
    | H : sem (Cat _ _) _ _ |- _ =>
        apply sem_cat_inv in H as (? & ? & ? & ? & -> & -> & ? & ?)
    | H : sem (Lit _) _ _ |- _ => apply sem_lit_inv in H as ->
    | H : sem (Grp (Rep 2 hx)) _ _ |- _ =>
        apply sem_hex_group in H as (? & -> & ?)
    | H : sem (Grp (Plus d)) _ _ |- _ =>
        apply sem_dec_group in H as (? & -> & ?)
    end.
  cbn [app]. eexists _, _, _, _, _, _, _, _, _, _, _, _.
  split; [reflexivity|]. split; repeat constructor; assumption.
Qed.

Lemma all_ascii_In (c : ascii) : In c all_ascii.
Proof.
  unfold all_ascii. apply in_map_iff. exists (nat_of_ascii c).
  split; [apply ascii_nat_embedding|]. apply in_seq.
  pose proof (nat_ascii_bounded c). lia.
Qed.

Lemma hex_chars_In (c : ascii) : is_upper_hex c = true -> In c hex_chars.
Proof. intros Hc. apply filter_In. split; [apply all_ascii_In|done]. Qed.

Lemma hex_pair_ok_all :
  forallb (fun c1 => forallb (fun c2 => hex_pair_ok c1 c2) hex_chars) hex_chars
  = true.
Proof. vm_compute. reflexivity. Qed.

Lemma hex_field_byte (g : string) :
  hex_field g -> exists v, py_int_base 16 g = Ok v /\ 0 <= v < 256.
Proof.
  intros (c1 & c2 & H1 & H2 & ->).
  pose proof (proj1 (forallb_forall _ _) hex_pair_ok_all c1 (hex_chars_In c1 H1))
    as Hrow.
  cbv beta in Hrow.
  pose proof (proj1 (forallb_forall _ _) Hrow c2 (hex_chars_In c2 H2)) as Hcell.
  cbv beta in Hcell. unfold hex_pair_ok in Hcell.
  destruct (py_int_base 16 _) as [v|]; [|done].
  exists v. split; [done|].
  apply andb_true_iff in Hcell as [Hlo Hhi].
  apply Z.leb_le in Hlo. apply Z.ltb_lt in Hhi. lia.
Qed.

Lemma digit_ok_all : forallb digit_ok all_ascii = true.
Proof. vm_compute. reflexivity. Qed.

Lemma is_digit_ok (c : ascii) :
  is_digit c = true ->
  is_space c = false /\ Ascii.eqb c "-" = false /\ Ascii.eqb c "+" = false /\
  Ascii.eqb c "_" = false /\ exists v, digit_of 10 c = Some v /\ 0 <= v < 10.
Proof.
  intros Hd.
  pose proof (proj1 (forallb_forall _ _) digit_ok_all c (all_ascii_In c)) as H.
  unfold digit_ok in H. rewrite Hd in H. cbn [negb orb] in H.
  rewrite !andb_true_iff, !negb_true_iff in H.
  destruct H as ((((Hs & Hm) & Hp) & Hu) & Hv).
  repeat (split; [done|]).
  destruct (digit_of 10 c) as [v|]; [|done]. exists v. split; [done|].
  apply andb_true_iff in Hv as [Hlo Hhi].
  apply Z.leb_le in Hlo. apply Z.ltb_lt in Hhi. lia.
Qed.

Lemma digits_ok (ds : list ascii) (acc : Z) :
  Forall (fun c => is_digit c = true) ds -> 0 <= acc ->
  exists n, digits 10 acc ds = Some n /\ 0 <= n.
Proof.
  intros Hall. revert acc. induction Hall as [|c ds Hc _ IH]; intros acc Hacc.
  - exists acc. by split.
  - destruct (is_digit_ok c Hc) as (_ & _ & _ & Hu & v & Hv & Hr).
    cbn [digits]. rewrite Hu, Hv. apply IH. lia.
Qed.

Lemma lstrip_digit (c : ascii) (s : list ascii) :
  is_digit c = true -> lstrip (c :: s) = c :: s.
Proof.
  intros Hc. destruct (is_digit_ok c Hc) as (Hs & _). cbn. by rewrite Hs.
Qed.

Lemma strip_digits (ds : list ascii) :
  ds <> [] -> Forall (fun c => is_digit c = true) ds ->
  strip (string_of_list_ascii ds) = string_of_list_ascii ds.
Proof.
  intros Hne Hall. unfold strip. rewrite list_ascii_of_string_of_list_ascii.
  f_equal.
  assert (lstrip ds = ds) as ->.
  { destruct Hall as [|c ds' Hc _]; [done|]. by apply lstrip_digit. }
  assert (lstrip (rev ds) = rev ds) as ->; [|apply rev_involutive].
  destruct (rev ds) as [|c t] eqn:Hrev.
  - done.
  - apply lstrip_digit.
    assert (In c ds) as Hin.
    { apply in_rev. rewrite Hrev. by left. }
    rewrite Forall_forall in Hall. by apply Hall, list_elem_of_In.
Qed.

Lemma count_digits_run (ds : list ascii) (n : Z) :
  Forall (fun c => is_digit c = true) ds ->
  count_digits 10 false n ds = Some (n + Z.of_nat (length ds)).
Proof.
  intros Hall. revert n. induction Hall as [|c ds Hc _ IH]; intros n.
  - cbn. f_equal. lia.
  - destruct (is_digit_ok c Hc) as (_ & _ & _ & Hu & v & Hv & _).
    cbn [count_digits]. rewrite Hu, Hv, IH. f_equal. cbn [length]. lia.
Qed.

Lemma length_string_of_list_ascii (ds : list ascii) :
  String.length (string_of_list_ascii ds) = length ds.
Proof. induction ds as [|c ds IH]; [done|]. cbn. by rewrite IH. Qed.

(** [int()] on a field of decimal digits: its value, which is not
    negative, unless the field has more than 4300 digits. *)
Lemma dec_field_count (g : string) :
  dec_field g ->
  if over_digit_limit g then
    py_int g = Raise (digit_limit_error (Z.of_nat (String.length g)))
  else exists n, py_int g = Ok n /\ 0 <= n.
Proof.
  intros (ds & Hne & Hall & ->). unfold over_digit_limit, py_int, py_int_base.
  rewrite strip_digits by done.
  rewrite list_ascii_of_string_of_list_ascii, length_string_of_list_ascii.
  destruct Hall as [|c ds Hc Hall]; [done|].
  destruct (is_digit_ok c Hc) as (_ & Hm & Hp & Hu & v & Hv & Hr).
  rewrite Hm, Hp.
  change (Z.land 10 (10 - 1) =? 0) with false. cbv iota.
  cbn [count_digits]. rewrite Hu, Hv, (count_digits_run ds _ Hall).
  replace (0 + 1 + Z.of_nat (length ds)) with (Z.of_nat (length (c :: ds)))
    by (cbn [length]; lia).
  destruct (int_max_str_digits <? Z.of_nat (length (c :: ds))); [done|].
  destruct (digits_ok ds v Hall ltac:(lia)) as (n & -> & Hn).
  by exists n.
Qed.

(** The limit is met: a counter of 4301 digits does not convert. *)
Lemma py_int_long_counter :
  py_int long_counter = Raise (digit_limit_error 4301).
Proof. vm_compute. reflexivity. Qed.


Section DataLineProperties.

Variable crc16 : list Z -> Z.
Variable decode_station decode_leaf_soil :
  driver -> list Z -> gmap string pyval -> result (gmap string pyval).

(** X19.  A line that [DATAPacket.PATTERN] matches.  Its eight byte fields
    always convert to eight integers between 0 and 255.  The parser
    raises the CRC error, or hands exactly these eight bytes to
    [parse_raw] and passes on its exception, leaving the line.  When
    [parse_raw] returns a reading, the four counters are converted in
    order: when none has more than 4300 digits they convert to integers
    that are not negative, the line is popped and the reading is returned
    with the four counters; otherwise [int()] raises [ValueError] on the
    first counter of more than 4300 digits and the line is left. *)
Theorem DATAPacket_parse_text_fields self (line : string) (rest : list string)
    (m : list string) :
  search DATAPacket_PATTERN line = Some m ->
  exists (raw_msg : list Z) (g0 g1 g2 g3 : string),
    frame_bytes m = Ok raw_msg /\
    length raw_msg = 8%nat /\ all_bytes raw_msg /\
    group m 9 = Ok g0 /\ group m 10 = Ok g1 /\
    group m 11 = Ok g2 /\ group m 12 = Ok g3 /\
    match List.find over_digit_limit [g0; g1; g2; g3] with
    | None =>
        exists c0 c1 c2 c3 : Z,
          py_int g0 = Ok c0 /\ py_int g1 = Ok c1 /\
          py_int g2 = Ok c2 /\ py_int g3 = Ok c3 /\
          0 <= c0 /\ 0 <= c1 /\ 0 <= c2 /\ 0 <= c3 /\
          DATAPacket_parse_text crc16 decode_station decode_leaf_soil self
            (line :: rest)
          = if negb (crc16 raw_msg =? 0) then
              (line :: rest, Raise (ValueError "CRC error"))
            else
              match parse_raw decode_station decode_leaf_soil self raw_msg with
              | Ok pkt =>
                  (rest,
                   Ok (Some (<["curr_cnt3" := VInt c3]>
                              (<["curr_cnt2" := VInt c2]>
                                (<["curr_cnt1" := VInt c1]>
                                  (<["curr_cnt0" := VInt c0]> pkt))))))
              | Raise e => (line :: rest, Raise e)
              end
    | Some g =>
        DATAPacket_parse_text crc16 decode_station decode_leaf_soil self
          (line :: rest)
        = if negb (crc16 raw_msg =? 0) then
            (line :: rest, Raise (ValueError "CRC error"))
          else
            match parse_raw decode_station decode_leaf_soil self raw_msg with
            | Ok _ =>
                (line :: rest,
                 Raise (digit_limit_error (Z.of_nat (String.length g))))
            | Raise e => (line :: rest, Raise e)
            end
    end.
Proof.
  intros Hm.
  destruct (DATAPacket_PATTERN_groups line m Hm)
    as (h1 & h2 & h3 & h4 & h5 & h6 & h7 & h8 & g0 & g1 & g2 & g3 & -> & Hh & Hc).
  apply Forall_cons in Hh as [F1 Hh]. apply Forall_cons in Hh as [F2 Hh].
  apply Forall_cons in Hh as [F3 Hh]. apply Forall_cons in Hh as [F4 Hh].
  apply Forall_cons in Hh as [F5 Hh]. apply Forall_cons in Hh as [F6 Hh].
  apply Forall_cons in Hh as [F7 Hh]. apply Forall_cons in Hh as [F8 _].
  apply Forall_cons in Hc as [D0 Hc]. apply Forall_cons in Hc as [D1 Hc].
  apply Forall_cons in Hc as [D2 Hc]. apply Forall_cons in Hc as [D3 _].
  apply hex_field_byte in F1 as (b1 & E1 & B1).
  apply hex_field_byte in F2 as (b2 & E2 & B2).
  apply hex_field_byte in F3 as (b3 & E3 & B3).
  apply hex_field_byte in F4 as (b4 & E4 & B4).
  apply hex_field_byte in F5 as (b5 & E5 & B5).
  apply hex_field_byte in F6 as (b6 & E6 & B6).
  apply hex_field_byte in F7 as (b7 & E7 & B7).
  apply hex_field_byte in F8 as (b8 & E8 & B8).
  apply dec_field_count in D0 as N0. apply dec_field_count in D1 as N1.
  apply dec_field_count in D2 as N2. apply dec_field_count in D3 as N3.
  exists [b1; b2; b3; b4; b5; b6; b7; b8], g0, g1, g2, g3.
  unfold DATAPacket_parse_text, frame_bytes, _check_crc. rewrite Hm.
  cbn [seq mapM group index lookup list_lookup Nat.add Nat.sub mbind result_bind
       mret result_ret fmap].
  rewrite E1, E2, E3, E4, E5, E6, E7, E8.
  cbn [mbind result_bind mret result_ret].
  split; [reflexivity|]. split; [reflexivity|].
  split; [by repeat (constructor; [assumption|])|].
  do 4 (split; [reflexivity|]).
  cbn [List.find].
  destruct (over_digit_limit g0).
  { rewrite N0.
    destruct (crc16 [b1; b2; b3; b4; b5; b6; b7; b8] =? 0);
      cbn [negb mbind result_bind]; [|reflexivity].
    by destruct (parse_raw decode_station decode_leaf_soil self
                   [b1; b2; b3; b4; b5; b6; b7; b8]). }
  destruct N0 as (n0 & N0 & P0). rewrite N0.
  destruct (over_digit_limit g1).
  { rewrite N1.
    destruct (crc16 [b1; b2; b3; b4; b5; b6; b7; b8] =? 0);
      cbn [negb mbind result_bind]; [|reflexivity].
    by destruct (parse_raw decode_station decode_leaf_soil self
                   [b1; b2; b3; b4; b5; b6; b7; b8]). }
  destruct N1 as (n1 & N1 & P1). rewrite N1.
  destruct (over_digit_limit g2).
  { rewrite N2.
    destruct (crc16 [b1; b2; b3; b4; b5; b6; b7; b8] =? 0);
      cbn [negb mbind result_bind]; [|reflexivity].
    by destruct (parse_raw decode_station decode_leaf_soil self
                   [b1; b2; b3; b4; b5; b6; b7; b8]). }
  destruct N2 as (n2 & N2 & P2). rewrite N2.
  destruct (over_digit_limit g3).
  { rewrite N3.
    destruct (crc16 [b1; b2; b3; b4; b5; b6; b7; b8] =? 0);
      cbn [negb mbind result_bind]; [|reflexivity].
    by destruct (parse_raw decode_station decode_leaf_soil self
                   [b1; b2; b3; b4; b5; b6; b7; b8]). }
  destruct N3 as (n3 & N3 & P3). rewrite N3.
  exists n0, n1, n2, n3.
  do 4 (split; [reflexivity|]). do 4 (split; [assumption|]).
  destruct (crc16 [b1; b2; b3; b4; b5; b6; b7; b8] =? 0);
    cbn [negb mbind result_bind]; [|reflexivity].
  by destruct (parse_raw decode_station decode_leaf_soil self
                 [b1; b2; b3; b4; b5; b6; b7; b8]).
Qed.

End DataLineProperties.

Lemma DATAPacket_parse_text_fields_witness :
  exists (raw_msg : list Z) (g0 g1 g2 g3 : string),
    frame_bytes ["E0"; "00"; "00"; "05"; "05"; "00"; "9F"; "3D";
                 "5"; "3"; "2"; "1"] = Ok raw_msg /\
    length raw_msg = 8%nat /\ all_bytes raw_msg /\
    group ["E0"; "00"; "00"; "05"; "05"; "00"; "9F"; "3D";
           "5"; "3"; "2"; "1"] 9 = Ok g0 /\
    group ["E0"; "00"; "00"; "05"; "05"; "00"; "9F"; "3D";
           "5"; "3"; "2"; "1"] 10 = Ok g1 /\
    group ["E0"; "00"; "00"; "05"; "05"; "00"; "9F"; "3D";
           "5"; "3"; "2"; "1"] 11 = Ok g2 /\
    group ["E0"; "00"; "00"; "05"; "05"; "00"; "9F"; "3D";
           "5"; "3"; "2"; "1"] 12 = Ok g3 /\
    match List.find over_digit_limit [g0; g1; g2; g3] with
    | None =>
        exists c0 c1 c2 c3 : Z,
          py_int g0 = Ok c0 /\ py_int g1 = Ok c1 /\
          py_int g2 = Ok c2 /\ py_int g3 = Ok c3 /\
          0 <= c0 /\ 0 <= c1 /\ 0 <= c2 /\ 0 <= c3 /\
          DATAPacket_parse_text crc16_ccitt decode_nothing decode_nothing
            driver_default [line_rain_count]
          = if negb (crc16_ccitt raw_msg =? 0) then
              ([line_rain_count], Raise (ValueError "CRC error"))
            else
              match parse_raw decode_nothing decode_nothing driver_default
                      raw_msg with
              | Ok pkt =>
                  ([],
                   Ok (Some (<["curr_cnt3" := VInt c3]>
                              (<["curr_cnt2" := VInt c2]>
                                (<["curr_cnt1" := VInt c1]>
                                  (<["curr_cnt0" := VInt c0]> pkt))))))
              | Raise e => ([line_rain_count], Raise e)
              end
    | Some g =>
        DATAPacket_parse_text crc16_ccitt decode_nothing decode_nothing
          driver_default [line_rain_count]
        = if negb (crc16_ccitt raw_msg =? 0) then
            ([line_rain_count], Raise (ValueError "CRC error"))
          else
            match parse_raw decode_nothing decode_nothing driver_default
                    raw_msg with
            | Ok _ =>
                ([line_rain_count],
                 Raise (digit_limit_error (Z.of_nat (String.length g))))
            | Raise e => ([line_rain_count], Raise e)
            end
    end.
Proof.
  apply (DATAPacket_parse_text_fields crc16_ccitt decode_nothing decode_nothing
           driver_default line_rain_count []).
  vm_compute. reflexivity.
Defined.

(** The limit is met on a line: the second counter of
    [line_long_counter] has 4301 digits, and the parser raises on it and
    leaves the line. *)
Lemma DATAPacket_parse_text_long_counter :
  DATAPacket_parse_text crc16_ccitt decode_nothing decode_nothing
    driver_default [line_long_counter]
  = ([line_long_counter], Raise (digit_limit_error 4301)).
Proof. vm_compute. reflexivity. Qed.
